(** * baresip: generic media stream, audio pipeline and RTP keepalive

    A shallow embedding of [stream.c], [audio.c] and [rtpkeep.c].  Machine
    integers are [Z] with the wrap-around written out; the calls into libre
    (sockets, timers, jitter buffer, SDP, codecs) are recorded as a trace of
    [event]s, and what those calls return is read from an environment
    record, so that every C function becomes a total Rocq function from
    (environment, state, arguments) to (state, result, trace). *)

From Stdlib Require Import ZArith List String Ascii Bool Lia.
Import ListNotations.
Open Scope Z_scope.

(** ** Machine integers *)

Definition wrap8 (x : Z) : Z := x mod 2 ^ 8.
Definition wrap16 (x : Z) : Z := x mod 2 ^ 16.
Definition wrap32 (x : Z) : Z := x mod 2 ^ 32.
(** [size_t] on an LP64 target. *)
Definition wrapsz (x : Z) : Z := x mod 2 ^ 64.

(** [(uint32_t)-1], the "no sequence number yet" value of [pseq]. *)
Definition UINT32_MAX : Z := 2 ^ 32 - 1.

(** errno values (Linux numbering). *)
Definition ENOENT : Z := 2.
Definition ENOMEM : Z := 12.
Definition EINVAL : Z := 22.
Definition ENOSYS : Z := 38.

(** Constants of baresip's [core.h].  The header is not among the embedded
    sources, so the model takes them as parameters. *)
Record core_h := {
  PT_CN : Z;          (* comfort-noise payload type *)
  PT_NONE : Z;        (* "no payload type", stored in a uint8_t *)
  PT_DYN_MIN : Z;     (* dynamic payload types: lowest *)
  PT_DYN_MAX : Z;     (* dynamic payload types: highest *)
  STREAM_PRESZ : Z    (* headroom kept in front of an RTP payload *)
}.

(** ** libre, by its call contracts *)

Module Re.

(** [str_casecmp]: zero exactly when the strings are equal up to ASCII case
    (only the zero test is used by the callers). *)
Definition tolower (c : ascii) : ascii :=
  let n := nat_of_ascii c in
  if ((65 <=? n) && (n <=? 90))%nat then ascii_of_nat (n + 32) else c.

Fixpoint str_casecmp (s1 s2 : string) : Z :=
  match s1, s2 with
  | EmptyString, EmptyString => 0
  | String c1 r1, String c2 r2 =>
      if Ascii.eqb (tolower c1) (tolower c2) then str_casecmp r1 r2 else 1
  | _, _ => 1
  end.

(** [struct mbuf]: only the cursor fields; the bytes are the codecs' matter. *)
Record mbuf := { size : Z; pos : Z; end_ : Z }.

Definition mbuf_get_left (mb : option mbuf) : Z :=
  match mb with
  | Some b => if pos b <? end_ b then end_ b - pos b else 0
  | None => 0
  end.

(** [mbuf_alloc n] on success: an empty buffer of capacity [n]. *)
Definition mbuf_new (n : Z) : mbuf := {| size := n; pos := 0; end_ := 0 |}.

Definition RTP_HEADER_SIZE : Z := 12.

(** [struct sa], and [sa_isset(sa, SA_ALL)]: address and port both set. *)
Record sa := { sa_addr : Z; sa_port : Z }.

Definition sa_isset_all (a : sa) : bool :=
  negb (sa_addr a =? 0) && negb (sa_port a =? 0).

(** [struct rtp_header], the fields the stream looks at. *)
Record rtp_header := {
  hdr_m : bool;
  hdr_pt : Z;
  hdr_seq : Z;
  hdr_ts : Z;
  hdr_ssrc : Z
}.

(** [memset(&hdr, 0, sizeof(hdr))]. *)
Definition rtp_header_zero : rtp_header :=
  {| hdr_m := false; hdr_pt := 0; hdr_seq := 0; hdr_ts := 0; hdr_ssrc := 0 |}.

(** [enum sdp_dir]; the numbering makes [&] the meet of two directions. *)
Inductive sdp_dir := SDP_INACTIVE | SDP_RECVONLY | SDP_SENDONLY | SDP_SENDRECV.

Definition sdp_dir_val (d : sdp_dir) : Z :=
  match d with
  | SDP_INACTIVE => 0
  | SDP_RECVONLY => 1
  | SDP_SENDONLY => 2
  | SDP_SENDRECV => 3
  end.

End Re.

(** [struct aucodec] of baresip.h: the identity of an audio codec. *)
Record aucodec := {
  ac_pt : Z;
  ac_name : string;
  ac_srate : Z;
  ac_ch : Z
}.

Module Sdp.
Import Re.

(** [struct sdp_format]; [data] is the codec the format was added for. *)
Record sdp_format := {
  pt : Z;
  data : option aucodec;
  params : string
}.

(** [struct sdp_media], the parts read here. *)
Record sdp_media := {
  raddr : sa;                   (* remote RTP address *)
  ldir : sdp_dir;               (* local direction *)
  rdir : sdp_dir;               (* remote direction *)
  lfmtl : list sdp_format;      (* local formats *)
  rfmtl : list sdp_format;      (* remote formats *)
  rattr_rtcp_mux : bool         (* remote attribute "rtcp-mux" present *)
}.

Definition sdp_media_raddr (m : sdp_media) : sa := raddr m.

Definition sdp_media_ldir (m : sdp_media) : Z := sdp_dir_val (ldir m).

(** The negotiated direction: what both sides allow. *)
Definition sdp_media_dir (m : sdp_media) : Z :=
  Z.land (sdp_dir_val (ldir m)) (sdp_dir_val (rdir m)).

(** [sdp_media_lformat(m, pt)]: first local format with that payload type. *)
Definition sdp_media_lformat (m : sdp_media) (p : Z) : option sdp_format :=
  find (fun f => pt f =? p) (lfmtl m).

(** [sdp_media_format(m, local, NULL, pt, NULL, -1, -1)]: with no id, name,
    rate or channel filter the first format of the list with that payload
    type (a negative [pt] filters nothing). *)
Definition sdp_media_format (m : sdp_media) (local : bool) (p : Z)
  : option sdp_format :=
  find (fun f => if 0 <=? p then pt f =? p else true)
       (if local then lfmtl m else rfmtl m).

(** [sdp_media_rformat(m, NULL)]: the first remote format. *)
Definition sdp_media_rformat (m : sdp_media) : option sdp_format :=
  hd_error (rfmtl m).

End Sdp.

(** [struct aucodec_st]: one codec instance.  [st_id] names the allocation,
    so that an encoder and a decoder sharing one instance can be told from
    two instances of the same codec. *)
Record aucodec_st := { st_ac : aucodec; st_id : nat }.

(** ** Observable effects *)

Inductive tmr_id := tmr_rtpkeep | tmr_stats | tmr_tx.

Inductive event :=
| ev_tmr_start (t : tmr_id) (delay : Z)
| ev_udp_send (len : Z)
| ev_stun_indication
| ev_rtp_send (marker : bool) (pt ts len : Z)
| ev_debug_warning (msg : string) (err : Z)
| ev_re_printf (msg : string)
| ev_jbuf_flush
| ev_jbuf_put (hdr : Re.rtp_header)
| ev_jbuf_put_dropped (err : Z)
| ev_jbuf_get
| ev_rtph (hdr : Re.rtp_header) (mb : option Re.mbuf)
| ev_rtcp_set_srate (srate_tx srate_rx : Z)
| ev_alloch (ac : aucodec)
| ev_ench (st : aucodec_st)
| ev_dech (st : aucodec_st)
| ev_aufilt_chain_alloc
| ev_aufilt_chain_encode
| ev_aufilt_chain_decode
| ev_aubuf_alloc (min_sz max_sz : Z)
| ev_aubuf_get
| ev_aubuf_write
| ev_auplay_alloc (srate ch frame_size : Z)
| ev_ausrc_alloc (srate ch frame_size : Z)
| ev_pthread_create
| ev_telev_recv
| ev_eventh (digit : Z) (end_flag : bool).

(** A datagram handed to the socket layer. *)
Definition is_packet (e : event) : bool :=
  match e with
  | ev_udp_send _ | ev_stun_indication | ev_rtp_send _ _ _ _ => true
  | _ => false
  end.

Definition packets_sent (evs : list event) : nat :=
  List.length (filter is_packet evs).

(** ** rtpkeep.c *)

Module Rtpkeep.
Import Re Sdp.

Definition Tr_UDP : Z := 15.
Definition Tr_TCP : Z := 7200.

(** [struct rtpkeep]; the media line [rk->sdp] points to is passed to the
    functions, since the stream shares it. *)
Record rtpkeep := {
  method : string;
  ts : Z;
  flag : bool
}.

(** What the calls made by one keepalive return. *)
Record env := {
  mbuf_alloc_ok : bool;          (* mbuf_alloc gave a buffer *)
  udp_send_err : Z;
  stun_indication_err : Z;
  rtp_send_err : Z;
  config_avt_rtcp_mux : bool     (* config.avt.rtcp_mux *)
}.

(** The loop [for (pt = PT_DYN_MAX; pt >= PT_DYN_MIN; pt--)], with [n] the
    number of values left to try. *)
Fixpoint find_unused_pt_from (m : sdp_media) (n : nat) (p : Z) : Z :=
  match n with
  | O => -1
  | S n' =>
      match sdp_media_format m false p with
      | None => p
      | Some _ => find_unused_pt_from m n' (p - 1)
      end
  end.

Definition find_unused_pt (K : core_h) (m : sdp_media) : Z :=
  find_unused_pt_from m (Z.to_nat (PT_DYN_MAX K - PT_DYN_MIN K + 1))
                      (PT_DYN_MAX K).

Definition send_keepalive (K : core_h) (e : env) (m : sdp_media)
           (rk : rtpkeep) : Z * list event :=
  if str_casecmp (method rk) "zero" =? 0 then
    if negb (mbuf_alloc_ok e) then (ENOMEM, [])
    else
      let mb := mbuf_new 1 in
      (udp_send_err e, [ev_udp_send (mbuf_get_left (Some mb))])
  else if str_casecmp (method rk) "stun" =? 0 then
    (stun_indication_err e, [ev_stun_indication])
  else if str_casecmp (method rk) "dyna" =? 0 then
    let p := find_unused_pt K m in
    if negb (mbuf_alloc_ok e) then (ENOMEM, [])
    else if p =? -1 then (ENOENT, [])
    else
      let mb := {| size := RTP_HEADER_SIZE;
                   pos := RTP_HEADER_SIZE; end_ := RTP_HEADER_SIZE |} in
      (rtp_send_err e, [ev_rtp_send false p (ts rk) (mbuf_get_left (Some mb))])
  else if str_casecmp (method rk) "rtcp" =? 0 then
    if config_avt_rtcp_mux e && rattr_rtcp_mux m then (0, [])
    else (0, [ev_debug_warning "rtcp-mux is disabled" 0])
  else (ENOSYS, [ev_debug_warning "unknown method" 0]).

(** The timer handler: re-arm, then consume the flag or send. *)
Definition timeout (K : core_h) (e : env) (m : sdp_media) (rk : rtpkeep)
  : rtpkeep * list event :=
  let armed := [ev_tmr_start tmr_rtpkeep (Tr_UDP * 1000)] in
  if flag rk then
    ({| method := method rk; ts := ts rk; flag := false |}, armed)
  else
    let '(err, evs) := send_keepalive K e m rk in
    (rk, armed ++ evs
         ++ (if err =? 0 then [] else [ev_debug_warning "keepalive" err])).

Definition IPPROTO_UDP : Z := 17.

(** [rtpkeep_alloc]: [meth] is the method string or NULL, [rtp] and [sdp]
    tell whether those pointers are set; [mem_ok] and [dup_ok] are the
    outcomes of [mem_zalloc] and [str_dup].  On success the object is zeroed
    but for the method, and the first expiry is 20 ms away. *)
Definition rtpkeep_alloc (mem_ok dup_ok : bool) (meth : option string)
           (proto : Z) (rtp sdp : bool) : Z * option rtpkeep * list event :=
  match meth with
  | None => (EINVAL, None, [])
  | Some s =>
      if negb (proto =? IPPROTO_UDP) || negb rtp || negb sdp
      then (EINVAL, None, [])
      else if negb mem_ok then (ENOMEM, None, [])
      else if negb dup_ok then (ENOMEM, None, [])
      else (0, Some {| method := s; ts := 0; flag := false |},
            [ev_tmr_start tmr_rtpkeep 20])
  end.

Definition rtpkeep_refresh (rk : option rtpkeep) (t : Z) : option rtpkeep :=
  match rk with
  | None => None
  | Some r => Some {| method := method r; ts := t; flag := true |}
  end.

End Rtpkeep.

(** ** stream.c *)

Module Stream.
Import Re Sdp.

Record stats_t := {
  n_tx : Z;
  n_rx : Z;
  b_tx : Z;
  b_rx : Z;
  bitrate_tx : Z;
  bitrate_rx : Z;
  stats_ts : Z
}.

(** [struct stream]; [jbuf] tells whether a jitter buffer was allocated. *)
Record stream := {
  sdp : sdp_media;
  rtpkeep : option Rtpkeep.rtpkeep;
  jbuf : bool;
  ssrc_rx : Z;
  pseq : Z;
  rtcp : bool;
  rtcp_mux : bool;
  jbuf_started : bool;
  pt_enc : Z;
  stats : stats_t
}.

Definition set_pseq (s : stream) (v : Z) : stream :=
  {| sdp := sdp s; rtpkeep := rtpkeep s; jbuf := jbuf s;
     ssrc_rx := ssrc_rx s; pseq := v; rtcp := rtcp s;
     rtcp_mux := rtcp_mux s; jbuf_started := jbuf_started s;
     pt_enc := pt_enc s; stats := stats s |}.

Definition set_ssrc_rx (s : stream) (v : Z) : stream :=
  {| sdp := sdp s; rtpkeep := rtpkeep s; jbuf := jbuf s;
     ssrc_rx := v; pseq := pseq s; rtcp := rtcp s;
     rtcp_mux := rtcp_mux s; jbuf_started := jbuf_started s;
     pt_enc := pt_enc s; stats := stats s |}.

Definition set_jbuf_started (s : stream) (v : bool) : stream :=
  {| sdp := sdp s; rtpkeep := rtpkeep s; jbuf := jbuf s;
     ssrc_rx := ssrc_rx s; pseq := pseq s; rtcp := rtcp s;
     rtcp_mux := rtcp_mux s; jbuf_started := v;
     pt_enc := pt_enc s; stats := stats s |}.

Definition set_rtpkeep (s : stream) (v : option Rtpkeep.rtpkeep) : stream :=
  {| sdp := sdp s; rtpkeep := v; jbuf := jbuf s;
     ssrc_rx := ssrc_rx s; pseq := pseq s; rtcp := rtcp s;
     rtcp_mux := rtcp_mux s; jbuf_started := jbuf_started s;
     pt_enc := pt_enc s; stats := stats s |}.

Definition set_pt_enc (s : stream) (v : Z) : stream :=
  {| sdp := sdp s; rtpkeep := rtpkeep s; jbuf := jbuf s;
     ssrc_rx := ssrc_rx s; pseq := pseq s; rtcp := rtcp s;
     rtcp_mux := rtcp_mux s; jbuf_started := jbuf_started s;
     pt_enc := v; stats := stats s |}.

Definition set_stats (s : stream) (v : stats_t) : stream :=
  {| sdp := sdp s; rtpkeep := rtpkeep s; jbuf := jbuf s;
     ssrc_rx := ssrc_rx s; pseq := pseq s; rtcp := rtcp s;
     rtcp_mux := rtcp_mux s; jbuf_started := jbuf_started s;
     pt_enc := pt_enc s; stats := v |}.

Definition set_n_tx (t : stats_t) (v : Z) : stats_t :=
  {| n_tx := v; n_rx := n_rx t; b_tx := b_tx t; b_rx := b_rx t;
     bitrate_tx := bitrate_tx t; bitrate_rx := bitrate_rx t;
     stats_ts := stats_ts t |}.

Definition set_n_rx (t : stats_t) (v : Z) : stats_t :=
  {| n_tx := n_tx t; n_rx := v; b_tx := b_tx t; b_rx := b_rx t;
     bitrate_tx := bitrate_tx t; bitrate_rx := bitrate_rx t;
     stats_ts := stats_ts t |}.

Definition set_b_tx (t : stats_t) (v : Z) : stats_t :=
  {| n_tx := n_tx t; n_rx := n_rx t; b_tx := v; b_rx := b_rx t;
     bitrate_tx := bitrate_tx t; bitrate_rx := bitrate_rx t;
     stats_ts := stats_ts t |}.

Definition set_b_rx (t : stats_t) (v : Z) : stats_t :=
  {| n_tx := n_tx t; n_rx := n_rx t; b_tx := b_tx t; b_rx := v;
     bitrate_tx := bitrate_tx t; bitrate_rx := bitrate_rx t;
     stats_ts := stats_ts t |}.

(** What the jitter buffer and the socket answer during one call. *)
Record env := {
  jbuf_put_err : Z;
  jbuf_get_res : option (rtp_header * mbuf);   (* None: nothing to play *)
  rtp_send_err : Z
}.

(** [lostcalc]; [seq] is a [uint16_t].  [seq - s->pseq] is computed in
    [uint32_t] and then narrowed to the 16 bits of [delta]. *)
Definition lostcalc (s : stream) (seq : Z) : stream * Z :=
  let delta := wrap16 (wrap32 (seq - pseq s)) in
  if pseq s =? UINT32_MAX then (set_pseq s seq, 0)
  else if delta =? 0 then (s, -1)
  else if delta <? 3000 then (set_pseq s seq, delta - 1)
  else if delta <? 0xff9c then (set_pseq s seq, 0)
  else (s, -2).

(** The two handler calls that end both branches of [rtp_recv]: the loss
    signal carries the arriving header [hdr] and no payload. *)
Definition deliver (hdr hdr2 : rtp_header) (mb2 : option mbuf) (s : stream)
  : stream * list event :=
  let '(s', lostc) := lostcalc s (hdr_seq hdr2) in
  (s', (if 0 <? lostc then [ev_rtph hdr None] else []) ++ [ev_rtph hdr2 mb2]).

Definition rtp_recv (e : env) (hdr : rtp_header) (mb : mbuf) (s : stream)
  : stream * list event :=
  if mbuf_get_left (Some mb) =? 0 then (s, [])
  else if Z.land (sdp_media_ldir (sdp s)) (sdp_dir_val SDP_RECVONLY) =? 0
  then (s, [])
  else
    let st := stats s in
    let st := set_n_rx st (wrap32 (n_rx st + 1)) in
    let st := set_b_rx st (wrapsz (b_rx st + mbuf_get_left (Some mb))) in
    let s := set_stats s st in
    let changed := negb (hdr_ssrc hdr =? ssrc_rx s) in
    let flush := changed && negb (ssrc_rx s =? 0) in
    let s := if changed then set_ssrc_rx s (hdr_ssrc hdr) else s in
    if jbuf s then
      let put :=
        (if flush then [ev_jbuf_flush] else [])
        ++ [ev_jbuf_put hdr]
        ++ (if jbuf_put_err e =? 0 then []
            else [ev_jbuf_put_dropped (jbuf_put_err e)])
        ++ [ev_jbuf_get] in
      match jbuf_get_res e with
      | None =>
          if negb (jbuf_started s) then (s, put)
          else
            let '(s', evs) :=
              deliver hdr rtp_header_zero None (set_jbuf_started s true) in
            (s', put ++ evs)
      | Some (hdr2, mb2) =>
          let '(s', evs) :=
            deliver hdr hdr2 (Some mb2) (set_jbuf_started s true) in
          (s', put ++ evs)
      end
    else deliver hdr hdr (Some mb) s.

(** [stream_send]; [None] is the NULL stream.  The event records the
    payload type as the [int] passed on; [rtp_send] takes it as [uint8_t],
    which is the same value for the payload types below 256. *)
Definition stream_send (e : env) (s : option stream) (marker : bool)
           (pt ts : Z) (mb : mbuf) : option stream * Z * list event :=
  match s with
  | None => (None, EINVAL, [])
  | Some s =>
      if negb (sa_isset_all (sdp_media_raddr (sdp s))) then (Some s, 0, [])
      else if negb (sdp_media_dir (sdp s) =? sdp_dir_val SDP_SENDRECV)
      then (Some s, 0, [])
      else
        let left := mbuf_get_left (Some mb) in
        let s1 := set_stats s (set_b_tx (stats s)
                                        (wrapsz (b_tx (stats s) + left))) in
        let pt := if pt <? 0 then pt_enc s1 else pt in
        let '(err, evs) :=
          if 0 <=? pt then (rtp_send_err e, [ev_rtp_send marker pt ts left])
          else (0, []) in
        let s2 := set_rtpkeep s1 (Rtpkeep.rtpkeep_refresh (rtpkeep s1) ts) in
        let s3 := set_stats s2 (set_n_tx (stats s2)
                                         (wrap32 (n_tx (stats s2) + 1))) in
        (Some s3, err, evs)
  end.

(** [stream_update_encoder]. *)
Definition stream_update_encoder (s : stream) (p : Z) : stream :=
  if 0 <=? p then set_pt_enc s p else s.

End Stream.

(** ** audio.c *)

Module Audio.
Import Re Sdp.

(** [enum audio_mode] of baresip.h. *)
Inductive audio_mode :=
| AUDIO_MODE_POLL
| AUDIO_MODE_THREAD
| AUDIO_MODE_THREAD_REALTIME
| AUDIO_MODE_TMR.

(** [struct audio].  Devices, ring buffers and the filter chain are kept as
    presence flags; the VU meter and the DTMF key state are left out. *)
Record audio := {
  strm : Stream.stream           (* generic media stream *);
  enc : option aucodec_st        (* current audio encoder *);
  dec : option aucodec_st        (* current audio decoder *);
  fc : bool                      (* a filter chain is allocated *);
  auplay : bool                  (* the player runs *);
  ausrc : bool                   (* the source runs *);
  aubuf_tx : bool                (* tx ring buffer allocated *);
  aubuf_rx : bool                (* rx ring buffer allocated *);
  mb_rtp : mbuf                  (* buffer for outgoing RTP *);
  eventh : bool                  (* an event handler is set *);
  psize : Z                      (* packet size for sending *);
  ptime_tx : Z                   (* packet time for sending *);
  ptime_rx : Z                   (* packet time for receiving *);
  pt_tx : Z                      (* payload type, outgoing *);
  pt_rx : Z                      (* payload type, incoming *);
  pt_tel_tx : Z                  (* event payload type, transmit *);
  pt_tel_rx : Z                  (* event payload type, receive *);
  ts_tx : Z                      (* timestamp for outgoing RTP *);
  ts_tel : Z                     (* timestamp for telephony events *);
  marker : bool                  (* marker bit for outgoing RTP *);
  is_g722 : bool                 (* encoder is G.722 *);
  muted : bool                   (* source is muted *);
  mode : audio_mode              (* how packets are sent *);
  run_tx : bool                  (* transmit thread running *)
}.

Definition set_strm (a : audio) (v : Stream.stream) : audio :=
  {| strm := v; enc := enc a; dec := dec a; fc := fc a; auplay := auplay a;
     ausrc := ausrc a; aubuf_tx := aubuf_tx a; aubuf_rx := aubuf_rx a;
     mb_rtp := mb_rtp a; eventh := eventh a; psize := psize a;
     ptime_tx := ptime_tx a; ptime_rx := ptime_rx a; pt_tx := pt_tx a;
     pt_rx := pt_rx a; pt_tel_tx := pt_tel_tx a; pt_tel_rx := pt_tel_rx a;
     ts_tx := ts_tx a; ts_tel := ts_tel a; marker := marker a;
     is_g722 := is_g722 a; muted := muted a; mode := mode a;
     run_tx := run_tx a |}.

Definition set_enc (a : audio) (v : option aucodec_st) : audio :=
  {| strm := strm a; enc := v; dec := dec a; fc := fc a;
     auplay := auplay a; ausrc := ausrc a; aubuf_tx := aubuf_tx a;
     aubuf_rx := aubuf_rx a; mb_rtp := mb_rtp a; eventh := eventh a;
     psize := psize a; ptime_tx := ptime_tx a; ptime_rx := ptime_rx a;
     pt_tx := pt_tx a; pt_rx := pt_rx a; pt_tel_tx := pt_tel_tx a;
     pt_tel_rx := pt_tel_rx a; ts_tx := ts_tx a; ts_tel := ts_tel a;
     marker := marker a; is_g722 := is_g722 a; muted := muted a;
     mode := mode a; run_tx := run_tx a |}.

Definition set_dec (a : audio) (v : option aucodec_st) : audio :=
  {| strm := strm a; enc := enc a; dec := v; fc := fc a;
     auplay := auplay a; ausrc := ausrc a; aubuf_tx := aubuf_tx a;
     aubuf_rx := aubuf_rx a; mb_rtp := mb_rtp a; eventh := eventh a;
     psize := psize a; ptime_tx := ptime_tx a; ptime_rx := ptime_rx a;
     pt_tx := pt_tx a; pt_rx := pt_rx a; pt_tel_tx := pt_tel_tx a;
     pt_tel_rx := pt_tel_rx a; ts_tx := ts_tx a; ts_tel := ts_tel a;
     marker := marker a; is_g722 := is_g722 a; muted := muted a;
     mode := mode a; run_tx := run_tx a |}.

Definition set_fc (a : audio) (v : bool) : audio :=
  {| strm := strm a; enc := enc a; dec := dec a; fc := v;
     auplay := auplay a; ausrc := ausrc a; aubuf_tx := aubuf_tx a;
     aubuf_rx := aubuf_rx a; mb_rtp := mb_rtp a; eventh := eventh a;
     psize := psize a; ptime_tx := ptime_tx a; ptime_rx := ptime_rx a;
     pt_tx := pt_tx a; pt_rx := pt_rx a; pt_tel_tx := pt_tel_tx a;
     pt_tel_rx := pt_tel_rx a; ts_tx := ts_tx a; ts_tel := ts_tel a;
     marker := marker a; is_g722 := is_g722 a; muted := muted a;
     mode := mode a; run_tx := run_tx a |}.

Definition set_auplay (a : audio) (v : bool) : audio :=
  {| strm := strm a; enc := enc a; dec := dec a; fc := fc a; auplay := v;
     ausrc := ausrc a; aubuf_tx := aubuf_tx a; aubuf_rx := aubuf_rx a;
     mb_rtp := mb_rtp a; eventh := eventh a; psize := psize a;
     ptime_tx := ptime_tx a; ptime_rx := ptime_rx a; pt_tx := pt_tx a;
     pt_rx := pt_rx a; pt_tel_tx := pt_tel_tx a; pt_tel_rx := pt_tel_rx a;
     ts_tx := ts_tx a; ts_tel := ts_tel a; marker := marker a;
     is_g722 := is_g722 a; muted := muted a; mode := mode a;
     run_tx := run_tx a |}.

Definition set_ausrc (a : audio) (v : bool) : audio :=
  {| strm := strm a; enc := enc a; dec := dec a; fc := fc a;
     auplay := auplay a; ausrc := v; aubuf_tx := aubuf_tx a;
     aubuf_rx := aubuf_rx a; mb_rtp := mb_rtp a; eventh := eventh a;
     psize := psize a; ptime_tx := ptime_tx a; ptime_rx := ptime_rx a;
     pt_tx := pt_tx a; pt_rx := pt_rx a; pt_tel_tx := pt_tel_tx a;
     pt_tel_rx := pt_tel_rx a; ts_tx := ts_tx a; ts_tel := ts_tel a;
     marker := marker a; is_g722 := is_g722 a; muted := muted a;
     mode := mode a; run_tx := run_tx a |}.

Definition set_aubuf_tx (a : audio) (v : bool) : audio :=
  {| strm := strm a; enc := enc a; dec := dec a; fc := fc a;
     auplay := auplay a; ausrc := ausrc a; aubuf_tx := v;
     aubuf_rx := aubuf_rx a; mb_rtp := mb_rtp a; eventh := eventh a;
     psize := psize a; ptime_tx := ptime_tx a; ptime_rx := ptime_rx a;
     pt_tx := pt_tx a; pt_rx := pt_rx a; pt_tel_tx := pt_tel_tx a;
     pt_tel_rx := pt_tel_rx a; ts_tx := ts_tx a; ts_tel := ts_tel a;
     marker := marker a; is_g722 := is_g722 a; muted := muted a;
     mode := mode a; run_tx := run_tx a |}.

Definition set_aubuf_rx (a : audio) (v : bool) : audio :=
  {| strm := strm a; enc := enc a; dec := dec a; fc := fc a;
     auplay := auplay a; ausrc := ausrc a; aubuf_tx := aubuf_tx a;
     aubuf_rx := v; mb_rtp := mb_rtp a; eventh := eventh a;
     psize := psize a; ptime_tx := ptime_tx a; ptime_rx := ptime_rx a;
     pt_tx := pt_tx a; pt_rx := pt_rx a; pt_tel_tx := pt_tel_tx a;
     pt_tel_rx := pt_tel_rx a; ts_tx := ts_tx a; ts_tel := ts_tel a;
     marker := marker a; is_g722 := is_g722 a; muted := muted a;
     mode := mode a; run_tx := run_tx a |}.

Definition set_mb_rtp (a : audio) (v : mbuf) : audio :=
  {| strm := strm a; enc := enc a; dec := dec a; fc := fc a;
     auplay := auplay a; ausrc := ausrc a; aubuf_tx := aubuf_tx a;
     aubuf_rx := aubuf_rx a; mb_rtp := v; eventh := eventh a;
     psize := psize a; ptime_tx := ptime_tx a; ptime_rx := ptime_rx a;
     pt_tx := pt_tx a; pt_rx := pt_rx a; pt_tel_tx := pt_tel_tx a;
     pt_tel_rx := pt_tel_rx a; ts_tx := ts_tx a; ts_tel := ts_tel a;
     marker := marker a; is_g722 := is_g722 a; muted := muted a;
     mode := mode a; run_tx := run_tx a |}.

Definition set_psize (a : audio) (v : Z) : audio :=
  {| strm := strm a; enc := enc a; dec := dec a; fc := fc a;
     auplay := auplay a; ausrc := ausrc a; aubuf_tx := aubuf_tx a;
     aubuf_rx := aubuf_rx a; mb_rtp := mb_rtp a; eventh := eventh a;
     psize := v; ptime_tx := ptime_tx a; ptime_rx := ptime_rx a;
     pt_tx := pt_tx a; pt_rx := pt_rx a; pt_tel_tx := pt_tel_tx a;
     pt_tel_rx := pt_tel_rx a; ts_tx := ts_tx a; ts_tel := ts_tel a;
     marker := marker a; is_g722 := is_g722 a; muted := muted a;
     mode := mode a; run_tx := run_tx a |}.

Definition set_ptime_tx (a : audio) (v : Z) : audio :=
  {| strm := strm a; enc := enc a; dec := dec a; fc := fc a;
     auplay := auplay a; ausrc := ausrc a; aubuf_tx := aubuf_tx a;
     aubuf_rx := aubuf_rx a; mb_rtp := mb_rtp a; eventh := eventh a;
     psize := psize a; ptime_tx := v; ptime_rx := ptime_rx a;
     pt_tx := pt_tx a; pt_rx := pt_rx a; pt_tel_tx := pt_tel_tx a;
     pt_tel_rx := pt_tel_rx a; ts_tx := ts_tx a; ts_tel := ts_tel a;
     marker := marker a; is_g722 := is_g722 a; muted := muted a;
     mode := mode a; run_tx := run_tx a |}.

Definition set_pt_tx (a : audio) (v : Z) : audio :=
  {| strm := strm a; enc := enc a; dec := dec a; fc := fc a;
     auplay := auplay a; ausrc := ausrc a; aubuf_tx := aubuf_tx a;
     aubuf_rx := aubuf_rx a; mb_rtp := mb_rtp a; eventh := eventh a;
     psize := psize a; ptime_tx := ptime_tx a; ptime_rx := ptime_rx a;
     pt_tx := v; pt_rx := pt_rx a; pt_tel_tx := pt_tel_tx a;
     pt_tel_rx := pt_tel_rx a; ts_tx := ts_tx a; ts_tel := ts_tel a;
     marker := marker a; is_g722 := is_g722 a; muted := muted a;
     mode := mode a; run_tx := run_tx a |}.

Definition set_pt_rx (a : audio) (v : Z) : audio :=
  {| strm := strm a; enc := enc a; dec := dec a; fc := fc a;
     auplay := auplay a; ausrc := ausrc a; aubuf_tx := aubuf_tx a;
     aubuf_rx := aubuf_rx a; mb_rtp := mb_rtp a; eventh := eventh a;
     psize := psize a; ptime_tx := ptime_tx a; ptime_rx := ptime_rx a;
     pt_tx := pt_tx a; pt_rx := v; pt_tel_tx := pt_tel_tx a;
     pt_tel_rx := pt_tel_rx a; ts_tx := ts_tx a; ts_tel := ts_tel a;
     marker := marker a; is_g722 := is_g722 a; muted := muted a;
     mode := mode a; run_tx := run_tx a |}.

Definition set_ts_tx (a : audio) (v : Z) : audio :=
  {| strm := strm a; enc := enc a; dec := dec a; fc := fc a;
     auplay := auplay a; ausrc := ausrc a; aubuf_tx := aubuf_tx a;
     aubuf_rx := aubuf_rx a; mb_rtp := mb_rtp a; eventh := eventh a;
     psize := psize a; ptime_tx := ptime_tx a; ptime_rx := ptime_rx a;
     pt_tx := pt_tx a; pt_rx := pt_rx a; pt_tel_tx := pt_tel_tx a;
     pt_tel_rx := pt_tel_rx a; ts_tx := v; ts_tel := ts_tel a;
     marker := marker a; is_g722 := is_g722 a; muted := muted a;
     mode := mode a; run_tx := run_tx a |}.

Definition set_ts_tel (a : audio) (v : Z) : audio :=
  {| strm := strm a; enc := enc a; dec := dec a; fc := fc a;
     auplay := auplay a; ausrc := ausrc a; aubuf_tx := aubuf_tx a;
     aubuf_rx := aubuf_rx a; mb_rtp := mb_rtp a; eventh := eventh a;
     psize := psize a; ptime_tx := ptime_tx a; ptime_rx := ptime_rx a;
     pt_tx := pt_tx a; pt_rx := pt_rx a; pt_tel_tx := pt_tel_tx a;
     pt_tel_rx := pt_tel_rx a; ts_tx := ts_tx a; ts_tel := v;
     marker := marker a; is_g722 := is_g722 a; muted := muted a;
     mode := mode a; run_tx := run_tx a |}.

Definition set_marker (a : audio) (v : bool) : audio :=
  {| strm := strm a; enc := enc a; dec := dec a; fc := fc a;
     auplay := auplay a; ausrc := ausrc a; aubuf_tx := aubuf_tx a;
     aubuf_rx := aubuf_rx a; mb_rtp := mb_rtp a; eventh := eventh a;
     psize := psize a; ptime_tx := ptime_tx a; ptime_rx := ptime_rx a;
     pt_tx := pt_tx a; pt_rx := pt_rx a; pt_tel_tx := pt_tel_tx a;
     pt_tel_rx := pt_tel_rx a; ts_tx := ts_tx a; ts_tel := ts_tel a;
     marker := v; is_g722 := is_g722 a; muted := muted a; mode := mode a;
     run_tx := run_tx a |}.

Definition set_is_g722 (a : audio) (v : bool) : audio :=
  {| strm := strm a; enc := enc a; dec := dec a; fc := fc a;
     auplay := auplay a; ausrc := ausrc a; aubuf_tx := aubuf_tx a;
     aubuf_rx := aubuf_rx a; mb_rtp := mb_rtp a; eventh := eventh a;
     psize := psize a; ptime_tx := ptime_tx a; ptime_rx := ptime_rx a;
     pt_tx := pt_tx a; pt_rx := pt_rx a; pt_tel_tx := pt_tel_tx a;
     pt_tel_rx := pt_tel_rx a; ts_tx := ts_tx a; ts_tel := ts_tel a;
     marker := marker a; is_g722 := v; muted := muted a; mode := mode a;
     run_tx := run_tx a |}.

Definition set_run_tx (a : audio) (v : bool) : audio :=
  {| strm := strm a; enc := enc a; dec := dec a; fc := fc a;
     auplay := auplay a; ausrc := ausrc a; aubuf_tx := aubuf_tx a;
     aubuf_rx := aubuf_rx a; mb_rtp := mb_rtp a; eventh := eventh a;
     psize := psize a; ptime_tx := ptime_tx a; ptime_rx := ptime_rx a;
     pt_tx := pt_tx a; pt_rx := pt_rx a; pt_tel_tx := pt_tel_tx a;
     pt_tel_rx := pt_tel_rx a; ts_tx := ts_tx a; ts_tel := ts_tel a;
     marker := marker a; is_g722 := is_g722 a; muted := muted a;
     mode := mode a; run_tx := v |}.

(** [struct range] and the parts of [config.audio] that [audio_start] reads. *)
Record range := { min : Z; max : Z }.

Record config_audio := {
  srate_src : range;
  srate_play : range;
  src_first : bool
}.

(** What the codecs, filters, devices and buffers answer during one call. *)
Record env := {
  strm_env : Stream.env;
  config : config_audio;
  mbuf_alloc_ok : bool;
  aubuf_get_err : Z;
  aufilt_chain_encode : mbuf -> mbuf;   (* the frame after the tx filters *)
  ench_err : Z;
  ench_len : Z;                         (* bytes the encoder appended *)
  dech : aucodec_st -> option mbuf -> Z * option mbuf;
  aufilt_chain_decode_err : Z;
  aubuf_write_err : Z;
  telev_recv : option (Z * bool);       (* event code and end flag *)
  telev_code2digit : Z -> Z;
  alloch_err : Z;
  alloch_id : nat;                      (* the instance alloch creates *)
  alloch_ptime : Z -> Z;                (* ptime the encoder settles on *)
  aufilt_list_isempty : bool;
  aufilt_chain_alloc_err : Z;
  auplay_find : bool;
  ausrc_find : bool;
  aubuf_alloc_rx_err : Z;
  aubuf_alloc_tx_err : Z;
  auplay_alloc_err : Z;
  ausrc_alloc_err : Z;
  pthread_create_err : Z
}.

Definition calc_nsamp (srate channels ptime : Z) : Z :=
  wrap32 (wrap32 (wrap32 srate * wrap8 channels) * wrap16 ptime) / 1000.

Definition aucodec_get (st : option aucodec_st) : option aucodec :=
  match st with
  | Some t => Some (st_ac t)
  | None => None
  end.

(** The DSP sample rate of a codec (exception for G.722). *)
Definition get_srate (ac : option aucodec) : Z :=
  match ac with
  | None => 0
  | Some c => if str_casecmp (ac_name c) "G722" =? 0 then 16000 else ac_srate c
  end.

Definition aucodec_equal (a b : option aucodec) : bool :=
  match a, b with
  | Some x, Some y => (get_srate a =? get_srate b) && (ac_ch x =? ac_ch y)
  | _, _ => false
  end.

(** Modelled from the spec: [aucodec_cmp] of aucodec.c is not among the
    sources; "two codec handles are equal iff name, clock rate, and channel
    count match". *)
Definition aucodec_cmp (l r : option aucodec) : bool :=
  match l, r with
  | Some x, Some y =>
      String.eqb (ac_name x) (ac_name y) && (ac_srate x =? ac_srate y)
      && (ac_ch x =? ac_ch y)
  | _, _ => false
  end.

(** A call of [stream_send] on [a->strm]. *)
Definition stream_send_in (e : env) (a : audio) (m : bool) (p t : Z)
           (mb : mbuf) : audio * Z * list event :=
  let '(os, err, evs) :=
    Stream.stream_send (strm_env e) (Some (strm a)) m p t mb in
  (match os with Some s' => set_strm a s' | None => a end, err, evs).

(** [encode_rtp_send]; [nsamp] is a [uint16_t].  The encoder is handed
    [mb_rtp] with [pos = end = STREAM_PRESZ] and appends [ench_len] bytes. *)
Definition encode_rtp_send (K : core_h) (e : env) (a : audio)
           (mb : mbuf) (nsamp : Z) : audio * list event :=
  match enc a with
  | None => (a, [])
  | Some st =>
      let written := STREAM_PRESZ K + ench_len e in
      let a := set_mb_rtp a {| size := Z.max (size (mb_rtp a)) written;
                               pos := written; end_ := written |} in
      if negb (ench_err e =? 0) then (set_marker a false, [ev_ench st])
      else
        let a := set_mb_rtp a {| size := size (mb_rtp a);
                                 pos := STREAM_PRESZ K;
                                 end_ := end_ (mb_rtp a) |} in
        if negb (mbuf_get_left (Some (mb_rtp a)) =? 0) then
          let '(a, err, evs) :=
            stream_send_in e a (marker a) (pt_tx a) (ts_tx a) (mb_rtp a) in
          if negb (err =? 0) then (set_marker a false, ev_ench st :: evs)
          else
            (set_marker (set_ts_tx a (wrap32 (ts_tx a + nsamp))) false,
             ev_ench st :: evs)
        else
          (set_marker (set_ts_tx a (wrap32 (ts_tx a + nsamp))) false,
           [ev_ench st])
  end.

(** [process_audio_encode]; [None] is the NULL buffer. *)
Definition process_audio_encode (K : core_h) (e : env) (a : audio)
           (mb : option mbuf) : audio * list event :=
  match mb with
  | None => (a, [])
  | Some b =>
      let '(b, evs) :=
        if fc a then (aufilt_chain_encode e b, [ev_aufilt_chain_encode])
        else (b, []) in
      let nsamp := wrap16 (if is_g722 a then end_ b / 4 else end_ b / 2) in
      let '(a, evs') := encode_rtp_send K e a b nsamp in
      (a, evs ++ evs')
  end.

(** [poll_aubuf_tx]: a timed read of [psize] bytes from the tx ring buffer;
    on success the buffer is full and goes to the encoder. *)
Definition poll_aubuf_tx (K : core_h) (e : env) (a : audio)
  : audio * list event :=
  if negb (mbuf_alloc_ok e) then (a, [])
  else
    let mb := mbuf_new (psize a) in
    if aubuf_get_err e =? 0 then
      let mb := {| size := size mb; pos := pos mb; end_ := size mb |} in
      let '(a, evs) := process_audio_encode K e a (Some mb) in
      (a, ev_aubuf_get :: evs)
    else (a, [ev_aubuf_get]).

(** The [do ... while (n-- && mbuf_get_left(mb) && !err)] loop of
    [audio_stream_decode], entered with [n]. *)
Fixpoint decode_all (e : env) (st : aucodec_st) (n : nat) (mb : option mbuf)
  : Z * list event :=
  let '(err, mb') := dech e st mb in
  match n with
  | O => (err, [ev_dech st])
  | S n' =>
      if negb (mbuf_get_left mb' =? 0) && (err =? 0) then
        let '(err', evs) := decode_all e st n' mb' in
        (err', ev_dech st :: evs)
      else (err, [ev_dech st])
  end.

(** [audio_stream_decode]; [mb = None] when no packet was received. *)
Definition audio_stream_decode (e : env) (a : audio) (mb : option mbuf)
  : audio * Z * list event :=
  match dec a with
  | None => (a, 0, [])
  | Some st =>
      let '(err, evs) := decode_all e st 64 mb in
      if negb (err =? 0) then
        (a, err, evs ++ [ev_debug_warning "codec_decode" err])
      else
        let '(err, evs) :=
          if fc a then (Z.lor err (aufilt_chain_decode_err e),
                        evs ++ [ev_aufilt_chain_decode])
          else (err, evs) in
        if aubuf_rx a then (a, aubuf_write_err e, evs ++ [ev_aubuf_write])
        else (a, err, evs)
  end.

(** [handle_telev]: the DTMF decoder, then the event handler if the event
    maps to a digit. *)
Definition handle_telev (e : env) (a : audio) (mb : mbuf)
  : audio * list event :=
  match telev_recv e with
  | None => (a, [ev_telev_recv])
  | Some (ev, end_flag) =>
      let digit := telev_code2digit e ev in
      if (0 <=? digit) && eventh a
      then (a, [ev_telev_recv; ev_eventh digit end_flag])
      else (a, [ev_telev_recv])
  end.

(** [aufilt_setup]: returns the error and the sample rates read back
    (both 0 on entry, as [audio_start] passes them). *)
Definition aufilt_setup (e : env) (a : audio)
  : audio * Z * Z * Z * list event :=
  let srate_enc :=
    match enc a with
    | Some st =>
        let ac := Some (st_ac st) in
        if negb (min (srate_src (config e)) =? 0)
        then Z.max (min (srate_src (config e))) (get_srate ac)
        else if negb (max (srate_src (config e)) =? 0)
        then Z.min (max (srate_src (config e))) (get_srate ac)
        else get_srate ac
    | None => 0
    end in
  let srate_dec :=
    match dec a with
    | Some st =>
        let ac := Some (st_ac st) in
        if negb (min (srate_play (config e)) =? 0)
        then Z.max (min (srate_play (config e))) (get_srate ac)
        else if negb (max (srate_play (config e)) =? 0)
        then Z.min (max (srate_play (config e))) (get_srate ac)
        else get_srate ac
    | None => 0
    end in
  let err := aufilt_chain_alloc_err e in
  (if err =? 0 then set_fc a true else a, err, srate_enc, srate_dec,
   [ev_aufilt_chain_alloc]).

(** [start_player]: the rx ring buffer if there is none, then the player. *)
Definition start_player (e : env) (a : audio) (srate_dec : Z)
  : audio * Z * list event :=
  match dec a with
  | Some st =>
      if negb (auplay a) && auplay_find e then
        let ac := st_ac st in
        let srate :=
          if negb (srate_dec =? 0) then srate_dec else get_srate (Some ac) in
        let frame_size := calc_nsamp srate (ac_ch ac) (ptime_rx a) in
        let psz := wrapsz (2 * frame_size) in
        let alloc_rx := negb (aubuf_rx a) in
        let evs :=
          if alloc_rx
          then [ev_aubuf_alloc (wrapsz (psz * 1)) (wrapsz (psz * 8))]
          else [] in
        if alloc_rx && negb (aubuf_alloc_rx_err e =? 0)
        then (a, aubuf_alloc_rx_err e, evs)
        else
          let a := set_aubuf_rx a true in
          let evs := evs ++ [ev_auplay_alloc srate (ac_ch ac) frame_size] in
          if negb (auplay_alloc_err e =? 0) then
            (a, auplay_alloc_err e,
             evs ++ [ev_debug_warning "start_player failed"
                                      (auplay_alloc_err e)])
          else (set_auplay a true, 0, evs)
      else (a, 0, [])
  | None => (a, 0, [])
  end.

(** [start_source]: fixes [psize], allocates the tx ring buffer if there is
    none, starts the source and, by mode, the transmit thread (HAVE_PTHREAD)
    or the transmit timer. *)
Definition start_source (e : env) (a : audio) (srate_enc : Z)
  : audio * Z * list event :=
  match enc a with
  | Some st =>
      if negb (ausrc a) && ausrc_find e then
        let ac := st_ac st in
        let srate :=
          if negb (srate_enc =? 0) then srate_enc else get_srate (Some ac) in
        let frame_size := calc_nsamp srate (ac_ch ac) (ptime_tx a) in
        let a := set_psize a (wrapsz (2 * frame_size)) in
        let alloc_tx := negb (aubuf_tx a) in
        let evs :=
          if alloc_tx
          then [ev_aubuf_alloc (wrapsz (psize a * 2)) (wrapsz (psize a * 30))]
          else [] in
        if alloc_tx && negb (aubuf_alloc_tx_err e =? 0)
        then (a, aubuf_alloc_tx_err e, evs)
        else
          let a := set_aubuf_tx a true in
          let evs := evs ++ [ev_ausrc_alloc srate (ac_ch ac) frame_size] in
          if negb (ausrc_alloc_err e =? 0) then
            (a, ausrc_alloc_err e,
             evs ++ [ev_debug_warning "start_source failed"
                                      (ausrc_alloc_err e)])
          else
            let a := set_ausrc a true in
            match mode a with
            | AUDIO_MODE_THREAD | AUDIO_MODE_THREAD_REALTIME =>
                if negb (run_tx a) then
                  if pthread_create_err e =? 0
                  then (set_run_tx a true, 0, evs ++ [ev_pthread_create])
                  else (set_run_tx a false, pthread_create_err e,
                        evs ++ [ev_pthread_create])
                else (a, 0, evs)
            | AUDIO_MODE_TMR => (a, 0, evs ++ [ev_tmr_start tmr_tx 1])
            | AUDIO_MODE_POLL => (a, 0, evs)
            end
      else (a, 0, [])
  | None => (a, 0, [])
  end.

(** [audio_start]: the stream's statistics timer, the filter chain if there
    is none yet, then player and source in the configured order. *)
Definition audio_start (e : env) (a : audio) : audio * Z * list event :=
  let evs0 := [ev_tmr_start tmr_stats 1] in
  let '(a, err, srate_enc, srate_dec, evs1) :=
    if negb (fc a) && negb (aufilt_list_isempty e) then aufilt_setup e a
    else (a, 0, 0, 0, []) in
  if negb (err =? 0) then (a, err, evs0 ++ evs1)
  else if src_first (config e) then
    let '(a, e1, evs2) := start_source e a srate_enc in
    let '(a, e2, evs3) := start_player e a srate_dec in
    (a, Z.lor (Z.lor err e1) e2, evs0 ++ evs1 ++ evs2 ++ evs3)
  else
    let '(a, e1, evs2) := start_player e a srate_dec in
    let '(a, e2, evs3) := start_source e a srate_enc in
    (a, Z.lor (Z.lor err e1) e2, evs0 ++ evs1 ++ evs2 ++ evs3).

(** [audio_encoder_set]; [ac = None] is the NULL codec, [pt_tx] a
    [uint8_t]. *)
Definition audio_encoder_set (e : env) (a : audio) (ac : option aucodec)
           (pt_tx : Z) (params : string) : audio * Z * list event :=
  match ac with
  | None => (a, EINVAL, [])
  | Some c =>
      let ac_old := aucodec_get (enc a) in
      let reset :=
        match ac_old with
        | Some _ => negb (aucodec_equal ac_old ac)
        | None => false
        end in
      let a := if reset then set_ausrc a false else a in
      let a := set_is_g722 a (str_casecmp (ac_name c) "G722" =? 0) in
      let a := set_pt_tx a (wrap8 pt_tx) in
      let a := set_enc a None in
      let finish (a : audio) (evs : list event) :=
        let evs := evs ++ [ev_rtcp_set_srate (get_srate ac) (get_srate ac)] in
        if reset then
          let '(a, err, evs') := audio_start e a in
          (a, Z.lor 0 err, evs ++ evs')
        else (a, 0, evs) in
      if aucodec_cmp ac (aucodec_get (dec a)) then
        finish (set_enc a (dec a)) [ev_re_printf "Set audio encoder"]
      else if negb (alloch_err e =? 0) then
        (a, alloch_err e,
         [ev_re_printf "Set audio encoder"; ev_alloch c;
          ev_debug_warning "alloc encoder" (alloch_err e)])
      else
        finish (set_ptime_tx
                  (set_enc a (Some {| st_ac := c; st_id := alloch_id e |}))
                  (alloch_ptime e (ptime_tx a)))
               [ev_re_printf "Set audio encoder"; ev_alloch c]
  end.

(** [audio_decoder_set]; [ac = None] is the NULL codec, [pt_rx] a
    [uint8_t]. *)
Definition audio_decoder_set (e : env) (a : audio) (ac : option aucodec)
           (pt_rx : Z) (params : string) : audio * Z * list event :=
  match ac with
  | None => (a, EINVAL, [])
  | Some c =>
      let ac_old := aucodec_get (dec a) in
      let a := set_pt_rx a (wrap8 pt_rx) in
      let a := set_dec a None in
      let finish (a : audio) (evs : list event) :=
        let evs := evs ++ [ev_rtcp_set_srate (get_srate ac) (get_srate ac)] in
        match ac_old with
        | Some _ =>
            if negb (aucodec_equal ac_old ac) then
              let a := set_auplay a false in
              let a := set_fc a false in
              let '(a, err, evs') := audio_start e a in
              (a, Z.lor 0 err, evs ++ evs')
            else (a, 0, evs)
        | None => (a, 0, evs)
        end in
      if aucodec_cmp ac (aucodec_get (enc a)) then
        finish (set_dec a (enc a)) [ev_re_printf "Set audio decoder"]
      else if negb (alloch_err e =? 0) then
        (a, alloch_err e,
         [ev_re_printf "Set audio decoder"; ev_alloch c;
          ev_debug_warning "alloc decoder" (alloch_err e)])
      else
        finish (set_dec a (Some {| st_ac := c; st_id := alloch_id e |}))
               [ev_re_printf "Set audio decoder"; ev_alloch c]
  end.

(** [pt_handler]; the payload types are [uint8_t]. *)
Definition pt_handler (e : env) (a : audio) (pt_old pt_new : Z)
  : audio * Z * list event :=
  match sdp_media_lformat (Stream.sdp (strm a)) pt_new with
  | None => (a, ENOENT, [])
  | Some lc =>
      let '(a, err, evs) :=
        audio_decoder_set e a (data lc) (pt lc) (params lc) in
      (a, err, ev_re_printf "Audio decoder changed payload" :: evs)
  end.

(** [stream_recv_handler]: the handler [audio_alloc] registers with the
    stream; [mb = None] is the loss signal. *)
Definition stream_recv_handler (K : core_h) (e : env) (hdr : rtp_header)
           (mb : option mbuf) (a : audio) : audio * list event :=
  let decode (a : audio) (evs : list event) :=
    let '(a, _, evs') := audio_stream_decode e a mb in (a, evs ++ evs') in
  match mb with
  | None => decode a []
  | Some b =>
      if hdr_pt hdr =? pt_tel_rx a then handle_telev e a b
      else if PT_CN K =? hdr_pt hdr then (a, [])
      else if negb (hdr_pt hdr =? pt_rx a) then
        let '(a, err, evs) := pt_handler e a (pt_rx a) (hdr_pt hdr) in
        if negb (err =? 0) then (a, evs) else decode a evs
      else decode a []
  end.

(** What the allocations made by [audio_alloc] answer. *)
Record alloc_env := {
  mem_zalloc_ok : bool;
  stream_alloc_res : Z * Stream.stream;   (* error, and the stream if 0 *)
  sdp_media_set_lattr_err : Z;
  lfmtl_with_codecs : list sdp_format;    (* local formats after the loop *)
  mb_rtp_ok : bool;
  mb_dec_ok : bool;
  telev_alloc_err : Z
}.

(** [audio_alloc]: the object is zeroed, then filled in; any error releases
    it again. *)
Definition audio_alloc (K : core_h) (e : alloc_env) (ptime : Z)
           (md : audio_mode) (evh : bool) : Z * option audio :=
  if negb (mem_zalloc_ok e) then (ENOMEM, None)
  else if negb (fst (stream_alloc_res e) =? 0)
  then (fst (stream_alloc_res e), None)
  else if negb (sdp_media_set_lattr_err e =? 0)
  then (sdp_media_set_lattr_err e, None)
  else if negb (mb_rtp_ok e) || negb (mb_dec_ok e) then (ENOMEM, None)
  else if negb (telev_alloc_err e =? 0) then (telev_alloc_err e, None)
  else
    let s := snd (stream_alloc_res e) in
    let m := Stream.sdp s in
    let m := {| raddr := raddr m; ldir := ldir m; rdir := rdir m;
                lfmtl := lfmtl_with_codecs e; rfmtl := rfmtl m;
                rattr_rtcp_mux := rattr_rtcp_mux m |} in
    let s := {| Stream.sdp := m; Stream.rtpkeep := Stream.rtpkeep s;
                Stream.jbuf := Stream.jbuf s;
                Stream.ssrc_rx := Stream.ssrc_rx s;
                Stream.pseq := Stream.pseq s; Stream.rtcp := Stream.rtcp s;
                Stream.rtcp_mux := Stream.rtcp_mux s;
                Stream.jbuf_started := Stream.jbuf_started s;
                Stream.pt_enc := Stream.pt_enc s;
                Stream.stats := Stream.stats s |} in
    (0, Some {| strm := s; enc := None; dec := None; fc := false;
                auplay := false; ausrc := false;
                aubuf_tx := false; aubuf_rx := false;
                mb_rtp := mbuf_new (STREAM_PRESZ K + 320);
                eventh := evh; psize := 0;
                ptime_tx := ptime; ptime_rx := ptime;
                pt_tx := wrap8 (PT_NONE K); pt_rx := wrap8 (PT_NONE K);
                pt_tel_tx := wrap8 (PT_NONE K);
                pt_tel_rx := wrap8 (PT_NONE K);
                ts_tx := 160; ts_tel := 0;
                marker := true; is_g722 := false; muted := false;
                mode := md; run_tx := false |}).

End Audio.

(** * Specification vocabulary and sample data *)

Section StreamVocabulary.
Import Re Sdp Stream.

(** The sequence number [rtp_recv] classifies when it delivers a packet:
    the arriving one without a jitter buffer, the dequeued one with. *)
Definition classified (e : env) (hdr : rtp_header) (s : stream) : option Z :=
  if jbuf s then
    match jbuf_get_res e with
    | Some (hdr2, _) => Some (hdr_seq hdr2)
    | None => None
    end
  else Some (hdr_seq hdr).

Definition sample_sdp : sdp_media :=
  {| raddr := {| sa_addr := 167772161; sa_port := 4000 |};
     ldir := SDP_SENDRECV; rdir := SDP_SENDRECV;
     lfmtl := []; rfmtl := []; rattr_rtcp_mux := false |}.

Definition sample_stats : stats_t :=
  {| n_tx := 0; n_rx := 0; b_tx := 0; b_rx := 0;
     bitrate_tx := 0; bitrate_rx := 0; stats_ts := 0 |}.

(** A stream that has admitted sequence number 100. *)
Definition sample_stream : stream :=
  {| sdp := sample_sdp; rtpkeep := None; jbuf := false;
     ssrc_rx := 0; pseq := 100; rtcp := true; rtcp_mux := false;
     jbuf_started := false; pt_enc := -1; stats := sample_stats |}.

Definition sample_env : env :=
  {| jbuf_put_err := 0; jbuf_get_res := None; rtp_send_err := 0 |}.

Definition sample_hdr (seq ssrc : Z) : rtp_header :=
  {| hdr_m := false; hdr_pt := 0; hdr_seq := seq; hdr_ts := 0;
     hdr_ssrc := ssrc |}.

Definition sample_mbuf : mbuf := {| size := 172; pos := 12; end_ := 172 |}.

(** A stream with a jitter buffer that has not seen any SSRC yet. *)
Definition sample_jbuf_stream : stream :=
  {| sdp := sample_sdp; rtpkeep := None; jbuf := true;
     ssrc_rx := 0; pseq := UINT32_MAX; rtcp := true; rtcp_mux := false;
     jbuf_started := false; pt_enc := -1; stats := sample_stats |}.

Definition sample_sdp_unset : sdp_media :=
  {| raddr := {| sa_addr := 0; sa_port := 0 |};
     ldir := SDP_SENDRECV; rdir := SDP_SENDRECV;
     lfmtl := []; rfmtl := []; rattr_rtcp_mux := false |}.

Definition sample_stream_unset : stream :=
  {| sdp := sample_sdp_unset; rtpkeep := None; jbuf := false;
     ssrc_rx := 0; pseq := UINT32_MAX; rtcp := true; rtcp_mux := false;
     jbuf_started := false; pt_enc := 0; stats := sample_stats |}.

Definition sample_keepalive : Rtpkeep.rtpkeep :=
  {| Rtpkeep.method := "zero"; Rtpkeep.ts := 0; Rtpkeep.flag := false |}.

Definition sample_stream_keepalive : stream :=
  {| sdp := sample_sdp; rtpkeep := Some sample_keepalive; jbuf := false;
     ssrc_rx := 0; pseq := UINT32_MAX; rtcp := true; rtcp_mux := false;
     jbuf_started := false; pt_enc := -1; stats := sample_stats |}.

End StreamVocabulary.

Section KeepaliveVocabulary.
Import Re Sdp Rtpkeep.

Fixpoint lower (s : string) : string :=
  match s with
  | EmptyString => EmptyString
  | String c r => String (tolower c) (lower r)
  end.

(** The constants as baresip's core.h has them. *)
Definition core_h_std : core_h :=
  {| PT_CN := 13; PT_NONE := 255; PT_DYN_MIN := 96; PT_DYN_MAX := 127;
     STREAM_PRESZ := 16 |}.

Definition fmt_of_pt (p : Z) : sdp_format :=
  {| pt := p; data := None; params := "" |}.

(** A media line whose remote formats take up every dynamic payload type. *)
Definition sdp_all_dynamic : sdp_media :=
  {| raddr := {| sa_addr := 167772161; sa_port := 4000 |};
     ldir := SDP_SENDRECV; rdir := SDP_SENDRECV;
     lfmtl := [];
     rfmtl := map (fun i => fmt_of_pt (96 + Z.of_nat i)) (seq 0 32);
     rattr_rtcp_mux := false |}.

Definition keepalive_env (alloc_ok : bool) : env :=
  {| mbuf_alloc_ok := alloc_ok; udp_send_err := 0; stun_indication_err := 0;
     rtp_send_err := 0; config_avt_rtcp_mux := false |}.

Definition keepalive_of (meth : string) : rtpkeep :=
  {| method := meth; ts := 0; flag := false |}.

(** One period: the refreshes of the period in order, then the expiry. *)
Definition refresh1 (rk : rtpkeep) (t : Z) : rtpkeep :=
  match rtpkeep_refresh (Some rk) t with
  | Some r => r
  | None => rk
  end.

Definition period (K : core_h) (e : env) (m : sdp_media)
           (refreshes : list Z) (rk : rtpkeep) : rtpkeep * list event :=
  timeout K e m (fold_left refresh1 refreshes rk).

End KeepaliveVocabulary.

Section AudioVocabulary.
Import Re Sdp Audio.

(** Events that decode a packet or put one on the wire. *)
Definition loud (ev : event) : bool :=
  match ev with
  | ev_dech _ | ev_rtp_send _ _ _ _ => true
  | _ => false
  end.

Definition quiet (evs : list event) : bool :=
  forallb (fun ev => negb (loud ev)) evs.

(** What codec set-up and device start-up leave alone. *)
Definition kept (a a' : audio) : Prop :=
  enc a' = enc a /\ dec a' = dec a /\ pt_rx a' = pt_rx a
  /\ marker a' = marker a.

Definition marker_of (ev : event) : list bool :=
  match ev with
  | ev_rtp_send m _ _ _ => [m]
  | _ => []
  end.

(** The marker bits of the RTP packets of a trace, in order. *)
Definition sent_markers (evs : list event) : list bool :=
  flat_map marker_of evs.

Definition sample_stream_alloc : Stream.stream :=
  {| Stream.sdp := sample_sdp; Stream.rtpkeep := None; Stream.jbuf := false;
     Stream.ssrc_rx := 0; Stream.pseq := UINT32_MAX; Stream.rtcp := true;
     Stream.rtcp_mux := false; Stream.jbuf_started := false;
     Stream.pt_enc := -1; Stream.stats := sample_stats |}.

Definition pcmu : aucodec :=
  {| ac_pt := 0; ac_name := "PCMU"; ac_srate := 8000; ac_ch := 1 |}.

Definition sample_alloc_env : alloc_env :=
  {| mem_zalloc_ok := true; stream_alloc_res := (0, sample_stream_alloc);
     sdp_media_set_lattr_err := 0;
     lfmtl_with_codecs := [{| pt := 0; data := Some pcmu; params := "" |}];
     mb_rtp_ok := true; mb_dec_ok := true; telev_alloc_err := 0 |}.

Definition sample_sdp_audio : sdp_media :=
  {| raddr := {| sa_addr := 167772161; sa_port := 4000 |};
     ldir := SDP_SENDRECV; rdir := SDP_SENDRECV;
     lfmtl := [{| pt := 0; data := Some pcmu; params := "" |}];
     rfmtl := []; rattr_rtcp_mux := false |}.

(** The pipeline [audio_alloc] returns for [sample_alloc_env], ptime 20. *)
Definition sample_audio : audio :=
  {| strm := {| Stream.sdp := sample_sdp_audio; Stream.rtpkeep := None;
                Stream.jbuf := false; Stream.ssrc_rx := 0;
                Stream.pseq := UINT32_MAX; Stream.rtcp := true;
                Stream.rtcp_mux := false; Stream.jbuf_started := false;
                Stream.pt_enc := -1; Stream.stats := sample_stats |};
     enc := None; dec := None; fc := false; auplay := false; ausrc := false;
     aubuf_tx := false; aubuf_rx := false; mb_rtp := mbuf_new 336;
     eventh := true; psize := 0; ptime_tx := 20; ptime_rx := 20;
     pt_tx := 255; pt_rx := 255; pt_tel_tx := 255; pt_tel_rx := 255;
     ts_tx := 160; ts_tel := 0; marker := true; is_g722 := false;
     muted := false; mode := AUDIO_MODE_POLL; run_tx := false |}.

(** Every call succeeds; the encoder turns a frame into [len] bytes. *)
Definition sample_audio_env (len : Z) : env :=
  {| strm_env := sample_env;
     config := {| srate_src := {| min := 0; max := 0 |};
                  srate_play := {| min := 0; max := 0 |};
                  src_first := true |};
     mbuf_alloc_ok := true; aubuf_get_err := 0;
     aufilt_chain_encode := fun b => b;
     ench_err := 0; ench_len := len;
     dech := fun _ _ => (0, None);
     aufilt_chain_decode_err := 0; aubuf_write_err := 0;
     telev_recv := Some (1, false); telev_code2digit := fun c => 48 + c;
     alloch_err := 0; alloch_id := 1; alloch_ptime := fun t => t;
     aufilt_list_isempty := true; aufilt_chain_alloc_err := 0;
     auplay_find := true; ausrc_find := true;
     aubuf_alloc_rx_err := 0; aubuf_alloc_tx_err := 0;
     auplay_alloc_err := 0; ausrc_alloc_err := 0;
     pthread_create_err := 0 |}.

(** The calls that drive the transmit side of a pipeline after
    [audio_alloc]: an encoder is set, the devices are started, a frame is
    pulled and sent. *)
Inductive tx_op :=
| op_encoder_set (e : env) (ac : option aucodec) (pt_tx : Z) (params : string)
| op_start (e : env)
| op_poll (e : env).

Definition tx_step (K : core_h) (o : tx_op) (a : audio) : audio * list event :=
  match o with
  | op_encoder_set e ac p params =>
      let '(a', _, evs) := audio_encoder_set e a ac p params in (a', evs)
  | op_start e => let '(a', _, evs) := audio_start e a in (a', evs)
  | op_poll e => poll_aubuf_tx K e a
  end.

Fixpoint tx_run (K : core_h) (ops : list tx_op) (a : audio)
  : audio * list event :=
  match ops with
  | [] => (a, [])
  | o :: rest =>
      let '(a1, evs1) := tx_step K o a in
      let '(a2, evs2) := tx_run K rest a1 in
      (a2, evs1 ++ evs2)
  end.

(** An encoder is set, the source is started, three frames are sent. *)
Definition sample_tx_ops : list tx_op :=
  [op_poll (sample_audio_env 160);
   op_encoder_set (sample_audio_env 160) (Some pcmu) 0 "";
   op_start (sample_audio_env 160);
   op_poll (sample_audio_env 160);
   op_poll (sample_audio_env 160);
   op_poll (sample_audio_env 160)].

(** A successful encode-and-send cycle: a frame is read, the encoder and
    the send report no error. *)
Definition cycle_ok (e : env) : Prop :=
  mbuf_alloc_ok e = true /\ aubuf_get_err e = 0 /\ ench_err e = 0
  /\ Stream.rtp_send_err (strm_env e) = 0.


(** The sample pipeline once PCMU is set and the source started. *)
Definition sample_audio_started : audio :=
  fst (tx_run core_h_std
              [op_encoder_set (sample_audio_env 160) (Some pcmu) 0 "";
               op_start (sample_audio_env 160)]
              sample_audio).

Definition pcma : aucodec :=
  {| ac_pt := 8; ac_name := "PCMA"; ac_srate := 8000; ac_ch := 1 |}.

(** PCMU, PCMA and telephone-event are the local formats. *)
Definition sample_sdp_rx : sdp_media :=
  {| raddr := {| sa_addr := 167772161; sa_port := 4000 |};
     ldir := SDP_SENDRECV; rdir := SDP_SENDRECV;
     lfmtl := [{| pt := 0; data := Some pcmu; params := "" |};
               {| pt := 8; data := Some pcma; params := "" |};
               {| pt := 101; data := None; params := "0-15" |}];
     rfmtl := []; rattr_rtcp_mux := false |}.

(** A pipeline that decodes PCMU and takes telephone events on type 101. *)
Definition sample_audio_rx : audio :=
  {| strm := {| Stream.sdp := sample_sdp_rx; Stream.rtpkeep := None;
                Stream.jbuf := false; Stream.ssrc_rx := 4321;
                Stream.pseq := 100; Stream.rtcp := true;
                Stream.rtcp_mux := false; Stream.jbuf_started := false;
                Stream.pt_enc := 0; Stream.stats := sample_stats |};
     enc := None; dec := Some {| st_ac := pcmu; st_id := 2 |};
     fc := false; auplay := true; ausrc := false;
     aubuf_tx := false; aubuf_rx := true; mb_rtp := mbuf_new 336;
     eventh := true; psize := 0; ptime_tx := 20; ptime_rx := 20;
     pt_tx := 255; pt_rx := 0; pt_tel_tx := 101; pt_tel_rx := 101;
     ts_tx := 160; ts_tel := 0; marker := true; is_g722 := false;
     muted := false; mode := AUDIO_MODE_POLL; run_tx := false |}.

Definition sample_hdr_pt (p : Z) : rtp_header :=
  {| hdr_m := false; hdr_pt := p; hdr_seq := 101; hdr_ts := 0;
     hdr_ssrc := 4321 |}.

End AudioVocabulary.

(** * More of stream.c, audio.c and rtpkeep.c *)

(** ** stream.c: statistics, hold, remote update, reset, allocation *)

Module StreamCtl.
Import Re Sdp Stream.

(** [struct config_avt], the parts [stream.c] reads.  The stream keeps the
    copy made at allocation ([s->cfg]) and never writes it; the functions
    that read it take it as an argument. *)
Record config_avt := {
  rtcp_enable : bool;
  cfg_rtcp_mux : bool;
  jbuf_del_min : Z;
  jbuf_del_max : Z
}.

(** Calls into libre that the receive and send paths do not make. *)
Inductive ctl_event :=
| ctl (ev : event)
| ctl_rtcp_enable_mux (on : bool)
| ctl_rtcp_start (to_rtp_addr : bool)   (* true: RTCP goes to the RTP address *)
| ctl_menc_mediah.

Definition TMR_INTERVAL : Z := 3.

Definition set_sampled (t : stats_t) (tx rx now : Z) : stats_t :=
  {| n_tx := n_tx t; n_rx := n_rx t; b_tx := 0; b_rx := 0;
     bitrate_tx := tx; bitrate_rx := rx; stats_ts := now |}.

(** [tmr_stats_handler]; [now] is [tmr_jiffies()], a [uint64_t].  The
    products are taken in [size_t], the elapsed time is narrowed to
    [uint32_t].  A narrowed elapsed time of 0 divides by zero in C; [Z]'s
    [x / 0 = 0] stands in for it. *)
Definition tmr_stats_handler (now : Z) (s : stream) : stream * list event :=
  let armed := [ev_tmr_start tmr_stats (TMR_INTERVAL * 1000)] in
  let t := stats s in
  if now <=? stats_ts t then (s, armed)
  else
    let diff := wrap32 (now - stats_ts t) in
    let tx := if negb (stats_ts t =? 0)
              then wrapsz (1000 * 8 * b_tx t) / diff else bitrate_tx t in
    let rx := if negb (stats_ts t =? 0)
              then wrapsz (1000 * 8 * b_rx t) / diff else bitrate_rx t in
    (set_stats s (set_sampled t tx rx now), armed).

(** [sdp_media_set_ldir] of libre. *)
Definition sdp_media_set_ldir (m : sdp_media) (d : sdp_dir) : sdp_media :=
  {| raddr := raddr m; ldir := d; rdir := rdir m; lfmtl := lfmtl m;
     rfmtl := rfmtl m; rattr_rtcp_mux := rattr_rtcp_mux m |}.

Definition set_sdp (s : stream) (m : sdp_media) : stream :=
  {| sdp := m; rtpkeep := rtpkeep s; jbuf := jbuf s;
     ssrc_rx := ssrc_rx s; pseq := pseq s; rtcp := rtcp s;
     rtcp_mux := rtcp_mux s; jbuf_started := jbuf_started s;
     pt_enc := pt_enc s; stats := stats s |}.

Definition set_rtcp_mux (s : stream) (v : bool) : stream :=
  {| sdp := sdp s; rtpkeep := rtpkeep s; jbuf := jbuf s;
     ssrc_rx := ssrc_rx s; pseq := pseq s; rtcp := rtcp s;
     rtcp_mux := v; jbuf_started := jbuf_started s;
     pt_enc := pt_enc s; stats := stats s |}.

(** [stream_hold]. *)
Definition stream_hold (s : stream) (hold : bool) : stream :=
  set_sdp s (sdp_media_set_ldir (sdp s)
                                (if hold then SDP_SENDONLY else SDP_SENDRECV)).

(** [stream_remote_set] (RFC 5761): multiplexing is switched on when the
    configuration allows it and the peer offers it, and logged when that
    changes something. *)
Definition stream_remote_set (cfg : config_avt) (s : stream)
  : stream * list ctl_event :=
  let offered := cfg_rtcp_mux cfg && rattr_rtcp_mux (sdp s) in
  let log :=
    if offered && negb (rtcp_mux s)
    then [ctl (ev_re_printf "RTP/RTCP multiplexing enabled")] else [] in
  let s := if offered then set_rtcp_mux s true else s in
  (s, log ++ [ctl_rtcp_enable_mux (rtcp_mux s); ctl_rtcp_start (rtcp_mux s)]).

(** What libre and the encryption module answer during [stream_update]:
    the format [sdp_media_rformat(s->sdp, NULL)] returns, what
    [sdp_media_has_media] says, and the result of the module's media
    handler if there is one. *)
Record update_env := {
  rformat : option sdp_format;
  has_media : bool;
  menc_mediah : option Z
}.

(** [stream_update]. *)
Definition stream_update (cfg : config_avt) (e : update_env) (s : stream)
  : stream * list ctl_event :=
  let s := set_pt_enc s (match rformat e with
                         | Some fmt => pt fmt
                         | None => -1
                         end) in
  let '(s, evs) := if has_media e then stream_remote_set cfg s else (s, []) in
  match menc_mediah e with
  | Some err =>
      (s, evs ++ ctl_menc_mediah
              :: (if err =? 0 then []
                  else [ctl (ev_debug_warning "mediaenc update" err)]))
  | None => (s, evs)
  end.

(** What [stream_start_keepalive] finds: the account's keepalive method
    ([ua_prm(...)->rtpkeep], NULL when none is configured), whether the
    media line has a remote format, and how the allocations go. *)
Record keepalive_env := {
  ua_rtpkeep : option string;
  has_rformat : bool;
  mem_ok : bool;
  dup_ok : bool
}.

(** [stream_start_keepalive]: the old keepalive is always released. *)
Definition stream_start_keepalive (e : keepalive_env) (s : stream)
  : stream * list event :=
  let s := set_rtpkeep s None in
  match ua_rtpkeep e with
  | Some meth =>
      if has_rformat e then
        let '(err, rk, evs) :=
          Rtpkeep.rtpkeep_alloc (mem_ok e) (dup_ok e) (Some meth)
                                Rtpkeep.IPPROTO_UDP true true in
        (set_rtpkeep s rk,
         evs ++ (if err =? 0 then []
                 else [ev_debug_warning "rtpkeep_alloc failed" err]))
      else (s, [])
  | None => (s, [])
  end.

(** [stream_reset]. *)
Definition stream_reset (e : keepalive_env) (s : stream)
  : stream * list event :=
  let '(s', evs) := stream_start_keepalive e s in
  (s', ev_jbuf_flush :: evs).

(** What the allocations made by [stream_alloc] answer; [mnat] and [menc]
    are the results of the NAT and encryption media handlers, [None] when
    the call has no such module. *)
Record alloc_env := {
  mem_zalloc_ok : bool;
  rtp_listen_err : Z;
  jbuf_alloc_err : Z;
  sdp_media_add_res : Z * sdp_media;
  label_lattr_err : Z;
  rsize_lattr_err : Z;
  mux_lattr_err : Z;
  mnat : option Z;
  menc : option Z
}.



End StreamCtl.

(** ** audio.c: level meter, telephone events, capture callback, stop *)

Module AudioCtl.
Import Re Sdp Audio.

(** Signed narrowing, as the usual two's-complement targets do it. *)
Definition wrap_s16 (x : Z) : Z := (x + 2 ^ 15) mod 2 ^ 16 - 2 ^ 15.
Definition wrap_s32 (x : Z) : Z := (x + 2 ^ 31) mod 2 ^ 32 - 2 ^ 31.

(** The loop [for (i=0; i<sampc; i++) v += abs(sampv[i]);] with the
    [int32_t] accumulator [v]. *)
Fixpoint sum_abs (v : Z) (sampv : list Z) : Z :=
  match sampv with
  | [] => v
  | x :: rest => sum_abs (wrap_s32 (v + Z.abs x)) rest
  end.

(** [calc_avg_s16]; [None] is the NULL pointer, the list holds the [sampc]
    samples.  [v/sampc] divides in [size_t]; the result is narrowed to the
    [int16_t] return type. *)
Definition calc_avg_s16 (sampv : option (list Z)) : Z :=
  match sampv with
  | None => 0
  | Some l =>
      if Z.of_nat (List.length l) =? 0 then 0
      else wrap_s16 (wrapsz (sum_abs 0 l) / Z.of_nat (List.length l))
  end.

(** The number of [=] signs [audio_print_vu] writes into its 16-byte
    buffer: [min(2*sizeof(avg_buf)*a->avg/0x8000, sizeof(avg_buf)-1)], the
    [int16_t] level converted to [size_t]. *)
Definition vu_bar_len (avg : Z) : Z :=
  Z.min (wrapsz (2 * 16 * wrapsz avg) / 0x8000) (16 - 1).

(** What [telev_poll] answers: an error when nothing is pending, else the
    marker of the event packet and the number of bytes it appended. *)
Record telev_poll_res := {
  poll_err : Z;
  poll_marker : bool;
  poll_len : Z
}.

(** [check_telev]: the event packet goes out with the telephone-event
    timestamp, which is set to the audio timestamp when the marker says a
    new event starts. *)
Definition check_telev (K : core_h) (e : env) (t : telev_poll_res)
           (a : audio) : audio * list event :=
  let written := STREAM_PRESZ K + poll_len t in
  let a := set_mb_rtp a {| size := Z.max (size (mb_rtp a)) written;
                           pos := written; end_ := written |} in
  if negb (poll_err t =? 0) then (a, [])
  else
    let a := if poll_marker t then set_ts_tel a (ts_tx a) else a in
    let a := set_mb_rtp a {| size := size (mb_rtp a);
                             pos := STREAM_PRESZ K;
                             end_ := end_ (mb_rtp a) |} in
    let '(a, err, evs) :=
      stream_send_in e a (poll_marker t) (pt_tel_tx a) (ts_tel a)
                     (mb_rtp a) in
    (a, evs ++ (if err =? 0 then []
                else [ev_debug_warning "telev: stream_send" err])).

(** [ausrc_read_handler], the capture callback: [write_err] is what
    [aubuf_write] returns for the chunk (silence when muted). *)
Definition ausrc_read_handler (K : core_h) (e : env) (t : telev_poll_res)
           (write_err : Z) (a : audio) : audio * list event :=
  let '(a, evs) :=
    if aubuf_tx a then
      if negb (write_err =? 0) then (a, [ev_aubuf_write])
      else
        match mode a with
        | AUDIO_MODE_POLL =>
            let '(a, evs) := poll_aubuf_tx K e a in (a, ev_aubuf_write :: evs)
        | _ => (a, [ev_aubuf_write])
        end
    else (a, []) in
  let '(a, evs') := check_telev K e t a in
  (a, evs ++ evs').

(** [timeout_tx], the transmit timer of [AUDIO_MODE_TMR]. *)
Definition timeout_tx (K : core_h) (e : env) (a : audio)
  : audio * list event :=
  let '(a, evs) := poll_aubuf_tx K e a in
  (a, ev_tmr_start tmr_tx 5 :: evs).

(** Calls to the DTMF encoder. *)
Inductive telev_call :=
| telev_send (code : Z) (end_flag : bool).

(** [audio_send_digit]: the only fields of [struct audio] it touches are
    the DTMF encoder and [cur_key], which is passed and returned.
    [digit2code] is rem's [telev_digit2code], [send_err] what [telev_send]
    returns. *)
Definition audio_send_digit (digit2code : Z -> Z) (send_err : Z)
           (cur_key key : Z) : Z * Z * list telev_call :=
  if 0 <? key then (key, send_err, [telev_send (digit2code key) false])
  else if negb (cur_key =? 0)
  then (key, send_err, [telev_send (digit2code cur_key) true])
  else (key, 0, []).

(** [audio_ptime_tx_set]: [psize] is not refreshed (a todo in the code). *)
Definition audio_ptime_tx_set (a : audio) (p : Z) : audio :=
  if negb (p =? ptime_tx a) then set_ptime_tx a p else a.

Inductive stop_event :=
| stop_pthread_join
| stop_tmr_cancel.

(** [audio_stop]: the transmit thread or timer first, then the devices,
    the filter chain and the ring buffers. *)
Definition audio_stop (a : audio) : audio * list stop_event :=
  let '(a, evs) :=
    match mode a with
    | AUDIO_MODE_THREAD | AUDIO_MODE_THREAD_REALTIME =>
        if run_tx a then (set_run_tx a false, [stop_pthread_join])
        else (a, [])
    | AUDIO_MODE_TMR => (a, [stop_tmr_cancel])
    | AUDIO_MODE_POLL => (a, [])
    end in
  let a := set_ausrc a false in
  let a := set_auplay a false in
  let a := set_fc a false in
  let a := set_aubuf_tx a false in
  let a := set_aubuf_rx a false in
  (a, evs).

End AudioCtl.

(** ** Vocabulary for the further properties *)

Section StreamRunVocabulary.
Import Re Sdp Stream.

(** A stream after the receive counters took one packet in. *)
Definition counted (mb : mbuf) (s : stream) : stream :=
  set_stats s
    (set_b_rx (set_n_rx (stats s) (wrap32 (n_rx (stats s) + 1)))
              (wrapsz (b_rx (set_n_rx (stats s) (wrap32 (n_rx (stats s) + 1)))
                       + mbuf_get_left (Some mb)))).

(** A stream after it adopted the SSRC of a header. *)
Definition adopted (hdr : rtp_header) (s : stream) : stream :=
  if negb (hdr_ssrc hdr =? ssrc_rx s) then set_ssrc_rx s (hdr_ssrc hdr)
  else s.

(** What [rtp_recv] does to the jitter buffer before it delivers. *)
Definition put_trace (e : env) (hdr : rtp_header) (s : stream) : list event :=
  (if negb (hdr_ssrc hdr =? ssrc_rx s) && negb (ssrc_rx s =? 0)
   then [ev_jbuf_flush] else [])
  ++ [ev_jbuf_put hdr]
  ++ (if jbuf_put_err e =? 0 then []
      else [ev_jbuf_put_dropped (jbuf_put_err e)])
  ++ [ev_jbuf_get].

(** The two entry checks of [rtp_recv]: a payload, and a local direction
    that receives. *)
Definition admitted (mb : mbuf) (s : stream) : Prop :=
  mbuf_get_left (Some mb) <> 0
  /\ Z.land (sdp_media_ldir (sdp s)) (sdp_dir_val SDP_RECVONLY) <> 0.

(** Sequence numbers classified one after the other. *)
Fixpoint classify_all (s : stream) (seqs : list Z) : stream * list Z :=
  match seqs with
  | [] => (s, [])
  | seq :: rest =>
      let '(s1, r) := lostcalc s seq in
      let '(s2, rs) := classify_all s1 rest in
      (s2, r :: rs)
  end.

(** The sequence numbers reached from [start] by the steps [deltas]. *)
Fixpoint seqs_from (start : Z) (deltas : list Z) : list Z :=
  match deltas with
  | [] => []
  | d :: rest => wrap16 (start + d) :: seqs_from (wrap16 (start + d)) rest
  end.

Definition sum_Z (l : list Z) : Z := fold_right Z.add 0 l.

(** Packets received one after the other, each with what the jitter buffer
    answers at that time. *)
Fixpoint recv_run (pkts : list (env * rtp_header * mbuf)) (s : stream)
  : stream * list event :=
  match pkts with
  | [] => (s, [])
  | (e, hdr, mb) :: rest =>
      let '(s1, evs1) := rtp_recv e hdr mb s in
      let '(s2, evs2) := recv_run rest s1 in
      (s2, evs1 ++ evs2)
  end.

(** Every sequence number a packet brings along is a [uint16_t]. *)
Definition seq16 (p : env * rtp_header * mbuf) : Prop :=
  0 <= hdr_seq (snd (fst p)) < 2 ^ 16
  /\ match jbuf_get_res (fst (fst p)) with
     | Some (hdr2, _) => 0 <= hdr_seq hdr2 < 2 ^ 16
     | None => True
     end.

Definition count_flush (evs : list event) : nat :=
  List.length (filter (fun ev => match ev with
                                 | ev_jbuf_flush => true
                                 | _ => false
                                 end) evs).


Definition sample_cfg (mux : bool) (jmin jmax : Z) : StreamCtl.config_avt :=
  {| StreamCtl.rtcp_enable := true; StreamCtl.cfg_rtcp_mux := mux;
     StreamCtl.jbuf_del_min := jmin; StreamCtl.jbuf_del_max := jmax |}.


(** A stream with a jitter buffer that plays the SSRC 4321 stream and has
    admitted sequence number 500. *)
Definition sample_playing_stream : stream :=
  {| sdp := sample_sdp; rtpkeep := None; jbuf := true;
     ssrc_rx := 4321; pseq := 500; rtcp := true; rtcp_mux := false;
     jbuf_started := true; pt_enc := 0; stats := sample_stats |}.

End StreamRunVocabulary.

Section StreamCtlVocabulary.
Import Re Sdp Stream StreamCtl.

(** Remote descriptions applied one after the other: each step installs
    the media line as negotiated and runs [stream_update]. *)
Fixpoint update_run (cfg : config_avt) (steps : list (sdp_media * update_env))
         (s : stream) : stream * list ctl_event :=
  match steps with
  | [] => (s, [])
  | (m, e) :: rest =>
      let '(s1, evs1) := stream_update cfg e (set_sdp s m) in
      let '(s2, evs2) := update_run cfg rest s1 in
      (s2, evs1 ++ evs2)
  end.

Definition is_mux_log (ev : ctl_event) : bool :=
  match ev with
  | ctl (ev_re_printf _) => true
  | _ => false
  end.

Definition count_mux_log (evs : list ctl_event) : nat :=
  List.length (filter is_mux_log evs).

(** The send gate: a remote address, and sendrecv negotiated. *)
Definition can_send (s : stream) : Prop :=
  sa_isset_all (sdp_media_raddr (sdp s)) = true
  /\ sdp_media_dir (sdp s) = sdp_dir_val SDP_SENDRECV.


Definition sample_sdp_mux : sdp_media :=
  {| raddr := {| sa_addr := 167772161; sa_port := 4000 |};
     ldir := SDP_SENDRECV; rdir := SDP_SENDRECV;
     lfmtl := []; rfmtl := [fmt_of_pt 8]; rattr_rtcp_mux := true |}.

Definition sample_update_env (f : option sdp_format) : update_env :=
  {| rformat := f; has_media := true; menc_mediah := None |}.

Definition sample_keepalive_env (meth : option string) : keepalive_env :=
  {| ua_rtpkeep := meth; has_rformat := true; mem_ok := true;
     dup_ok := true |}.

End StreamCtlVocabulary.

Section KeepaliveRunVocabulary.
Import Re Sdp Rtpkeep.

(** Consecutive 15 s periods, each with the refreshes that fall into it. *)
Fixpoint keepalive_run (K : core_h) (e : env) (m : sdp_media)
         (periods : list (list Z)) (rk : rtpkeep) : rtpkeep * list event :=
  match periods with
  | [] => (rk, [])
  | r :: rest =>
      let '(rk1, evs1) := period K e m r rk in
      let '(rk2, evs2) := keepalive_run K e m rest rk1 in
      (rk2, evs1 ++ evs2)
  end.

Definition is_idle (refreshes : list Z) : bool :=
  match refreshes with
  | [] => true
  | _ => false
  end.

Definition idle_periods (periods : list (list Z)) : nat :=
  List.length (filter is_idle periods).

(** A remote format with payload type [q] has been negotiated. *)
Definition pt_in_use (m : sdp_media) (q : Z) : Prop :=
  exists f, In f (rfmtl m) /\ pt f = q.

Definition sample_sdp_dyna : sdp_media :=
  {| raddr := {| sa_addr := 167772161; sa_port := 4000 |};
     ldir := SDP_SENDRECV; rdir := SDP_SENDRECV;
     lfmtl := [];
     rfmtl := [fmt_of_pt 0; fmt_of_pt 127; fmt_of_pt 126; fmt_of_pt 101];
     rattr_rtcp_mux := false |}.

Definition sample_stream_dyna : Stream.stream :=
  Stream.set_rtpkeep (StreamCtl.set_sdp sample_stream sample_sdp_dyna)
                     (Some (keepalive_of "Dyna")).

End KeepaliveRunVocabulary.

Section AudioRunVocabulary.
Import Re Sdp Audio AudioCtl.

Definition is_dech (ev : event) : bool :=
  match ev with
  | ev_dech _ => true
  | _ => false
  end.

(** How often the decoder was called. *)
Definition count_dech (evs : list event) : nat :=
  List.length (filter is_dech evs).

Definition g722 : aucodec :=
  {| ac_pt := 9; ac_name := "G722"; ac_srate := 8000; ac_ch := 1 |}.

(** A sample that fits [int16_t]. *)
Definition int16 (x : Z) : Prop := - 2 ^ 15 <= x < 2 ^ 15.

(** The mean magnitude of the samples, rounded down. *)
Definition mean_abs (l : list Z) : Z :=
  sum_Z (map Z.abs l) / Z.of_nat (List.length l).

Definition full_scale_negative (l : list Z) : bool :=
  forallb (fun x => x =? - 2 ^ 15) l.

(** Calls of [audio_send_digit] one after the other, each with the key
    and what [telev_send] answers; [cur] is [cur_key]. *)
Fixpoint digit_run (digit2code : Z -> Z) (calls : list (Z * Z)) (cur : Z)
  : Z * list telev_call :=
  match calls with
  | [] => (cur, [])
  | (key, err) :: rest =>
      let '(cur1, _, evs1) := audio_send_digit digit2code err cur key in
      let '(cur2, evs2) := digit_run digit2code rest cur1 in
      (cur2, evs1 ++ evs2)
  end.

(** A key pressed and released: the press with what [telev_send] answers
    to it, then key 0 with what it answers to that. *)
Definition press_release (k : Z * Z * Z) : list (Z * Z) :=
  [(fst (fst k), snd (fst k)); (0, snd k)].

Definition is_ench (ev : event) : bool :=
  match ev with
  | ev_ench _ => true
  | _ => false
  end.


Definition sample_telev (m : bool) : telev_poll_res :=
  {| poll_err := 0; poll_marker := m; poll_len := 4 |}.

End AudioRunVocabulary.

(** * Properties *)

(** Case analysis on the membership of an event in a trace. *)
Ltac in_events H :=
  match type of H with
  | In _ (_ ++ _) => apply in_app_or in H; destruct H as [H|H]; in_events H
  | In _ (if ?c then _ else _) => destruct c; in_events H
  | In _ (_ :: _) => destruct H as [H|H]; [try discriminate H | in_events H]
  | In _ [] => contradiction H
  | _ \/ _ => destruct H as [H|H]; [try discriminate H | in_events H]
  | False => contradiction H
  | _ => idtac
  end.

(** ** Loss classification and the receive path (stream.c) *)

Section StreamReceive.
Import Re Sdp Stream.

Lemma wrap16_wrap32 (x : Z) : wrap16 (wrap32 x) = wrap16 x.
Proof.
  unfold wrap16, wrap32.
  apply Z.mod_mod_divide. exists (2 ^ 16). reflexivity.
Qed.

(** A 16-bit value is never the "unset" marker of [pseq]. *)
Lemma stored_seq_is_set (last : Z) :
  0 <= last < 2 ^ 16 -> (last =? UINT32_MAX) = false.
Proof. intros H. apply Z.eqb_neq. unfold UINT32_MAX. lia. Qed.

(** C1.  With an admitted 16-bit sequence number [last] stored, a sequence
    number [seq] whose 16-bit delta [d = seq - last] lies in [1, 65435] is
    adopted as the stored sequence number ([pseq] reads [seq] afterwards,
    nothing else of the stream changes), and the loss count returned is
    [d - 1] for [d] in [1, 2999] and 0 for [d] in [3000, 65435]. *)
Theorem lostcalc_forward :
  forall (s : stream) (last seq : Z),
    0 <= last < 2 ^ 16 -> 0 <= seq < 2 ^ 16 ->
    pseq s = last ->
    1 <= wrap16 (seq - last) <= 65435 ->
    lostcalc s seq =
      (set_pseq s seq,
       if wrap16 (seq - last) <? 3000 then wrap16 (seq - last) - 1 else 0)
    /\ pseq (fst (lostcalc s seq)) = seq
    /\ (1 <= wrap16 (seq - last) <= 2999 ->
        snd (lostcalc s seq) = wrap16 (seq - last) - 1)
    /\ (3000 <= wrap16 (seq - last) <= 65435 -> snd (lostcalc s seq) = 0).
Proof.
  intros s last seq Hlast Hseq Hp Hd.
  assert (Hrun : lostcalc s seq
                 = (set_pseq s seq,
                    if wrap16 (seq - last) <? 3000
                    then wrap16 (seq - last) - 1 else 0)).
  { unfold lostcalc. rewrite Hp, wrap16_wrap32, (stored_seq_is_set _ Hlast).
    destruct (wrap16 (seq - last) =? 0) eqn:E0.
    - apply Z.eqb_eq in E0. lia.
    - destruct (wrap16 (seq - last) <? 3000) eqn:E1; [reflexivity|].
      destruct (wrap16 (seq - last) <? 0xff9c) eqn:E2; [reflexivity|].
      apply Z.ltb_ge in E2. lia. }
  split; [exact Hrun|]. rewrite Hrun. cbn [fst snd].
  split; [reflexivity|]. split; intros Hr.
  - destruct (Z.ltb_spec (wrap16 (seq - last)) 3000); [reflexivity | lia].
  - destruct (Z.ltb_spec (wrap16 (seq - last)) 3000); [lia | reflexivity].
Qed.

Lemma lostcalc_forward_witness :
  (pseq (fst (lostcalc sample_stream 105)) = 105
   /\ snd (lostcalc sample_stream 105) = 4)
  /\ (pseq (fst (lostcalc sample_stream 4100)) = 4100
      /\ snd (lostcalc sample_stream 4100) = 0).
Proof.
  split.
  - destruct (lostcalc_forward sample_stream 100 105)
      as [_ [Hp [Hl _]]];
      [lia | lia | reflexivity | vm_compute; split; discriminate |].
    split; [exact Hp|]. rewrite Hl; [reflexivity|].
    vm_compute. split; discriminate.
  - destruct (lostcalc_forward sample_stream 100 4100)
      as [_ [Hp [_ Hl]]];
      [lia | lia | reflexivity | vm_compute; split; discriminate |].
    split; [exact Hp|]. rewrite Hl; [reflexivity|].
    vm_compute. split; discriminate.
Defined.

Lemma lostcalc_ignored (s : stream) (last seq : Z) :
  0 <= last < 2 ^ 16 ->
  pseq s = last ->
  wrap16 (seq - last) = 0 \/ 65436 <= wrap16 (seq - last) ->
  lostcalc s seq = (s, if wrap16 (seq - last) =? 0 then -1 else -2).
Proof.
  intros Hlast Hp Hd.
  unfold lostcalc. rewrite Hp, wrap16_wrap32, (stored_seq_is_set _ Hlast).
  destruct (wrap16 (seq - last) =? 0) eqn:E0; [reflexivity|].
  apply Z.eqb_neq in E0.
  destruct Hd as [Hd|Hd]; [contradiction|].
  destruct (wrap16 (seq - last) <? 3000) eqn:E1;
    [apply Z.ltb_lt in E1; lia|].
  destruct (wrap16 (seq - last) <? 0xff9c) eqn:E2;
    [apply Z.ltb_lt in E2; lia|reflexivity].
Qed.

Lemma deliver_ignored (hdr hdr2 : rtp_header) (mb2 : option mbuf)
      (s : stream) (last : Z) :
  0 <= last < 2 ^ 16 ->
  pseq s = last ->
  wrap16 (hdr_seq hdr2 - last) = 0 \/ 65436 <= wrap16 (hdr_seq hdr2 - last) ->
  deliver hdr hdr2 mb2 s = (s, [ev_rtph hdr2 mb2]).
Proof.
  intros Hlast Hp Hd. unfold deliver.
  rewrite (lostcalc_ignored s last _ Hlast Hp Hd).
  destruct (wrap16 (hdr_seq hdr2 - last) =? 0); reflexivity.
Qed.

(** C2.  With an admitted sequence number stored, a sequence number whose
    16-bit delta is 0 (duplicate) or at least 65436 (backward step) is
    ignored: [lostcalc] returns a negative code and leaves the stream as it
    was, and [rtp_recv] delivering such a packet keeps the stored sequence
    number and makes no handler call without payload. *)
Theorem ignored_seq_no_notification :
  forall (e : env) (hdr : rtp_header) (mb : mbuf) (s : stream)
         (last seq : Z),
    0 <= last < 2 ^ 16 -> 0 <= seq < 2 ^ 16 ->
    pseq s = last ->
    wrap16 (seq - last) = 0 \/ 65436 <= wrap16 (seq - last) ->
    lostcalc s seq = (s, if wrap16 (seq - last) =? 0 then -1 else -2)
    /\ (classified e hdr s = Some seq ->
        pseq (fst (rtp_recv e hdr mb s)) = last
        /\ forall h, ~ In (ev_rtph h None) (snd (rtp_recv e hdr mb s))).
Proof.
  intros e hdr mb s last seq Hlast Hseq Hp Hd.
  split; [apply lostcalc_ignored; assumption|].
  intros Hc. unfold rtp_recv.
  destruct (mbuf_get_left (Some mb) =? 0); [simpl; intuition|].
  destruct (Z.land _ _ =? 0); [simpl; intuition|].
  cbv zeta.
  set (s1 := set_stats s _).
  set (s2 := if negb (hdr_ssrc hdr =? ssrc_rx s1)
             then set_ssrc_rx s1 (hdr_ssrc hdr) else s1).
  assert (Hj : jbuf s2 = jbuf s)
    by (unfold s2; destruct (negb _); reflexivity).
  assert (Hp2 : pseq s2 = last)
    by (unfold s2; destruct (negb _); simpl; assumption).
  unfold classified in Hc. rewrite Hj.
  destruct (jbuf s).
  - destruct (jbuf_get_res e) as [[hdr2 mb2]|]; [|discriminate].
    injection Hc as Hc. subst seq.
    rewrite (deliver_ignored hdr hdr2 (Some mb2) (set_jbuf_started s2 true)
               last Hlast Hp2 Hd).
    simpl. split; [assumption|].
    intros h H. in_events H.
  - injection Hc as Hc. subst seq.
    rewrite (deliver_ignored hdr hdr (Some mb) s2 last Hlast Hp2 Hd).
    simpl. split; [assumption|]. intros h H. in_events H.
Qed.

Lemma ignored_seq_no_notification_witness :
  lostcalc sample_stream 90 = (sample_stream, -2)
  /\ pseq (fst (rtp_recv sample_env (sample_hdr 90 7) sample_mbuf
                         sample_stream)) = 100
  /\ forall h,
       ~ In (ev_rtph h None)
            (snd (rtp_recv sample_env (sample_hdr 90 7) sample_mbuf
                           sample_stream)).
Proof.
  destruct (ignored_seq_no_notification sample_env (sample_hdr 90 7)
              sample_mbuf sample_stream 100 90) as [H1 H2];
    [lia | lia | reflexivity | right; vm_compute; discriminate |].
  split; [exact H1 | apply H2; reflexivity].
Defined.

End StreamReceive.

Section StreamSsrc.
Import Re Sdp Stream.

Lemma deliver_no_flush (hdr hdr2 : rtp_header) (mb2 : option mbuf)
      (s : stream) :
  ~ In ev_jbuf_flush (snd (deliver hdr hdr2 mb2 s)).
Proof.
  unfold deliver. destruct (lostcalc s (hdr_seq hdr2)) as [s' lostc].
  simpl. intros H. in_events H.
Qed.

Lemma deliver_ssrc_rx (hdr hdr2 : rtp_header) (mb2 : option mbuf)
      (s : stream) :
  ssrc_rx (fst (deliver hdr hdr2 mb2 s)) = ssrc_rx s.
Proof.
  unfold deliver, lostcalc.
  repeat match goal with
         | |- context [if ?c then _ else _] => destruct c
         end; reflexivity.
Qed.

(** C10.  A stored SSRC of 0 stands for "no SSRC seen yet": whatever packet
    arrives, the jitter buffer is flushed only if the stored SSRC is nonzero
    (and differs from the packet's); so with 0 stored, a packet that passes
    the two entry checks has its SSRC adopted and nothing is flushed. *)
Theorem ssrc_zero_never_flushes :
  forall (e : env) (hdr : rtp_header) (mb : mbuf) (s : stream),
    (In ev_jbuf_flush (snd (rtp_recv e hdr mb s)) ->
     ssrc_rx s <> 0 /\ hdr_ssrc hdr <> ssrc_rx s)
    /\ (ssrc_rx s = 0 ->
        mbuf_get_left (Some mb) <> 0 ->
        Z.land (sdp_media_ldir (sdp s)) (sdp_dir_val SDP_RECVONLY) <> 0 ->
        ssrc_rx (fst (rtp_recv e hdr mb s)) = hdr_ssrc hdr
        /\ ~ In ev_jbuf_flush (snd (rtp_recv e hdr mb s))).
Proof.
  intros e hdr mb s.
  assert (Hflush : In ev_jbuf_flush (snd (rtp_recv e hdr mb s)) ->
                   ssrc_rx s <> 0 /\ hdr_ssrc hdr <> ssrc_rx s).
  { unfold rtp_recv.
    destruct (mbuf_get_left (Some mb) =? 0); [simpl; contradiction|].
    destruct (Z.land _ _ =? 0); [simpl; contradiction|].
    cbv zeta.
    set (s1 := set_stats s _).
    change (ssrc_rx s1) with (ssrc_rx s).
    set (s2 := if negb (hdr_ssrc hdr =? ssrc_rx s)
               then set_ssrc_rx s1 (hdr_ssrc hdr) else s1).
    destruct (jbuf s2).
    - assert (Hput : forall rest,
                 ~ In ev_jbuf_flush rest ->
                 In ev_jbuf_flush
                    (((if negb (hdr_ssrc hdr =? ssrc_rx s)
                          && negb (ssrc_rx s =? 0)
                       then [ev_jbuf_flush] else [])
                      ++ [ev_jbuf_put hdr]
                      ++ (if jbuf_put_err e =? 0 then []
                          else [ev_jbuf_put_dropped (jbuf_put_err e)])
                      ++ [ev_jbuf_get]) ++ rest) ->
                 ssrc_rx s <> 0 /\ hdr_ssrc hdr <> ssrc_rx s).
      { intros rest Hrest H.
        destruct (hdr_ssrc hdr =? ssrc_rx s) eqn:E1;
          destruct (ssrc_rx s =? 0) eqn:E2; simpl in H;
          try (in_events H; contradiction).
        apply Z.eqb_neq in E1, E2. split; assumption. }
      destruct (jbuf_get_res e) as [[hdr2 mb2]|].
      + destruct (deliver hdr hdr2 (Some mb2) (set_jbuf_started s2 true))
          as [s' evs] eqn:Ed.
        simpl. apply Hput.
        change evs with (snd (s', evs)). rewrite <- Ed.
        apply deliver_no_flush.
      + destruct (negb (jbuf_started s2)).
        * simpl. intros H. apply (Hput []); [intros []|].
          rewrite app_nil_r. exact H.
        * destruct (deliver hdr rtp_header_zero None
                            (set_jbuf_started s2 true))
            as [s' evs] eqn:Ed.
          simpl. apply Hput.
          change evs with (snd (s', evs)). rewrite <- Ed.
          apply deliver_no_flush.
    - intros H. exfalso. exact (deliver_no_flush _ _ _ _ H). }
  split; [exact Hflush|].
  intros H0 Hleft Hdir.
  split; [|intros H; apply Hflush in H; tauto].
  unfold rtp_recv.
  apply Z.eqb_neq in Hleft, Hdir. rewrite Hleft, Hdir.
  cbv zeta.
  set (s1 := set_stats s _).
  change (ssrc_rx s1) with (ssrc_rx s).
  set (s2 := if negb (hdr_ssrc hdr =? ssrc_rx s)
             then set_ssrc_rx s1 (hdr_ssrc hdr) else s1).
  assert (H2 : ssrc_rx s2 = hdr_ssrc hdr).
  { unfold s2. destruct (hdr_ssrc hdr =? ssrc_rx s) eqn:E; simpl.
    - apply Z.eqb_eq in E. symmetry. exact E.
    - reflexivity. }
  destruct (jbuf s2).
  - destruct (jbuf_get_res e) as [[hdr2 mb2]|].
    + destruct (deliver hdr hdr2 (Some mb2) (set_jbuf_started s2 true))
        as [s' evs] eqn:Ed.
      simpl. change s' with (fst (s', evs)). rewrite <- Ed.
      rewrite deliver_ssrc_rx. exact H2.
    + destruct (negb (jbuf_started s2)); [exact H2|].
      destruct (deliver hdr rtp_header_zero None (set_jbuf_started s2 true))
        as [s' evs] eqn:Ed.
      simpl. change s' with (fst (s', evs)). rewrite <- Ed.
      rewrite deliver_ssrc_rx. exact H2.
  - rewrite deliver_ssrc_rx. exact H2.
Qed.

Lemma ssrc_zero_never_flushes_witness :
  ssrc_rx (fst (rtp_recv sample_env (sample_hdr 1 4321) sample_mbuf
                         sample_jbuf_stream)) = 4321
  /\ ~ In ev_jbuf_flush
          (snd (rtp_recv sample_env (sample_hdr 1 4321) sample_mbuf
                         sample_jbuf_stream)).
Proof.
  apply (ssrc_zero_never_flushes sample_env (sample_hdr 1 4321) sample_mbuf
           sample_jbuf_stream);
    [reflexivity | vm_compute; discriminate | vm_compute; discriminate].
Defined.

End StreamSsrc.

(** ** The send path (stream.c) *)

Section StreamSend.
Import Re Sdp Stream.

(** C4.  With the remote address unset, or with a negotiated direction
    other than sendrecv, [stream_send] returns 0, hands no packet to the
    socket and leaves the stream as it was. *)
Theorem stream_send_gated :
  forall (e : env) (s : stream) (marker : bool) (pt ts : Z) (mb : mbuf),
    sa_isset_all (sdp_media_raddr (sdp s)) = false
    \/ sdp_media_dir (sdp s) <> sdp_dir_val SDP_SENDRECV ->
    stream_send e (Some s) marker pt ts mb = (Some s, 0, []).
Proof.
  intros e s marker pt ts mb [H|H]; unfold stream_send.
  - rewrite H. reflexivity.
  - apply Z.eqb_neq in H. rewrite H.
    destruct (negb (sa_isset_all _)); reflexivity.
Qed.

Lemma stream_send_gated_witness :
  stream_send sample_env (Some sample_stream_unset) true 0 160 sample_mbuf
  = (Some sample_stream_unset, 0, []).
Proof.
  apply (stream_send_gated sample_env sample_stream_unset true 0 160
           sample_mbuf).
  left. reflexivity.
Defined.

(** C9.  Remote address set, direction sendrecv, a negative [pt] argument
    and no encoder payload type stored ([pt_enc = -1]): [stream_send]
    returns 0 and hands nothing to the socket, yet the byte counter grows by
    the payload length, the packet counter by one, and the keepalive (if
    there is one) is refreshed with [ts] and has its activity flag set; the
    stream is left exactly as a send with a real payload type leaves it. *)
Theorem stream_send_without_payload_type :
  forall (e : env) (s : stream) (marker : bool) (pt ts : Z) (mb : mbuf),
    sa_isset_all (sdp_media_raddr (sdp s)) = true ->
    sdp_media_dir (sdp s) = sdp_dir_val SDP_SENDRECV ->
    pt < 0 ->
    pt_enc s = -1 ->
    exists s' : stream,
      stream_send e (Some s) marker pt ts mb = (Some s', 0, [])
      /\ b_tx (stats s') = wrapsz (b_tx (stats s) + mbuf_get_left (Some mb))
      /\ n_tx (stats s') = wrap32 (n_tx (stats s) + 1)
      /\ rtpkeep s' = Rtpkeep.rtpkeep_refresh (rtpkeep s) ts
      /\ (forall rk, rtpkeep s = Some rk ->
          exists rk', rtpkeep s' = Some rk'
                      /\ Rtpkeep.flag rk' = true /\ Rtpkeep.ts rk' = ts)
      /\ (forall pt', 0 <= pt' ->
          fst (fst (stream_send e (Some s) marker pt' ts mb)) = Some s').
Proof.
  intros e s marker pt ts mb Ha Hd Hpt Henc.
  unfold stream_send. rewrite Ha, Hd, Z.eqb_refl. simpl negb. cbv iota.
  cbv zeta.
  assert (E1 : (pt <? 0) = true) by (apply Z.ltb_lt; exact Hpt).
  rewrite E1. simpl pt_enc. rewrite Henc. simpl (0 <=? -1). cbv iota.
  eexists. split; [reflexivity|].
  simpl. repeat split.
  - intros rk Hrk. rewrite Hrk. simpl. eexists. repeat split.
  - intros pt' Hpt'.
    assert (E2 : (pt' <? 0) = false) by (apply Z.ltb_ge; exact Hpt').
    assert (E3 : (0 <=? pt') = true) by (apply Z.leb_le; exact Hpt').
    rewrite E2, E3. reflexivity.
Qed.

Lemma stream_send_without_payload_type_witness :
  exists s' : stream,
    stream_send sample_env (Some sample_stream_keepalive) false (-1) 320
                sample_mbuf = (Some s', 0, [])
    /\ b_tx (stats s') = 160 /\ n_tx (stats s') = 1
    /\ rtpkeep s'
       = Some {| Rtpkeep.method := "zero"; Rtpkeep.ts := 320;
                 Rtpkeep.flag := true |}.
Proof.
  destruct (stream_send_without_payload_type sample_env
              sample_stream_keepalive false (-1) 320 sample_mbuf)
    as [s' [Hs [Hb [Hn [Hk _]]]]];
    [reflexivity | reflexivity | lia | reflexivity |].
  exists s'. repeat split; assumption.
Defined.

End StreamSend.

(** ** The keepalive state machine (rtpkeep.c) *)

Section Keepalive.
Import Re Sdp Rtpkeep.

Lemma str_casecmp_lower (a b : string) :
  str_casecmp a b = 0 -> lower a = lower b.
Proof.
  revert b. induction a as [|c a IH]; intros [|d b]; simpl;
    try reflexivity; try discriminate.
  destruct (Ascii.eqb (tolower c) (tolower d)) eqn:E; [|discriminate].
  apply Ascii.eqb_eq in E. intros H. rewrite E, (IH b H). reflexivity.
Qed.

(** A method string matches at most one of the method names. *)
Ltac other_method H :=
  match goal with
  | |- context [str_casecmp ?m ?name =? 0] =>
      let E := fresh "E" in
      destruct (Z.eqb_spec (str_casecmp m name) 0) as [E|E];
      [ apply str_casecmp_lower in E;
        rewrite (str_casecmp_lower _ _ H) in E;
        vm_compute in E; discriminate E
      | clear E ]
  end.

Lemma format_present (m : sdp_media) (q : Z) :
  (exists f, In f (rfmtl m) /\ pt f = q) ->
  sdp_media_format m false q <> None.
Proof.
  intros [f [Hin Hpt]] Hnone. unfold sdp_media_format in Hnone.
  apply (find_none _ _ Hnone) in Hin.
  destruct (0 <=? q); [|discriminate].
  rewrite Hpt, Z.eqb_refl in Hin. discriminate.
Qed.

Lemma find_unused_pt_from_exhausted (m : sdp_media) (n : nat) :
  forall p,
    (forall q, p - Z.of_nat n < q <= p -> sdp_media_format m false q <> None) ->
    find_unused_pt_from m n p = -1.
Proof.
  induction n as [|n IH]; intros p H; [reflexivity|].
  simpl find_unused_pt_from.
  destruct (sdp_media_format m false p) eqn:E.
  - apply IH. intros q Hq. apply H. lia.
  - exfalso. apply (H p); [lia | exact E].
Qed.

Lemma find_unused_pt_exhausted (K : core_h) (m : sdp_media) :
  (forall p, PT_DYN_MIN K <= p <= PT_DYN_MAX K ->
             exists f, In f (rfmtl m) /\ pt f = p) ->
  find_unused_pt K m = -1.
Proof.
  intros H. unfold find_unused_pt.
  apply find_unused_pt_from_exhausted.
  intros q Hq. apply format_present, H. lia.
Qed.

Lemma sdp_all_dynamic_full :
  forall p, PT_DYN_MIN core_h_std <= p <= PT_DYN_MAX core_h_std ->
            exists f, In f (rfmtl sdp_all_dynamic) /\ pt f = p.
Proof.
  simpl. intros p Hp. exists (fmt_of_pt p). split; [|reflexivity].
  assert (Hcases : p = 96 \/ p = 97 \/ p = 98 \/ p = 99 \/ p = 100
                   \/ p = 101 \/ p = 102 \/ p = 103 \/ p = 104 \/ p = 105
                   \/ p = 106 \/ p = 107 \/ p = 108 \/ p = 109 \/ p = 110
                   \/ p = 111 \/ p = 112 \/ p = 113 \/ p = 114 \/ p = 115
                   \/ p = 116 \/ p = 117 \/ p = 118 \/ p = 119 \/ p = 120
                   \/ p = 121 \/ p = 122 \/ p = 123 \/ p = 124 \/ p = 125
                   \/ p = 126 \/ p = 127) by lia.
  repeat (destruct Hcases as [Hc|Hcases]; [subst p; simpl; tauto|]).
  subst p; simpl; tauto.
Qed.

(** C5, as the code has it.  When every dynamic payload type is among the
    remote formats, the scan finds none unused and a "dyna" keepalive sends
    nothing; it reports ENOENT provided the header buffer was allocated
    (ENOMEM otherwise), and the expiry that attempted it logs that error
    after re-arming the timer. *)
Theorem dyna_keepalive_exhausted :
  forall (K : core_h) (e : env) (m : sdp_media) (rk : rtpkeep),
    str_casecmp (method rk) "dyna" = 0 ->
    (forall p, PT_DYN_MIN K <= p <= PT_DYN_MAX K ->
               exists f, In f (rfmtl m) /\ pt f = p) ->
    find_unused_pt K m = -1
    /\ send_keepalive K e m rk
       = (if mbuf_alloc_ok e then ENOENT else ENOMEM, [])
    /\ (flag rk = false ->
        timeout K e m rk
        = (rk, [ev_tmr_start tmr_rtpkeep 15000;
                ev_debug_warning "keepalive"
                  (if mbuf_alloc_ok e then ENOENT else ENOMEM)])).
Proof.
  intros K e m rk Hm Hfull.
  pose proof (find_unused_pt_exhausted K m Hfull) as Hnone.
  assert (Hsend : send_keepalive K e m rk
                  = (if mbuf_alloc_ok e then ENOENT else ENOMEM, [])).
  { unfold send_keepalive.
    other_method Hm. other_method Hm.
    rewrite Hm, Hnone. simpl. destruct (mbuf_alloc_ok e); reflexivity. }
  repeat split; try assumption.
  intros Hflag. unfold timeout. rewrite Hflag, Hsend.
  destruct (mbuf_alloc_ok e); reflexivity.
Qed.

Lemma dyna_keepalive_exhausted_witness :
  find_unused_pt core_h_std sdp_all_dynamic = -1
  /\ send_keepalive core_h_std (keepalive_env true) sdp_all_dynamic
                    (keepalive_of "dyna") = (ENOENT, [])
  /\ timeout core_h_std (keepalive_env true) sdp_all_dynamic
             (keepalive_of "dyna")
     = (keepalive_of "dyna",
        [ev_tmr_start tmr_rtpkeep 15000; ev_debug_warning "keepalive" ENOENT]).
Proof.
  destruct (dyna_keepalive_exhausted core_h_std (keepalive_env true)
              sdp_all_dynamic (keepalive_of "dyna"))
    as [H1 [H2 H3]];
    [reflexivity | exact sdp_all_dynamic_full |].
  split; [exact H1|]. split; [exact H2 | exact (H3 eq_refl)].
Defined.

(** C5 as stated fails when the header buffer cannot be allocated: every
    dynamic payload type is taken, yet the outcome is ENOMEM, not ENOENT. *)
Lemma dyna_keepalive_not_found_counterexample :
  (forall p, PT_DYN_MIN core_h_std <= p <= PT_DYN_MAX core_h_std ->
             exists f, In f (rfmtl sdp_all_dynamic) /\ pt f = p)
  /\ fst (send_keepalive core_h_std (keepalive_env false) sdp_all_dynamic
                         (keepalive_of "dyna")) <> ENOENT.
Proof.
  split; [exact sdp_all_dynamic_full|].
  vm_compute. discriminate.
Qed.

Lemma rtpkeep_alloc_flag_clear (mem_ok dup_ok : bool) (meth : option string)
      (proto : Z) (rtp sdp : bool) (rk : rtpkeep) (evs : list event) :
  rtpkeep_alloc mem_ok dup_ok meth proto rtp sdp = (0, Some rk, evs) ->
  flag rk = false.
Proof.
  unfold rtpkeep_alloc. destruct meth as [m|]; [|discriminate].
  repeat match goal with
         | |- context [if ?c then _ else _] => destruct c
         end; intros H; try discriminate H.
  injection H as <- _. reflexivity.
Qed.

Lemma refreshed_flag (l : list Z) :
  forall rk, flag rk = true -> flag (fold_left refresh1 l rk) = true.
Proof.
  induction l as [|t l IH]; intros rk H; [exact H|].
  simpl. apply IH. reflexivity.
Qed.

Lemma refreshed_period_flag (l : list Z) (rk : rtpkeep) :
  l <> [] -> flag (fold_left refresh1 l rk) = true.
Proof.
  destruct l as [|t l]; [intros H; contradiction|].
  intros _. simpl. apply refreshed_flag. reflexivity.
Qed.

Lemma send_keepalive_at_most_one (K : core_h) (e : env) (m : sdp_media)
      (rk : rtpkeep) :
  (packets_sent (snd (send_keepalive K e m rk)) <= 1)%nat
  /\ forall t d, ~ In (ev_tmr_start t d) (snd (send_keepalive K e m rk)).
Proof.
  unfold send_keepalive.
  repeat match goal with
         | |- context [if ?c then _ else _] => destruct c
         end; unfold packets_sent; simpl;
    (split; [lia | intros t d H; in_events H]).
Qed.

Lemma packets_sent_app (l1 l2 : list event) :
  packets_sent (l1 ++ l2) = (packets_sent l1 + packets_sent l2)%nat.
Proof. unfold packets_sent. rewrite filter_app, length_app. reflexivity. Qed.

(** C3, as the code has it.  One period is the refreshes made since the
    previous expiry followed by the expiry; it starts with the flag clear,
    as allocation and every expiry leave it.  The expiry re-arms the 15 s
    timer before anything else and leaves the flag clear.  After at least
    one refresh it does nothing more.  After none it makes one keepalive
    attempt, which hands at most one packet to the socket: one datagram for
    "zero" (buffer allocated), one STUN indication for "stun", one RTP packet
    with an unused payload type for "dyna" (buffer allocated, a type
    free), and nothing for "rtcp". *)
Theorem keepalive_period :
  forall (K : core_h) (e : env) (m : sdp_media) (rk : rtpkeep)
         (refreshes : list Z),
    flag rk = false ->
    flag (fst (period K e m refreshes rk)) = false
    /\ (exists rest,
           snd (period K e m refreshes rk)
           = ev_tmr_start tmr_rtpkeep 15000 :: rest
           /\ forall t d, ~ In (ev_tmr_start t d) rest)
    /\ (refreshes <> [] ->
        snd (period K e m refreshes rk) = [ev_tmr_start tmr_rtpkeep 15000])
    /\ (refreshes = [] ->
        snd (period K e m refreshes rk)
        = ev_tmr_start tmr_rtpkeep 15000
            :: snd (send_keepalive K e m rk)
            ++ (if fst (send_keepalive K e m rk) =? 0 then []
                else [ev_debug_warning "keepalive"
                        (fst (send_keepalive K e m rk))])
        /\ (packets_sent (snd (period K e m refreshes rk)) <= 1)%nat
        /\ (str_casecmp (method rk) "zero" = 0 -> mbuf_alloc_ok e = true ->
            snd (send_keepalive K e m rk) = [ev_udp_send 0])
        /\ (str_casecmp (method rk) "stun" = 0 ->
            snd (send_keepalive K e m rk) = [ev_stun_indication])
        /\ (str_casecmp (method rk) "dyna" = 0 -> mbuf_alloc_ok e = true ->
            find_unused_pt K m <> -1 ->
            snd (send_keepalive K e m rk)
            = [ev_rtp_send false (find_unused_pt K m) (ts rk) 0])
        /\ (str_casecmp (method rk) "rtcp" = 0 ->
            packets_sent (snd (period K e m refreshes rk)) = 0%nat)).
Proof.
  intros K e m rk refreshes Hflag.
  assert (Hidle : period K e m [] rk
                  = (rk, ev_tmr_start tmr_rtpkeep 15000
                         :: snd (send_keepalive K e m rk)
                         ++ (if fst (send_keepalive K e m rk) =? 0 then []
                             else [ev_debug_warning "keepalive"
                                     (fst (send_keepalive K e m rk))]))).
  { unfold period, timeout. simpl fold_left. rewrite Hflag.
    destruct (send_keepalive K e m rk) as [err evs]. reflexivity. }
  assert (Hbusy : refreshes <> [] ->
                  period K e m refreshes rk
                  = ({| method := method (fold_left refresh1 refreshes rk);
                        ts := ts (fold_left refresh1 refreshes rk);
                        flag := false |},
                     [ev_tmr_start tmr_rtpkeep 15000])).
  { intros Hne. unfold period, timeout.
    rewrite (refreshed_period_flag refreshes rk Hne). reflexivity. }
  destruct (send_keepalive_at_most_one K e m rk) as [Hone Hnotmr].
  split; [|split; [|split]].
  - destruct refreshes as [|t l].
    + rewrite Hidle. exact Hflag.
    + rewrite Hbusy by discriminate. reflexivity.
  - destruct refreshes as [|t l].
    + rewrite Hidle. eexists. split; [reflexivity|].
      intros t d H. apply in_app_or in H. destruct H as [H|H].
      * exact (Hnotmr t d H).
      * in_events H.
    + rewrite Hbusy by discriminate. exists []. split; [reflexivity|].
      intros t0 d [].
  - intros Hne. rewrite (Hbusy Hne). reflexivity.
  - intros Hnil. subst refreshes. rewrite Hidle. simpl snd.
    split; [reflexivity|].
    assert (Hwarn : forall evs : list event,
               packets_sent
                 (ev_tmr_start tmr_rtpkeep 15000
                    :: evs
                    ++ (if fst (send_keepalive K e m rk) =? 0 then []
                        else [ev_debug_warning "keepalive"
                                (fst (send_keepalive K e m rk))]))
               = packets_sent evs).
    { intros evs.
      change (ev_tmr_start tmr_rtpkeep 15000 :: ?l)
        with ([ev_tmr_start tmr_rtpkeep 15000] ++ l).
      rewrite !packets_sent_app.
      destruct (fst (send_keepalive K e m rk) =? 0);
        unfold packets_sent; simpl; lia. }
    rewrite Hwarn.
    split; [exact Hone|].
    unfold send_keepalive.
    split; [|split; [|split]].
    + intros Hz Ha. rewrite Hz, Ha. reflexivity.
    + intros Hs. other_method Hs. rewrite Hs. reflexivity.
    + intros Hd Ha Hp. other_method Hd. other_method Hd.
      rewrite Hd, Ha. apply Z.eqb_neq in Hp. rewrite Hp. reflexivity.
    + intros Hr. other_method Hr. other_method Hr. other_method Hr.
      rewrite Hr.
      destruct (config_avt_rtcp_mux e && rattr_rtcp_mux m); reflexivity.
Qed.

Lemma keepalive_period_witness :
  snd (period core_h_std (keepalive_env true) sample_sdp [160; 320]
              (keepalive_of "zero"))
  = [ev_tmr_start tmr_rtpkeep 15000]
  /\ snd (period core_h_std (keepalive_env true) sample_sdp []
                 (keepalive_of "zero"))
     = [ev_tmr_start tmr_rtpkeep 15000; ev_udp_send 0].
Proof.
  split.
  - apply (keepalive_period core_h_std (keepalive_env true) sample_sdp
             (keepalive_of "zero") [160; 320]);
      [reflexivity | discriminate].
  - destruct (keepalive_period core_h_std (keepalive_env true) sample_sdp
                (keepalive_of "zero") [])
      as [_ [_ [_ H]]]; [reflexivity|].
    destruct (H eq_refl) as [H1 _]. exact H1.
Defined.

(** C3 as stated fails for the "rtcp" method: a period without any refresh
    ends in an expiry that sends no packet at all, not exactly one. *)
Lemma keepalive_one_packet_counterexample :
  flag (keepalive_of "rtcp") = false
  /\ packets_sent
       (snd (period core_h_std (keepalive_env true) sample_sdp []
                    (keepalive_of "rtcp"))) <> 1%nat.
Proof. split; [reflexivity|]. vm_compute. discriminate. Qed.

End Keepalive.

(** ** The audio pipeline (audio.c) *)

Section AudioPipeline.
Import Re Sdp Audio.

Lemma kept_refl (a : audio) : kept a a.
Proof. repeat split. Qed.

Lemma kept_trans (a b c : audio) : kept a b -> kept b c -> kept a c.
Proof. unfold kept. intuition congruence. Qed.

Lemma quiet_app (l1 l2 : list event) :
  quiet (l1 ++ l2) = quiet l1 && quiet l2.
Proof. apply forallb_app. Qed.

Ltac split_ifs :=
  repeat match goal with
         | |- context [if ?c then _ else _] => destruct c
         | |- context [match ?m with AUDIO_MODE_POLL => _ | _ => _ end] =>
             destruct m
         end.

Lemma aufilt_setup_frame (e : env) (a : audio) :
  kept a (fst (fst (fst (fst (aufilt_setup e a)))))
  /\ quiet (snd (aufilt_setup e a)) = true.
Proof.
  unfold aufilt_setup. simpl.
  destruct (aufilt_chain_alloc_err e =? 0); repeat split.
Qed.

Lemma start_player_frame (e : env) (a : audio) (sr : Z) :
  kept a (fst (fst (start_player e a sr)))
  /\ quiet (snd (start_player e a sr)) = true.
Proof.
  unfold start_player, kept.
  destruct (dec a) eqn:E; split_ifs; simpl; repeat split; congruence.
Qed.

Lemma start_source_frame (e : env) (a : audio) (sr : Z) :
  kept a (fst (fst (start_source e a sr)))
  /\ quiet (snd (start_source e a sr)) = true.
Proof.
  unfold start_source, kept.
  destruct (enc a) eqn:E; split_ifs; simpl; repeat split; congruence.
Qed.

Lemma audio_start_frame (e : env) (a : audio) :
  kept a (fst (fst (audio_start e a)))
  /\ quiet (snd (audio_start e a)) = true.
Proof.
  unfold audio_start.
  assert (Hsetup :
            kept a (fst (fst (fst (fst
                      (if negb (fc a) && negb (aufilt_list_isempty e)
                       then aufilt_setup e a else (a, 0, 0, 0, []))))))
            /\ quiet (snd (if negb (fc a) && negb (aufilt_list_isempty e)
                           then aufilt_setup e a else (a, 0, 0, 0, [])))
               = true).
  { destruct (negb (fc a) && negb (aufilt_list_isempty e)).
    - apply aufilt_setup_frame.
    - split; [apply kept_refl | reflexivity]. }
  destruct (if negb (fc a) && negb (aufilt_list_isempty e)
            then aufilt_setup e a else (a, 0, 0, 0, []))
    as [[[[a1 err] se] sd] evs1].
  simpl in Hsetup. destruct Hsetup as [K1 Q1].
  destruct (negb (err =? 0)).
  - simpl. split; [exact K1 | exact Q1].
  - destruct (src_first (config e)).
    + pose proof (start_source_frame e a1 se) as [K2 Q2].
      destruct (start_source e a1 se) as [[a2 e1] evs2]. simpl in K2, Q2.
      pose proof (start_player_frame e a2 sd) as [K3 Q3].
      destruct (start_player e a2 sd) as [[a3 e2] evs3]. simpl in K3, Q3.
      simpl. split.
      * exact (kept_trans _ _ _ K1 (kept_trans _ _ _ K2 K3)).
      * rewrite !quiet_app, Q1, Q2, Q3. reflexivity.
    + pose proof (start_player_frame e a1 sd) as [K2 Q2].
      destruct (start_player e a1 sd) as [[a2 e1] evs2]. simpl in K2, Q2.
      pose proof (start_source_frame e a2 se) as [K3 Q3].
      destruct (start_source e a2 se) as [[a3 e2] evs3]. simpl in K3, Q3.
      simpl. split.
      * exact (kept_trans _ _ _ K1 (kept_trans _ _ _ K2 K3)).
      * rewrite !quiet_app, Q1, Q2, Q3. reflexivity.
Qed.

(** *** Transmit side: marker bit and timestamp *)

Lemma sent_markers_app (l1 l2 : list event) :
  sent_markers (l1 ++ l2) = sent_markers l1 ++ sent_markers l2.
Proof. apply flat_map_app. Qed.

Lemma quiet_sent_markers (evs : list event) :
  quiet evs = true -> sent_markers evs = [].
Proof.
  induction evs as [|ev evs IH]; [reflexivity|].
  simpl. intros H. apply andb_prop in H. destruct H as [H1 H2].
  destruct ev; simpl in *; try discriminate; auto.
Qed.

Lemma tl_all_clear (l : list bool) :
  Forall (fun m => m = false) l -> Forall (fun m => m = false) (tl l).
Proof. intros H. destruct H; [constructor | assumption]. Qed.

(** [stream_send] on the pipeline's stream touches nothing but the stream,
    and sends at most one packet, with the marker it was given. *)
Lemma stream_send_in_frame (e : env) (a : audio) (m : bool) (p t : Z)
      (mb : mbuf) :
  exists s' err evs,
    stream_send_in e a m p t mb = (set_strm a s', err, evs)
    /\ (evs = []
        \/ evs = [ev_rtp_send m
                     (if p <? 0 then Stream.pt_enc (strm a) else p)
                     t (mbuf_get_left (Some mb))])
    /\ (Stream.rtp_send_err (strm_env e) = 0 -> err = 0).
Proof.
  unfold stream_send_in, Stream.stream_send.
  destruct (negb (sa_isset_all _)).
  { exists (strm a), 0, []. repeat split; auto. }
  destruct (negb (_ =? _)).
  { exists (strm a), 0, []. repeat split; auto. }
  cbv zeta. simpl Stream.pt_enc.
  destruct (0 <=? (if p <? 0 then Stream.pt_enc (strm a) else p)).
  - eexists. eexists. eexists. split; [reflexivity|]. split; auto.
  - eexists. eexists. eexists. split; [reflexivity|]. split; auto.
Qed.

(** One call of [encode_rtp_send]: either there is no encoder and nothing
    happens, or the marker flag ends up clear and at most one packet went
    out, carrying the flag as it was. *)
Lemma encode_rtp_send_marker (K : core_h) (e : env) (a : audio) (mb : mbuf)
      (nsamp : Z) :
  (enc a = None /\ encode_rtp_send K e a mb nsamp = (a, []))
  \/ (enc a <> None
      /\ marker (fst (encode_rtp_send K e a mb nsamp)) = false
      /\ (sent_markers (snd (encode_rtp_send K e a mb nsamp)) = []
          \/ sent_markers (snd (encode_rtp_send K e a mb nsamp))
             = [marker a])).
Proof.
  unfold encode_rtp_send.
  destruct (enc a) as [st|] eqn:Eenc; [right|left; split; reflexivity].
  split; [discriminate|].
  cbv zeta.
  destruct (negb (ench_err e =? 0)); [simpl; auto|].
  match goal with
  | |- context [if negb (mbuf_get_left ?b =? 0) then _ else _] =>
      destruct (negb (mbuf_get_left b =? 0))
  end; [|simpl; auto].
  match goal with
  | |- context [stream_send_in e ?a' ?m ?p ?t ?b] =>
      destruct (stream_send_in_frame e a' m p t b)
        as [s' [err [evs [Hs [Hevs _]]]]]; rewrite Hs
  end.
  simpl marker in Hevs.
  destruct (negb (err =? 0)); simpl;
    (split; [reflexivity|]);
    destruct Hevs as [Hevs|Hevs]; rewrite Hevs; simpl; auto.
Qed.

Lemma poll_aubuf_tx_marker (K : core_h) (e : env) (a : audio) :
  (marker (fst (poll_aubuf_tx K e a)) = marker a
   /\ sent_markers (snd (poll_aubuf_tx K e a)) = [])
  \/ (marker (fst (poll_aubuf_tx K e a)) = false
      /\ (sent_markers (snd (poll_aubuf_tx K e a)) = []
          \/ sent_markers (snd (poll_aubuf_tx K e a)) = [marker a])).
Proof.
  unfold poll_aubuf_tx.
  destruct (negb (mbuf_alloc_ok e)); [left; split; reflexivity|].
  cbv zeta.
  destruct (aubuf_get_err e =? 0); [|left; split; reflexivity].
  unfold process_audio_encode.
  match goal with
  | |- context [if fc a then (?x, ?l1) else (?y, ?l2)] =>
      assert (Hq : quiet (snd (if fc a then (x, l1) else (y, l2))) = true)
        by (destruct (fc a); reflexivity);
      destruct (if fc a then (x, l1) else (y, l2)) as [b evs0]
  end.
  simpl in Hq. apply quiet_sent_markers in Hq.
  match goal with
  | |- context [encode_rtp_send K e a b ?n] =>
      destruct (encode_rtp_send_marker K e a b n) as [[_ H]|[_ [Hm Hs]]];
      destruct (encode_rtp_send K e a b n) as [a' evs'] eqn:Ee
  end.
  - injection H as -> ->. left. cbn [fst snd]. rewrite app_nil_r.
    split; [reflexivity | exact Hq].
  - right. cbn [fst snd] in *.
    change (ev_aubuf_get :: evs0 ++ evs')
      with ([ev_aubuf_get] ++ evs0 ++ evs').
    rewrite !sent_markers_app, Hq. simpl app. auto.
Qed.

(** Setting an encoder neither sends nor touches the marker flag. *)
Lemma audio_encoder_set_frame (e : env) (a : audio) (ac : option aucodec)
      (p : Z) (params : string) :
  marker (fst (fst (audio_encoder_set e a ac p params))) = marker a
  /\ quiet (snd (audio_encoder_set e a ac p params)) = true.
Proof.
  unfold audio_encoder_set.
  destruct ac as [c|]; [|split; reflexivity].
  cbv zeta.
  set (reset := match aucodec_get (enc a) with
                | Some _ => negb (aucodec_equal (aucodec_get (enc a)) (Some c))
                | None => false
                end).
  assert (Hfin : forall (a0 : audio) (evs : list event),
             marker a0 = marker a -> quiet evs = true ->
             marker (fst (fst
               (if reset
                then let '(a1, err, evs') := audio_start e a0 in
                     (a1, Z.lor 0 err,
                      (evs ++ [ev_rtcp_set_srate (get_srate (Some c))
                                                 (get_srate (Some c))])
                      ++ evs')
                else (a0, 0,
                      evs ++ [ev_rtcp_set_srate (get_srate (Some c))
                                                (get_srate (Some c))]))))
             = marker a
             /\ quiet (snd
               (if reset
                then let '(a1, err, evs') := audio_start e a0 in
                     (a1, Z.lor 0 err,
                      (evs ++ [ev_rtcp_set_srate (get_srate (Some c))
                                                 (get_srate (Some c))])
                      ++ evs')
                else (a0, 0,
                      evs ++ [ev_rtcp_set_srate (get_srate (Some c))
                                                (get_srate (Some c))])))
                = true).
  { intros a0 evs Hm Hq. destruct reset.
    - pose proof (audio_start_frame e a0) as [[_ [_ [_ Km]]] Qs].
      destruct (audio_start e a0) as [[a1 err] evs']. simpl in *.
      split; [congruence|].
      rewrite !quiet_app, Hq, Qs. reflexivity.
    - simpl. split; [exact Hm|]. rewrite quiet_app, Hq. reflexivity. }
  destruct (aucodec_cmp _ _).
  - apply Hfin; [destruct reset; reflexivity | reflexivity].
  - destruct (negb (alloch_err e =? 0)).
    + simpl. split; [destruct reset; reflexivity | reflexivity].
    + apply Hfin; [destruct reset; reflexivity | reflexivity].
Qed.

Lemma tx_step_marker (K : core_h) (o : tx_op) (a : audio) :
  (marker (fst (tx_step K o a)) = marker a
   /\ sent_markers (snd (tx_step K o a)) = [])
  \/ (marker (fst (tx_step K o a)) = false
      /\ (sent_markers (snd (tx_step K o a)) = []
          \/ sent_markers (snd (tx_step K o a)) = [marker a])).
Proof.
  destruct o as [e ac p params|e|e]; simpl.
  - left.
    pose proof (audio_encoder_set_frame e a ac p params) as [Hm Hq].
    destruct (audio_encoder_set e a ac p params) as [[a' err] evs].
    simpl in *. split; [exact Hm | apply quiet_sent_markers; exact Hq].
  - left.
    pose proof (audio_start_frame e a) as [[_ [_ [_ Hm]]] Hq].
    destruct (audio_start e a) as [[a' err] evs].
    simpl in *. split; [exact Hm | apply quiet_sent_markers; exact Hq].
  - apply poll_aubuf_tx_marker.
Qed.

Lemma tx_run_marker_clear (K : core_h) (ops : list tx_op) :
  forall a, marker a = false ->
            Forall (fun m => m = false) (sent_markers (snd (tx_run K ops a))).
Proof.
  induction ops as [|o ops IH]; intros a Hm; [constructor|].
  simpl.
  pose proof (tx_step_marker K o a) as Hstep.
  destruct (tx_step K o a) as [a1 evs1]. simpl in Hstep.
  assert (Hm1 : marker a1 = false)
    by (destruct Hstep as [[H _]|[H _]]; congruence).
  specialize (IH a1 Hm1).
  destruct (tx_run K ops a1) as [a2 evs2]. simpl in *.
  rewrite sent_markers_app. apply Forall_app. split; [|exact IH].
  destruct Hstep as [[_ H]|[_ [H|H]]]; rewrite H; repeat constructor.
  exact Hm.
Qed.

Lemma tx_run_marker_tail (K : core_h) (ops : list tx_op) :
  forall a, Forall (fun m => m = false)
                   (tl (sent_markers (snd (tx_run K ops a)))).
Proof.
  induction ops as [|o ops IH]; intros a; [constructor|].
  simpl.
  pose proof (tx_step_marker K o a) as Hstep.
  destruct (tx_step K o a) as [a1 evs1]. simpl in Hstep.
  specialize (IH a1).
  pose proof (tx_run_marker_clear K ops a1) as Hclear.
  destruct (tx_run K ops a1) as [a2 evs2]. simpl in *.
  rewrite sent_markers_app.
  destruct Hstep as [[_ H]|[Hm [H|H]]]; rewrite H; simpl.
  - exact IH.
  - apply tl_all_clear. apply Hclear. exact Hm.
  - apply Hclear. exact Hm.
Qed.

Lemma audio_alloc_marker (K : core_h) (ae : alloc_env) (ptime : Z)
      (md : audio_mode) (evh : bool) (a : audio) :
  audio_alloc K ae ptime md evh = (0, Some a) ->
  marker a = true /\ ts_tx a = 160 /\ enc a = None.
Proof.
  unfold audio_alloc.
  repeat match goal with
         | |- context [if ?c then _ else _] => destruct c
         end; intros H; try discriminate H.
  injection H as <-. repeat split.
Qed.

(** A cycle that gets as far as the encoder leaves the marker flag clear. *)
Lemma poll_aubuf_tx_clears_marker (K : core_h) (e : env) (a : audio) :
  enc a <> None -> mbuf_alloc_ok e = true -> aubuf_get_err e = 0 ->
  marker (fst (poll_aubuf_tx K e a)) = false.
Proof.
  intros Henc Hmb Hget. unfold poll_aubuf_tx. rewrite Hmb, Hget. simpl negb.
  cbv iota zeta. simpl (0 =? 0). cbv iota.
  unfold process_audio_encode.
  match goal with
  | |- context [if fc a then (?x, ?l1) else (?y, ?l2)] =>
      destruct (if fc a then (x, l1) else (y, l2)) as [b evs0]
  end.
  match goal with
  | |- context [encode_rtp_send K e a b ?n] =>
      destruct (encode_rtp_send_marker K e a b n) as [[H _]|[_ [Hm _]]];
      [contradiction|];
      destruct (encode_rtp_send K e a b n) as [a' evs']
  end.
  exact Hm.
Qed.

(** C8.  The marker flag is set by [audio_alloc]; whatever encoders are set
    and frames are pulled afterwards, every audio packet after the first
    one sent carries marker false, and once a cycle has reached the
    encoder all packets sent from then on carry marker false. *)
Theorem marker_only_on_first_packet :
  forall (K : core_h) (ae : alloc_env) (ptime : Z) (md : audio_mode)
         (evh : bool) (a : audio),
    audio_alloc K ae ptime md evh = (0, Some a) ->
    marker a = true
    /\ (forall ops,
          Forall (fun m => m = false)
                 (tl (sent_markers (snd (tx_run K ops a)))))
    /\ (forall ops1 e ops2,
          enc (fst (tx_run K ops1 a)) <> None ->
          mbuf_alloc_ok e = true -> aubuf_get_err e = 0 ->
          Forall (fun m => m = false)
                 (sent_markers
                    (snd (tx_run K ops2
                            (fst (poll_aubuf_tx K e
                                    (fst (tx_run K ops1 a)))))))).
Proof.
  intros K ae ptime md evh a Halloc.
  split; [exact (proj1 (audio_alloc_marker _ _ _ _ _ _ Halloc))|].
  split.
  - intros ops. apply tx_run_marker_tail.
  - intros ops1 e ops2 Henc Hmb Hget.
    apply tx_run_marker_clear.
    apply poll_aubuf_tx_clears_marker; assumption.
Qed.

Lemma marker_only_on_first_packet_witness :
  marker sample_audio = true
  /\ sent_markers (snd (tx_run core_h_std sample_tx_ops sample_audio))
     = [true; false; false]
  /\ Forall (fun m => m = false)
            (tl (sent_markers
                   (snd (tx_run core_h_std sample_tx_ops sample_audio))))
  /\ Forall (fun m => m = false)
            (sent_markers
               (snd (tx_run core_h_std [op_poll (sample_audio_env 160)]
                       (fst (poll_aubuf_tx core_h_std (sample_audio_env 160)
                               sample_audio_started))))).
Proof.
  destruct (marker_only_on_first_packet core_h_std sample_alloc_env 20
              AUDIO_MODE_POLL true sample_audio)
    as [H1 [H2 H3]]; [reflexivity|].
  split; [exact H1|]. split; [reflexivity|]. split; [apply H2|].
  apply (H3 [op_encoder_set (sample_audio_env 160) (Some pcmu) 0 "";
             op_start (sample_audio_env 160)]);
    [vm_compute; discriminate | reflexivity | reflexivity].
Defined.

Lemma encode_rtp_send_ok (K : core_h) (e : env) (a : audio) (mb : mbuf)
      (nsamp : Z) :
  enc a <> None -> ench_err e = 0 ->
  Stream.rtp_send_err (strm_env e) = 0 ->
  ts_tx (fst (encode_rtp_send K e a mb nsamp)) = wrap32 (ts_tx a + nsamp)
  /\ enc (fst (encode_rtp_send K e a mb nsamp)) = enc a
  /\ is_g722 (fst (encode_rtp_send K e a mb nsamp)) = is_g722 a
  /\ psize (fst (encode_rtp_send K e a mb nsamp)) = psize a
  /\ fc (fst (encode_rtp_send K e a mb nsamp)) = fc a.
Proof.
  intros Henc Hench Hsend. unfold encode_rtp_send.
  destruct (enc a) as [st|] eqn:Eenc; [|contradiction].
  rewrite Hench. cbv zeta. simpl (negb (0 =? 0)). cbv iota.
  match goal with
  | |- context [if negb (mbuf_get_left ?b =? 0) then _ else _] =>
      destruct (negb (mbuf_get_left b =? 0))
  end; [|simpl; rewrite Eenc; repeat split].
  match goal with
  | |- context [stream_send_in e ?a' ?m ?p ?t ?b] =>
      destruct (stream_send_in_frame e a' m p t b)
        as [s' [err [evs [Hs [_ Herr]]]]]; rewrite Hs
  end.
  rewrite (Herr Hsend). simpl. rewrite Eenc. repeat split.
Qed.




(** What [start_source] computes for the frame: twice the sample count of
    one ptime at the codec's rate, when the filters ask for no other rate. *)
Lemma start_source_psize (e : env) (a : audio) (st : aucodec_st) :
  enc a = Some st -> ausrc a = false -> ausrc_find e = true ->
  psize (fst (fst (start_source e a 0)))
  = wrapsz (2 * calc_nsamp (get_srate (Some (st_ac st)))
                           (ac_ch (st_ac st)) (ptime_tx a)).
Proof.
  intros Henc Hsrc Hfind. unfold start_source.
  rewrite Henc, Hsrc, Hfind. cbn [negb andb]. cbv zeta.
  simpl (negb (0 =? 0)). cbv iota. split_ifs; reflexivity.
Qed.




(** *** Receive side: payload-type change *)

Lemma decode_all_trace (e : env) (st : aucodec_st) (n : nat) :
  forall mb, exists rest,
    snd (decode_all e st n mb) = ev_dech st :: rest
    /\ forall st', In (ev_dech st') rest -> st' = st.
Proof.
  induction n as [|n IH]; intros mb; simpl.
  - destruct (dech e st mb) as [err mb'].
    exists []. split; [reflexivity | intros st' []].
  - destruct (dech e st mb) as [err mb'].
    destruct (negb (mbuf_get_left mb' =? 0) && (err =? 0)).
    + destruct (IH mb') as [rest [Hr Hall]].
      destruct (decode_all e st n mb') as [err' evs]. simpl in Hr. subst evs.
      exists (ev_dech st :: rest). split; [reflexivity|].
      intros st' [H|H]; [congruence | exact (Hall st' H)].
    + exists []. split; [reflexivity | intros st' []].
Qed.

(** With a decoder set, [audio_stream_decode] starts by calling it, calls
    no other decoder, and leaves the pipeline as it is. *)
Lemma audio_stream_decode_trace (e : env) (a : audio) (mb : option mbuf)
      (st : aucodec_st) :
  dec a = Some st ->
  exists rest,
    fst (fst (audio_stream_decode e a mb)) = a
    /\ snd (audio_stream_decode e a mb) = ev_dech st :: rest
    /\ forall st', In (ev_dech st') rest -> st' = st.
Proof.
  intros Hdec. unfold audio_stream_decode. rewrite Hdec.
  destruct (decode_all_trace e st 64 mb) as [rest [Hr Hall]].
  destruct (decode_all e st 64 mb) as [err evs]. simpl in Hr. subst evs.
  assert (Htail : forall tail st',
             (forall x, In x tail -> loud x = false) ->
             In (ev_dech st') (rest ++ tail) -> st' = st).
  { intros tail st' Ht H. apply in_app_or in H. destruct H as [H|H].
    - exact (Hall st' H).
    - apply Ht in H. discriminate. }
  split_ifs; simpl; eexists; (split; [reflexivity|]);
    (split; [try reflexivity; rewrite ?app_comm_cons, <- ?app_assoc;
             simpl; reflexivity|]);
    intros st' H.
  all: try (eapply Htail; [|exact H]; intros x Hx; simpl in Hx;
            intuition (subst; reflexivity)).
  all: try (exact (Hall st' H)).
  all: try (rewrite <- app_assoc in H; eapply Htail; [|exact H];
            intros x Hx; simpl in Hx; intuition (subst; reflexivity)).
Qed.

Lemma aucodec_cmp_refl (c : aucodec) : aucodec_cmp (Some c) (Some c) = true.
Proof.
  unfold aucodec_cmp. rewrite String.eqb_refl, !Z.eqb_refl. reflexivity.
Qed.

(** [audio_decoder_set]: no packet is decoded meanwhile, and when it
    returns 0 the decoder is an instance of the requested codec and the
    receive payload type is the requested one. *)
Lemma audio_decoder_set_rebuilds (e : env) (a : audio) (ac : option aucodec)
      (p : Z) (params : string) :
  quiet (snd (audio_decoder_set e a ac p params)) = true
  /\ (snd (fst (audio_decoder_set e a ac p params)) = 0 ->
      exists c st,
        ac = Some c
        /\ dec (fst (fst (audio_decoder_set e a ac p params))) = Some st
        /\ aucodec_cmp (Some c) (Some (st_ac st)) = true
        /\ pt_rx (fst (fst (audio_decoder_set e a ac p params))) = wrap8 p).
Proof.
  unfold audio_decoder_set.
  destruct ac as [c|]; [|split; [reflexivity | discriminate]].
  cbv zeta.
  set (restart := match aucodec_get (dec a) with
                  | Some _ =>
                      negb (aucodec_equal (aucodec_get (dec a)) (Some c))
                  | None => false
                  end).
  set (srate_ev := ev_rtcp_set_srate (get_srate (Some c)) (get_srate (Some c))).
  assert (Hfin : forall (a0 : audio) (evs : list event) (st : aucodec_st),
             dec a0 = Some st -> pt_rx a0 = wrap8 p ->
             aucodec_cmp (Some c) (Some (st_ac st)) = true ->
             quiet evs = true ->
             let r :=
               match aucodec_get (dec a) with
               | Some _ =>
                   if negb (aucodec_equal (aucodec_get (dec a)) (Some c))
                   then
                     let '(a1, err, evs') :=
                       audio_start e (set_fc (set_auplay a0 false) false) in
                     (a1, Z.lor 0 err, (evs ++ [srate_ev]) ++ evs')
                   else (a0, 0, evs ++ [srate_ev])
               | None => (a0, 0, evs ++ [srate_ev])
               end in
             quiet (snd r) = true
             /\ (snd (fst r) = 0 ->
                 exists c' st',
                   Some c = Some c' /\ dec (fst (fst r)) = Some st'
                   /\ aucodec_cmp (Some c') (Some (st_ac st')) = true
                   /\ pt_rx (fst (fst r)) = wrap8 p)).
  { intros a0 evs st Hd Hp Hc Hq. cbv zeta.
    assert (Hstay : quiet (evs ++ [srate_ev]) = true
                    /\ (0 = 0 ->
                        exists c' st',
                          Some c = Some c' /\ dec a0 = Some st'
                          /\ aucodec_cmp (Some c') (Some (st_ac st')) = true
                          /\ pt_rx a0 = wrap8 p)).
    { split; [rewrite quiet_app, Hq; reflexivity|].
      intros _. exists c, st. repeat split; assumption. }
    destruct (aucodec_get (dec a)); [|exact Hstay].
    destruct (negb (aucodec_equal _ _)); [|exact Hstay].
    pose proof (audio_start_frame e (set_fc (set_auplay a0 false) false))
      as [[_ [Kd [Kp _]]] Qs].
    destruct (audio_start e (set_fc (set_auplay a0 false) false))
      as [[a_started err] evs'].
    simpl in *. split.
    - rewrite !quiet_app, Hq, Qs. reflexivity.
    - intros _. exists c, st. repeat split; congruence. }
  destruct (aucodec_cmp (Some c) (aucodec_get (enc _))) eqn:Ecmp.
  - simpl enc in Ecmp.
    destruct (enc a) as [st|] eqn:Eenc; [|discriminate Ecmp].
    apply (Hfin _ _ st); simpl; try reflexivity; try assumption.
  - destruct (negb (alloch_err e =? 0)) eqn:Eerr.
    + simpl. split; [reflexivity|].
      intros H. rewrite H in Eerr. discriminate.
    + apply (Hfin _ _ {| st_ac := c; st_id := alloch_id e |});
        simpl; try reflexivity.
      apply aucodec_cmp_refl.
Qed.

(** C6, as the code has it.  A packet whose payload type is neither the
    telephone-event type nor comfort noise and differs from the decoder's:
    without a local format of that type it is dropped, nothing is decoded
    and the pipeline is unchanged; with one, [audio_decoder_set] runs for
    that format before anything is decoded, and the packet is decoded, by
    the rebuilt decoder only, exactly when that call returns 0; otherwise
    it is dropped. *)
Theorem payload_type_change :
  forall (K : core_h) (e : env) (hdr : rtp_header) (b : mbuf) (a : audio),
    hdr_pt hdr <> pt_tel_rx a -> hdr_pt hdr <> PT_CN K ->
    hdr_pt hdr <> pt_rx a ->
    match sdp_media_lformat (Stream.sdp (strm a)) (hdr_pt hdr) with
    | None => stream_recv_handler K e hdr (Some b) a = (a, [])
    | Some lc =>
        let r := audio_decoder_set e a (data lc) (pt lc) (params lc) in
        let h := stream_recv_handler K e hdr (Some b) a in
        pt lc = hdr_pt hdr
        /\ quiet (snd r) = true
        /\ (snd (fst r) <> 0 ->
            h = (fst (fst r),
                 ev_re_printf "Audio decoder changed payload" :: snd r))
        /\ (snd (fst r) = 0 ->
            exists c st rest,
              data lc = Some c
              /\ dec (fst (fst r)) = Some st
              /\ aucodec_cmp (Some c) (Some (st_ac st)) = true
              /\ pt_rx (fst (fst r)) = wrap8 (hdr_pt hdr)
              /\ h = (fst (fst r),
                      ev_re_printf "Audio decoder changed payload"
                        :: snd r ++ ev_dech st :: rest)
              /\ forall st', In (ev_dech st') rest -> st' = st)
    end.
Proof.
  intros K e hdr b a Htel Hcn Hrx.
  unfold stream_recv_handler, pt_handler.
  apply Z.eqb_neq in Htel, Hrx.
  assert (Hcn' : (PT_CN K =? hdr_pt hdr) = false)
    by (apply Z.eqb_neq; congruence).
  rewrite Htel, Hcn', Hrx. simpl negb. cbv iota.
  destruct (sdp_media_lformat (Stream.sdp (strm a)) (hdr_pt hdr))
    as [lc|] eqn:Efmt; [|reflexivity].
  cbv zeta.
  assert (Hpt : pt lc = hdr_pt hdr).
  { unfold sdp_media_lformat in Efmt. apply find_some in Efmt.
    destruct Efmt as [_ H]. apply Z.eqb_eq in H. exact H. }
  pose proof (audio_decoder_set_rebuilds e a (data lc) (pt lc) (params lc))
    as [Hq Hok].
  destruct (audio_decoder_set e a (data lc) (pt lc) (params lc))
    as [[a1 err] evs].
  cbn [fst snd] in *.
  split; [exact Hpt|]. split; [exact Hq|]. split.
  - intros Herr. apply Z.eqb_neq in Herr. rewrite Herr. reflexivity.
  - intros Herr. subst err. simpl (negb (0 =? 0)). cbv iota.
    destruct (Hok eq_refl) as [c [st [Hc [Hd [Hcmp Hp]]]]].
    destruct (audio_stream_decode_trace e a1 (Some b) st Hd)
      as [rest [Ha [Ht Hall]]].
    destruct (audio_stream_decode e a1 (Some b)) as [[a2 err2] evs2].
    cbn [fst snd] in *. subst a2 evs2.
    exists c, st, rest. rewrite <- Hpt.
    repeat split; try assumption.
Qed.

Lemma payload_type_change_witness :
  exists rest,
    stream_recv_handler core_h_std (sample_audio_env 160) (sample_hdr_pt 8)
                        (Some sample_mbuf) sample_audio_rx
    = (fst (fst (audio_decoder_set (sample_audio_env 160) sample_audio_rx
                                   (Some pcma) 8 "")),
       ev_re_printf "Audio decoder changed payload"
         :: snd (audio_decoder_set (sample_audio_env 160) sample_audio_rx
                                   (Some pcma) 8 "")
         ++ ev_dech {| st_ac := pcma; st_id := 1 |} :: rest).
Proof.
  pose proof (payload_type_change core_h_std (sample_audio_env 160)
                (sample_hdr_pt 8) sample_mbuf sample_audio_rx) as H.
  simpl sdp_media_lformat in H. cbv zeta in H.
  destruct H as [_ [_ [_ H]]]; try (vm_compute; discriminate).
  destruct (H eq_refl) as [c [st [rest [Hc [Hd [_ [_ [Hh _]]]]]]]].
  injection Hd as <-. exists rest. exact Hh.
Defined.

(** C6 as stated fails for a telephone-event packet: its payload type
    differs from the decoder's and has a local format, yet the packet goes
    to the DTMF decoder; the audio decoder is not rebuilt and the packet is
    not decoded. *)
Lemma payload_type_change_counterexample :
  hdr_pt (sample_hdr_pt 101) <> pt_rx sample_audio_rx
  /\ sdp_media_lformat (Stream.sdp (strm sample_audio_rx))
                       (hdr_pt (sample_hdr_pt 101))
     = Some {| pt := 101; data := None; params := "0-15" |}
  /\ stream_recv_handler core_h_std (sample_audio_env 160)
                         (sample_hdr_pt 101) (Some sample_mbuf)
                         sample_audio_rx
     = (sample_audio_rx, [ev_telev_recv; ev_eventh 49 false]).
Proof.
  split; [vm_compute; discriminate|]. split; reflexivity.
Qed.

End AudioPipeline.

(** * Further properties *)

Ltac case_ifs :=
  repeat match goal with
         | |- context [if ?c then _ else _] => destruct c
         end.

(** ** The receive path as a whole (stream.c) *)

Section StreamMore.
Import Re Sdp Stream StreamCtl.

Lemma rtp_recv_admitted_no_jbuf (e : env) (hdr : rtp_header) (mb : mbuf)
      (s : stream) :
  admitted mb s -> jbuf s = false ->
  rtp_recv e hdr mb s = deliver hdr hdr (Some mb) (adopted hdr (counted mb s)).
Proof.
  intros [Hl Hd] Hj. unfold rtp_recv.
  apply Z.eqb_neq in Hl, Hd. rewrite Hl, Hd. cbv zeta.
  fold (counted mb s).
  change (ssrc_rx (counted mb s)) with (ssrc_rx s).
  assert (Hj' : jbuf (if negb (hdr_ssrc hdr =? ssrc_rx s)
                      then set_ssrc_rx (counted mb s) (hdr_ssrc hdr)
                      else counted mb s) = false)
    by (destruct (negb _); exact Hj).
  rewrite Hj'. reflexivity.
Qed.

Lemma lostcalc_cases (s : stream) (seq : Z) :
  (lostcalc s seq = (s, -1) \/ lostcalc s seq = (s, -2))
  \/ exists r, lostcalc s seq = (set_pseq s seq, r) /\ 0 <= r.
Proof.
  unfold lostcalc.
  destruct (pseq s =? UINT32_MAX); [right; exists 0; split; [reflexivity|lia]|].
  destruct (_ =? 0) eqn:E0; [left; left; reflexivity|].
  destruct (_ <? 3000) eqn:E1.
  - right. eexists. split; [reflexivity|].
    apply Z.eqb_neq in E0.
    pose proof (Z.mod_pos_bound (wrap32 (seq - pseq s)) (2 ^ 16) eq_refl).
    unfold wrap16 in *. lia.
  - destruct (_ <? 0xff9c); [right; exists 0; split; [reflexivity|lia]|].
    left; right; reflexivity.
Qed.

Lemma rtp_recv_admitted_jbuf (e : env) (hdr : rtp_header) (mb : mbuf)
      (s : stream) :
  admitted mb s -> jbuf s = true ->
  rtp_recv e hdr mb s =
  match jbuf_get_res e with
  | None =>
      if negb (jbuf_started s)
      then (adopted hdr (counted mb s), put_trace e hdr s)
      else
        let '(s', evs) :=
          deliver hdr rtp_header_zero None
                  (set_jbuf_started (adopted hdr (counted mb s)) true) in
        (s', put_trace e hdr s ++ evs)
  | Some (hdr2, mb2) =>
      let '(s', evs) :=
        deliver hdr hdr2 (Some mb2)
                (set_jbuf_started (adopted hdr (counted mb s)) true) in
      (s', put_trace e hdr s ++ evs)
  end.
Proof.
  intros [Hl Hd] Hj. unfold rtp_recv.
  apply Z.eqb_neq in Hl, Hd. rewrite Hl, Hd. cbv zeta.
  fold (counted mb s).
  change (ssrc_rx (counted mb s)) with (ssrc_rx s).
  fold (put_trace e hdr s).
  assert (Hj' : jbuf (if negb (hdr_ssrc hdr =? ssrc_rx s)
                      then set_ssrc_rx (counted mb s) (hdr_ssrc hdr)
                      else counted mb s) = true)
    by (destruct (negb _); exact Hj).
  assert (Hst : jbuf_started (if negb (hdr_ssrc hdr =? ssrc_rx s)
                              then set_ssrc_rx (counted mb s) (hdr_ssrc hdr)
                              else counted mb s) = jbuf_started s)
    by (destruct (negb _); reflexivity).
  rewrite Hj', Hst. unfold adopted.
  change (ssrc_rx (counted mb s)) with (ssrc_rx s).
  reflexivity.
Qed.

Lemma rtp_recv_rejected (e : env) (hdr : rtp_header) (mb : mbuf)
      (s : stream) :
  ~ admitted mb s -> rtp_recv e hdr mb s = (s, []).
Proof.
  intros H. unfold rtp_recv, admitted in *.
  destruct (mbuf_get_left (Some mb) =? 0) eqn:El; [reflexivity|].
  destruct (Z.land _ _ =? 0) eqn:Ed; [reflexivity|].
  apply Z.eqb_neq in El, Ed. tauto.
Qed.

Lemma admitted_dec (mb : mbuf) (s : stream) : admitted mb s \/ ~ admitted mb s.
Proof. unfold admitted. lia. Qed.

(** [deliver] either leaves the stream or adopts the classified sequence
    number; it ends with the handler call for the packet itself, preceded
    by at most the loss signal. *)
Lemma deliver_cases (hdr hdr2 : rtp_header) (mb2 : option mbuf) (s : stream) :
  (fst (deliver hdr hdr2 mb2 s) = s
   \/ fst (deliver hdr hdr2 mb2 s) = set_pseq s (hdr_seq hdr2))
  /\ (snd (deliver hdr hdr2 mb2 s) = [ev_rtph hdr2 mb2]
      \/ snd (deliver hdr hdr2 mb2 s) = [ev_rtph hdr None; ev_rtph hdr2 mb2]).
Proof.
  unfold deliver.
  destruct (lostcalc_cases s (hdr_seq hdr2)) as [[H|H]|[r [H Hr]]];
    rewrite H; simpl; auto.
  destruct (0 <? r); simpl; auto.
Qed.

Lemma put_trace_flush (e : env) (hdr : rtp_header) (s : stream) :
  (hdr_ssrc hdr <> ssrc_rx s /\ ssrc_rx s <> 0
   /\ exists rest, put_trace e hdr s = ev_jbuf_flush :: ev_jbuf_put hdr :: rest
                   /\ ~ In ev_jbuf_flush rest
                   /\ forall h m, ~ In (ev_rtph h m) rest)
  \/ ((hdr_ssrc hdr = ssrc_rx s \/ ssrc_rx s = 0)
      /\ ~ In ev_jbuf_flush (put_trace e hdr s)
      /\ forall h m, ~ In (ev_rtph h m) (put_trace e hdr s)).
Proof.
  unfold put_trace.
  destruct (Z.eqb_spec (hdr_ssrc hdr) (ssrc_rx s)) as [E1|E1];
    destruct (Z.eqb_spec (ssrc_rx s) 0) as [E2|E2]; simpl.
  - right. split; [auto|]. split; [intros H|intros h m H]; in_events H.
  - right. split; [auto|]. split; [intros H|intros h m H]; in_events H.
  - right. split; [auto|]. split; [intros H|intros h m H]; in_events H.
  - left. split; [exact E1|]. split; [exact E2|].
    eexists. split; [reflexivity|].
    split; [intros H|intros h m H]; in_events H.
Qed.

(** X1: a sequence number classified twice in a row is ignored the second
    time. *)
Theorem lostcalc_duplicate :
  forall (s : stream) (seq : Z),
    0 <= seq < 2 ^ 16 ->
    fst (lostcalc (fst (lostcalc s seq)) seq) = fst (lostcalc s seq)
    /\ snd (lostcalc (fst (lostcalc s seq)) seq) < 0.
Proof.
  intros s seq Hseq.
  destruct (lostcalc_cases s seq) as [[H|H]|[r [H Hr]]]; rewrite H;
    cbn [fst snd].
  - rewrite H. cbn [fst snd]. split; [reflexivity|lia].
  - rewrite H. cbn [fst snd]. split; [reflexivity|lia].
  - assert (Hd : lostcalc (set_pseq s seq) seq = (set_pseq s seq, -1)).
    { unfold lostcalc. cbn [pseq set_pseq].
      rewrite (stored_seq_is_set _ Hseq), Z.sub_diag. reflexivity. }
    rewrite Hd. cbn [fst snd]. split; [reflexivity|lia].
Qed.

Lemma lostcalc_duplicate_witness :
  fst (lostcalc (fst (lostcalc sample_stream 105)) 105)
  = fst (lostcalc sample_stream 105)
  /\ snd (lostcalc (fst (lostcalc sample_stream 105)) 105) < 0.
Proof. apply (lostcalc_duplicate sample_stream 105). lia. Defined.

Lemma wrap16_step (last d : Z) :
  0 <= d < 2 ^ 16 -> wrap16 (wrap32 (wrap16 (last + d) - last)) = d.
Proof.
  intros Hd. rewrite wrap16_wrap32. unfold wrap16.
  rewrite Zminus_mod_idemp_l.
  replace (last + d - last) with d by lia.
  apply Z.mod_small. exact Hd.
Qed.

Lemma sum_Z_losses (deltas : list Z) :
  sum_Z (map (fun d => d - 1) deltas)
  = sum_Z deltas - Z.of_nat (List.length deltas).
Proof.
  induction deltas as [|d l IH]; [reflexivity|].
  cbn [map sum_Z fold_right List.length]. fold (sum_Z (map (fun d => d - 1) l)).
  fold (sum_Z l). rewrite IH, Nat2Z.inj_succ. lia.
Qed.

(** X2: along packets that each step forward by less than 3000, the losses
    reported are the sequence numbers skipped: [d - 1] per step, in total
    the distance covered minus the number of packets, across the wrap at
    65536. *)
Theorem forward_run_loss :
  forall (deltas : list Z) (s : stream),
    0 <= pseq s < 2 ^ 16 ->
    Forall (fun d => 1 <= d <= 2999) deltas ->
    snd (classify_all s (seqs_from (pseq s) deltas))
    = map (fun d => d - 1) deltas
    /\ pseq (fst (classify_all s (seqs_from (pseq s) deltas)))
       = wrap16 (pseq s + sum_Z deltas)
    /\ sum_Z (snd (classify_all s (seqs_from (pseq s) deltas)))
       = sum_Z deltas - Z.of_nat (List.length deltas).
Proof.
  intros deltas s Hp Hall.
  assert (H : snd (classify_all s (seqs_from (pseq s) deltas))
              = map (fun d => d - 1) deltas
              /\ pseq (fst (classify_all s (seqs_from (pseq s) deltas)))
                 = wrap16 (pseq s + sum_Z deltas)).
  { revert s Hp. induction Hall as [|d l Hd Hl IH]; intros s Hp.
    - simpl. split; [reflexivity|].
      rewrite Z.add_0_r. unfold wrap16. symmetry. apply Z.mod_small. exact Hp.
    - cbn [seqs_from classify_all].
      assert (Hstep : lostcalc s (wrap16 (pseq s + d))
                      = (set_pseq s (wrap16 (pseq s + d)), d - 1)).
      { unfold lostcalc. rewrite (stored_seq_is_set _ Hp).
        rewrite wrap16_step by lia.
        destruct (Z.eqb_spec d 0); [lia|].
        destruct (Z.ltb_spec d 3000); [reflexivity|lia]. }
      rewrite Hstep.
      assert (Hp1 : 0 <= pseq (set_pseq s (wrap16 (pseq s + d))) < 2 ^ 16)
        by (apply Z.mod_pos_bound; reflexivity).
      specialize (IH (set_pseq s (wrap16 (pseq s + d))) Hp1).
      cbn [pseq set_pseq] in IH.
      destruct (classify_all (set_pseq s (wrap16 (pseq s + d)))
                             (seqs_from (wrap16 (pseq s + d)) l))
        as [s2 rs].
      cbn [fst snd] in *. destruct IH as [IH1 IH2].
      split; [rewrite IH1; reflexivity|].
      rewrite IH2. cbn [sum_Z fold_right]. fold (sum_Z l).
      unfold wrap16. rewrite Zplus_mod_idemp_l. f_equal. lia. }
  destruct H as [H1 H2]. split; [exact H1|]. split; [exact H2|].
  rewrite H1. apply sum_Z_losses.
Qed.

Lemma forward_run_loss_witness :
  snd (classify_all (set_pseq sample_stream 65530)
                    (seqs_from 65530 [1; 3; 10; 1]))
  = [0; 2; 9; 0]
  /\ pseq (fst (classify_all (set_pseq sample_stream 65530)
                             (seqs_from 65530 [1; 3; 10; 1]))) = 9.
Proof.
  destruct (forward_run_loss [1; 3; 10; 1] (set_pseq sample_stream 65530))
    as [H1 [H2 _]].
  - simpl. lia.
  - repeat constructor; lia.
  - split; [exact H1 | exact H2].
Defined.

Lemma deliver_stats (hdr hdr2 : rtp_header) (mb2 : option mbuf) (s : stream) :
  stats (fst (deliver hdr hdr2 mb2 s)) = stats s
  /\ ssrc_rx (fst (deliver hdr hdr2 mb2 s)) = ssrc_rx s
  /\ jbuf_started (fst (deliver hdr hdr2 mb2 s)) = jbuf_started s
  /\ jbuf (fst (deliver hdr hdr2 mb2 s)) = jbuf s.
Proof.
  destruct (deliver_cases hdr hdr2 mb2 s) as [[H|H] _]; rewrite H;
    repeat split.
Qed.

(** X3: without a jitter buffer every packet that passes the entry checks
    is handed to the handler exactly once, as the last call, duplicate and
    late packets included; the only call that may precede it is one loss
    signal carrying the same header.  The receive counters take the packet
    in. *)
Theorem no_jbuf_delivers_once :
  forall (e : env) (hdr : rtp_header) (mb : mbuf) (s : stream),
    admitted mb s -> jbuf s = false ->
    (snd (rtp_recv e hdr mb s) = [ev_rtph hdr (Some mb)]
     \/ snd (rtp_recv e hdr mb s)
        = [ev_rtph hdr None; ev_rtph hdr (Some mb)])
    /\ n_rx (stats (fst (rtp_recv e hdr mb s))) = wrap32 (n_rx (stats s) + 1)
    /\ b_rx (stats (fst (rtp_recv e hdr mb s)))
       = wrapsz (b_rx (stats s) + mbuf_get_left (Some mb)).
Proof.
  intros e hdr mb s Ha Hj.
  rewrite (rtp_recv_admitted_no_jbuf e hdr mb s Ha Hj).
  destruct (deliver_cases hdr hdr (Some mb) (adopted hdr (counted mb s)))
    as [_ Hevs].
  destruct (deliver_stats hdr hdr (Some mb) (adopted hdr (counted mb s)))
    as [Hst _].
  split; [exact Hevs|]. rewrite Hst.
  unfold adopted. destruct (negb _); split; reflexivity.
Qed.

Lemma no_jbuf_delivers_once_witness :
  snd (rtp_recv sample_env (sample_hdr 100 7) sample_mbuf sample_stream)
  = [ev_rtph (sample_hdr 100 7) (Some sample_mbuf)]
  /\ n_rx (stats (fst (rtp_recv sample_env (sample_hdr 100 7) sample_mbuf
                                sample_stream))) = 1.
Proof.
  destruct (no_jbuf_delivers_once sample_env (sample_hdr 100 7) sample_mbuf
              sample_stream) as [_ [H _]].
  - split; vm_compute; discriminate.
  - reflexivity.
  - split; [reflexivity | exact H].
Defined.

Lemma adopted_counted_frame (hdr : rtp_header) (mb : mbuf) (s : stream) :
  pseq (adopted hdr (counted mb s)) = pseq s
  /\ jbuf (adopted hdr (counted mb s)) = jbuf s
  /\ jbuf_started (adopted hdr (counted mb s)) = jbuf_started s
  /\ sdp (adopted hdr (counted mb s)) = sdp s
  /\ ssrc_rx (adopted hdr (counted mb s)) = hdr_ssrc hdr.
Proof.
  unfold adopted. change (ssrc_rx (counted mb s)) with (ssrc_rx s).
  destruct (Z.eqb_spec (hdr_ssrc hdr) (ssrc_rx s)) as [E|E]; simpl;
    repeat split; congruence.
Qed.

(** The stored sequence number after [rtp_recv]: the old one, or the one
    of the packet delivered, or 0 after an underrun. *)
Lemma rtp_recv_pseq (e : env) (hdr : rtp_header) (mb : mbuf) (s : stream) :
  pseq (fst (rtp_recv e hdr mb s)) = pseq s
  \/ pseq (fst (rtp_recv e hdr mb s)) = hdr_seq hdr
  \/ pseq (fst (rtp_recv e hdr mb s)) = 0
  \/ exists hdr2 mb2, jbuf_get_res e = Some (hdr2, mb2)
                      /\ pseq (fst (rtp_recv e hdr mb s)) = hdr_seq hdr2.
Proof.
  destruct (admitted_dec mb s) as [Ha|Ha];
    [|rewrite (rtp_recv_rejected e hdr mb s Ha); left; reflexivity].
  destruct (adopted_counted_frame hdr mb s) as [Hp _].
  destruct (jbuf s) eqn:Hj.
  - rewrite (rtp_recv_admitted_jbuf e hdr mb s Ha Hj).
    destruct (jbuf_get_res e) as [[hdr2 mb2]|].
    + destruct (deliver_cases hdr hdr2 (Some mb2)
                  (set_jbuf_started (adopted hdr (counted mb s)) true))
        as [[H|H] _];
        destruct (deliver hdr hdr2 (Some mb2) _) as [s' evs];
        cbn [fst snd] in *; subst s'.
      * left. exact Hp.
      * right. right. right. exists hdr2, mb2. split; reflexivity.
    + destruct (negb (jbuf_started s)); [left; exact Hp|].
      destruct (deliver_cases hdr rtp_header_zero None
                  (set_jbuf_started (adopted hdr (counted mb s)) true))
        as [[H|H] _];
        destruct (deliver hdr rtp_header_zero None _) as [s' evs];
        cbn [fst snd] in *; subst s'.
      * left. exact Hp.
      * right. right. left. reflexivity.
  - rewrite (rtp_recv_admitted_no_jbuf e hdr mb s Ha Hj).
    destruct (deliver_cases hdr hdr (Some mb) (adopted hdr (counted mb s)))
      as [[H|H] _]; rewrite H.
    + left. exact Hp.
    + right. left. reflexivity.
Qed.

(** X4: the sequence state is "unset" or a 16-bit number, and once a number
    is stored no run of packets brings "unset" back. *)
Theorem pseq_stays_set :
  forall (pkts : list (env * rtp_header * mbuf)) (s : stream),
    Forall seq16 pkts ->
    (pseq s = UINT32_MAX \/ 0 <= pseq s < 2 ^ 16 ->
     pseq (fst (recv_run pkts s)) = UINT32_MAX
     \/ 0 <= pseq (fst (recv_run pkts s)) < 2 ^ 16)
    /\ (0 <= pseq s < 2 ^ 16 -> 0 <= pseq (fst (recv_run pkts s)) < 2 ^ 16).
Proof.
  intros pkts s Hall.
  assert (Hstep : forall e hdr mb s0,
             seq16 (e, hdr, mb) ->
             pseq (fst (rtp_recv e hdr mb s0)) = pseq s0
             \/ 0 <= pseq (fst (rtp_recv e hdr mb s0)) < 2 ^ 16).
  { intros e hdr mb s0 [H1 H2]. cbn [fst snd] in H1, H2.
    destruct (rtp_recv_pseq e hdr mb s0)
      as [H|[H|[H|[hdr2 [mb2 [Hg H]]]]]]; rewrite H.
    - left. reflexivity.
    - right. exact H1.
    - right. lia.
    - right. rewrite Hg in H2. exact H2. }
  revert s. induction Hall as [|[[e hdr] mb] rest Hp Hrest IH]; intros s.
  - simpl. tauto.
  - cbn [recv_run].
    specialize (Hstep e hdr mb s Hp).
    destruct (rtp_recv e hdr mb s) as [s1 evs1]. cbn [fst] in Hstep.
    specialize (IH s1).
    destruct (recv_run rest s1) as [s2 evs2]. cbn [fst] in *.
    destruct IH as [IH1 IH2].
    split; intros H.
    + apply IH1. destruct Hstep as [E|E]; [rewrite E; exact H | right; exact E].
    + apply IH2. destruct Hstep as [E|E]; [rewrite E; exact H | exact E].
Qed.

Lemma pseq_stays_set_witness :
  0 <= pseq (fst (recv_run [(sample_env, sample_hdr 65535 7, sample_mbuf);
                            (sample_env, sample_hdr 0 7, sample_mbuf)]
                           sample_stream)) < 2 ^ 16.
Proof.
  apply (pseq_stays_set [(sample_env, sample_hdr 65535 7, sample_mbuf);
                         (sample_env, sample_hdr 0 7, sample_mbuf)]
           sample_stream).
  - repeat constructor; simpl; lia.
  - simpl. lia.
Defined.

(** X5: a stream put on hold neither receives nor sends: [rtp_recv] leaves
    it untouched and calls no handler, [stream_send] returns 0 and
    transmits nothing, whatever the remote direction is; taking it off hold
    makes the local direction sendrecv again. *)
Theorem hold_silences_stream :
  forall (e : env) (s : stream) (hdr : rtp_header) (mb : mbuf)
         (marker : bool) (pt ts : Z),
    rtp_recv e hdr mb (stream_hold s true) = (stream_hold s true, [])
    /\ stream_send e (Some (stream_hold s true)) marker pt ts mb
       = (Some (stream_hold s true), 0, [])
    /\ ldir (sdp (stream_hold (stream_hold s true) false)) = SDP_SENDRECV.
Proof.
  intros e s hdr mb marker pt ts. split; [|split].
  - apply rtp_recv_rejected. unfold admitted. simpl. intros [_ H].
    apply H. reflexivity.
  - unfold stream_send. simpl sdp.
    destruct (negb (sa_isset_all _)); [reflexivity|].
    unfold sdp_media_dir. simpl.
    destruct (rdir (sdp s)); reflexivity.
  - reflexivity.
Qed.



(** X7: with a jitter buffer that has nothing to play.  Before playout has
    started the packet is counted and put, no handler is called and the
    sequence state is left alone.  After it has started the handler gets a
    zeroed header without payload as the last call, and since that header's
    sequence number 0 is classified, a stored sequence number above 100 is
    replaced by 0, one of at most 100 is kept. *)
Theorem jbuf_nothing_to_play :
  forall (e : env) (hdr : rtp_header) (mb : mbuf) (s : stream),
    admitted mb s -> jbuf s = true -> jbuf_get_res e = None ->
    (jbuf_started s = false ->
     rtp_recv e hdr mb s = (adopted hdr (counted mb s), put_trace e hdr s)
     /\ (forall h m, ~ In (ev_rtph h m) (snd (rtp_recv e hdr mb s)))
     /\ jbuf_started (fst (rtp_recv e hdr mb s)) = false
     /\ pseq (fst (rtp_recv e hdr mb s)) = pseq s)
    /\ (jbuf_started s = true ->
        (exists before,
            snd (rtp_recv e hdr mb s)
            = before ++ [ev_rtph rtp_header_zero None])
        /\ jbuf_started (fst (rtp_recv e hdr mb s)) = true
        /\ (100 < pseq s < 2 ^ 16 -> pseq (fst (rtp_recv e hdr mb s)) = 0)
        /\ (0 <= pseq s <= 100 ->
            pseq (fst (rtp_recv e hdr mb s)) = pseq s)).
Proof.
  intros e hdr mb s Ha Hj Hget.
  rewrite (rtp_recv_admitted_jbuf e hdr mb s Ha Hj), Hget.
  destruct (adopted_counted_frame hdr mb s) as [Hp [_ [Hst _]]].
  split; intros Hs; rewrite Hs; cbn [negb].
  - split; [reflexivity|]. cbn [fst snd].
    split; [|split; [congruence | exact Hp]].
    destruct (put_trace_flush e hdr s)
      as [[_ [_ [rest [Hput [_ Hr]]]]]|[_ [_ Hr]]].
    + rewrite Hput. intros h m H. in_events H. exact (Hr h m H).
    + exact Hr.
  - set (s0 := set_jbuf_started (adopted hdr (counted mb s)) true).
    assert (Hp0 : pseq s0 = pseq s) by exact Hp.
    destruct (deliver_cases hdr rtp_header_zero None s0) as [_ Hevs].
    destruct (deliver_stats hdr rtp_header_zero None s0) as [_ [_ [Hjs _]]].
    assert (Hhigh : 100 < pseq s < 2 ^ 16 ->
                    pseq (fst (deliver hdr rtp_header_zero None s0)) = 0).
    { intros Hr. unfold deliver, lostcalc. cbn [hdr_seq rtp_header_zero].
      rewrite Hp0, wrap16_wrap32.
      assert (E : (pseq s =? UINT32_MAX) = false)
        by (apply stored_seq_is_set; lia).
      rewrite E.
      assert (Hw : wrap16 (0 - pseq s) = 65536 - pseq s).
      { unfold wrap16.
        replace (0 - pseq s) with (65536 - pseq s + (-1) * 2 ^ 16) by lia.
        rewrite Z.mod_add by discriminate. apply Z.mod_small. lia. }
      rewrite Hw.
      destruct (Z.eqb_spec (65536 - pseq s) 0); [lia|].
      destruct (Z.ltb_spec (65536 - pseq s) 3000); [reflexivity|].
      destruct (Z.ltb_spec (65536 - pseq s) 0xff9c); [reflexivity|lia]. }
    assert (Hlow : 0 <= pseq s <= 100 ->
                   pseq (fst (deliver hdr rtp_header_zero None s0)) = pseq s).
    { intros Hr.
      assert (Hig : lostcalc s0 0
                    = (s0, if wrap16 (0 - pseq s) =? 0 then -1 else -2)).
      { apply lostcalc_ignored; [lia | exact Hp0 |].
        destruct (Z.eqb_spec (pseq s) 0) as [E|E].
        - left. rewrite E. reflexivity.
        - right. unfold wrap16.
          replace (0 - pseq s) with (65536 - pseq s + (-1) * 2 ^ 16) by lia.
          rewrite Z.mod_add by discriminate.
          rewrite Z.mod_small by lia. lia. }
      unfold deliver. cbn [hdr_seq rtp_header_zero]. rewrite Hig.
      cbn [fst]. exact Hp0. }
    destruct (deliver hdr rtp_header_zero None s0) as [s' evs].
    cbn [fst snd] in *.
    split; [|split; [exact Hjs | split; assumption]].
    destruct Hevs as [E|E]; rewrite E.
    + exists (put_trace e hdr s). reflexivity.
    + exists (put_trace e hdr s ++ [ev_rtph hdr None]).
      rewrite <- app_assoc. reflexivity.
Qed.

Lemma jbuf_nothing_to_play_witness :
  (exists before,
      snd (rtp_recv sample_env (sample_hdr 501 4321) sample_mbuf
                    sample_playing_stream)
      = before ++ [ev_rtph rtp_header_zero None])
  /\ pseq (fst (rtp_recv sample_env (sample_hdr 501 4321) sample_mbuf
                         sample_playing_stream)) = 0.
Proof.
  destruct (jbuf_nothing_to_play sample_env (sample_hdr 501 4321) sample_mbuf
              sample_playing_stream) as [_ H].
  - split; vm_compute; discriminate.
  - reflexivity.
  - reflexivity.
  - destruct (H eq_refl) as [H1 [_ [H2 _]]].
    split; [exact H1 | apply H2; simpl; lia].
Defined.



(** ** Statistics, remote update, reset (stream.c) *)

Lemma stream_send_open (e : env) (s : stream) (marker : bool) (pt ts : Z)
      (mb : mbuf) :
  can_send s ->
  exists s',
    fst (fst (stream_send e (Some s) marker pt ts mb)) = Some s'
    /\ sdp s' = sdp s
    /\ b_tx (stats s') = wrapsz (b_tx (stats s) + mbuf_get_left (Some mb))
    /\ stats_ts (stats s') = stats_ts (stats s)
    /\ rtpkeep s' = Rtpkeep.rtpkeep_refresh (rtpkeep s) ts
    /\ snd (stream_send e (Some s) marker pt ts mb)
       = (if 0 <=? (if pt <? 0 then pt_enc s else pt)
          then [ev_rtp_send marker (if pt <? 0 then pt_enc s else pt) ts
                            (mbuf_get_left (Some mb))]
          else []).
Proof.
  intros [Ha Hd]. unfold stream_send. rewrite Ha, Hd, Z.eqb_refl.
  cbn [negb]. cbv zeta. cbn [pt_enc set_stats].
  destruct (0 <=? (if pt <? 0 then pt_enc s else pt));
    eexists; repeat split.
Qed.







(** X9: the statistics timer always re-arms itself for 3 s.  If the clock
    has not advanced nothing else happens.  Otherwise, unless there is a
    previous time stamp and the elapsed time narrows to 0 in 32 bits (the
    code then divides by zero), the byte counters are reset and the time is
    recorded.  The first sample (no previous time stamp) leaves the
    bitrates alone.  A later sample computes each bitrate as 8000 times
    the bytes counted, divided by the milliseconds elapsed (fewer than
    2^32, the product below 2^64). *)
Theorem bitrate_sample :
  forall (now : Z) (s : stream),
    snd (tmr_stats_handler now s) = [ev_tmr_start tmr_stats 3000]
    /\ (now <= stats_ts (stats s) -> fst (tmr_stats_handler now s) = s)
    /\ (stats_ts (stats s) < now ->
        stats_ts (stats s) = 0
        \/ wrap32 (now - stats_ts (stats s)) <> 0 ->
        b_tx (stats (fst (tmr_stats_handler now s))) = 0
        /\ b_rx (stats (fst (tmr_stats_handler now s))) = 0
        /\ stats_ts (stats (fst (tmr_stats_handler now s))) = now
        /\ n_tx (stats (fst (tmr_stats_handler now s))) = n_tx (stats s)
        /\ n_rx (stats (fst (tmr_stats_handler now s))) = n_rx (stats s))
    /\ (stats_ts (stats s) = 0 -> 0 < now ->
        bitrate_tx (stats (fst (tmr_stats_handler now s)))
        = bitrate_tx (stats s)
        /\ bitrate_rx (stats (fst (tmr_stats_handler now s)))
           = bitrate_rx (stats s))
    /\ (0 < stats_ts (stats s) < now ->
        now - stats_ts (stats s) < 2 ^ 32 ->
        0 <= 8000 * b_tx (stats s) < 2 ^ 64 ->
        0 <= 8000 * b_rx (stats s) < 2 ^ 64 ->
        bitrate_tx (stats (fst (tmr_stats_handler now s)))
        = 8000 * b_tx (stats s) / (now - stats_ts (stats s))
        /\ bitrate_rx (stats (fst (tmr_stats_handler now s)))
           = 8000 * b_rx (stats s) / (now - stats_ts (stats s))).
Proof.
  intros now s. unfold tmr_stats_handler. cbv zeta.
  destruct (Z.leb_spec now (stats_ts (stats s))) as [Hle|Hlt].
  - split; [reflexivity|]. split; [reflexivity|].
    split; [lia|]. split; [lia|]. lia.
  - cbn [fst snd]. split; [reflexivity|]. split; [lia|].
    split; [intros _ _; repeat split|]. split.
    + intros H0 _. rewrite H0. split; reflexivity.
    + intros Hts Hel Htx Hrx.
      destruct (Z.eqb_spec (stats_ts (stats s)) 0) as [E|E]; [lia|].
      cbn [negb bitrate_tx bitrate_rx stats set_stats set_sampled].
      unfold wrap32, wrapsz.
      rewrite (Z.mod_small (now - stats_ts (stats s))) by lia.
      change (1000 * 8) with 8000.
      rewrite !Z.mod_small by lia. split; reflexivity.
Qed.

Lemma bitrate_sample_witness :
  bitrate_tx
    (stats (fst (tmr_stats_handler 4000
                   (set_stats sample_stream
                      {| n_tx := 150; n_rx := 0; b_tx := 24000; b_rx := 0;
                         bitrate_tx := 0; bitrate_rx := 0;
                         stats_ts := 1000 |})))) = 64000
  /\ b_tx
       (stats (fst (tmr_stats_handler 4000
                      (set_stats sample_stream
                         {| n_tx := 150; n_rx := 0; b_tx := 24000;
                            b_rx := 0; bitrate_tx := 0; bitrate_rx := 0;
                            stats_ts := 1000 |})))) = 0.
Proof.
  destruct (bitrate_sample 4000
              (set_stats sample_stream
                 {| n_tx := 150; n_rx := 0; b_tx := 24000; b_rx := 0;
                    bitrate_tx := 0; bitrate_rx := 0; stats_ts := 1000 |}))
    as [_ [_ [Hreset [_ H]]]].
  split.
  - destruct H as [H _]; simpl; try lia. exact H.
  - destruct Hreset as [Hb _].
    + simpl. lia.
    + right. vm_compute. discriminate.
    + exact Hb.
Defined.



Lemma stream_remote_set_mux (cfg : config_avt) (s : stream) :
  rtcp_mux (fst (stream_remote_set cfg s))
  = rtcp_mux s || (cfg_rtcp_mux cfg && rattr_rtcp_mux (sdp s))
  /\ sdp (fst (stream_remote_set cfg s)) = sdp s
  /\ count_mux_log (snd (stream_remote_set cfg s))
     = (if negb (rtcp_mux s) && rtcp_mux (fst (stream_remote_set cfg s))
        then 1%nat else 0%nat).
Proof.
  unfold stream_remote_set. cbv zeta.
  destruct (cfg_rtcp_mux cfg), (rattr_rtcp_mux (sdp s)), (rtcp_mux s) eqn:E;
    cbn [andb negb orb fst snd rtcp_mux set_rtcp_mux sdp app];
    rewrite ?E; repeat split.
Qed.

Lemma count_mux_log_app (l1 l2 : list ctl_event) :
  count_mux_log (l1 ++ l2) = (count_mux_log l1 + count_mux_log l2)%nat.
Proof.
  unfold count_mux_log. rewrite filter_app, length_app. reflexivity.
Qed.

Lemma stream_update_mux (cfg : config_avt) (e : update_env) (s : stream) :
  rtcp_mux (fst (stream_update cfg e s))
  = rtcp_mux s
    || (cfg_rtcp_mux cfg && (has_media e && rattr_rtcp_mux (sdp s)))
  /\ sdp (fst (stream_update cfg e s)) = sdp s
  /\ pt_enc (fst (stream_update cfg e s))
     = match rformat e with Some fmt => pt fmt | None => -1 end
  /\ count_mux_log (snd (stream_update cfg e s))
     = (if negb (rtcp_mux s) && rtcp_mux (fst (stream_update cfg e s))
        then 1%nat else 0%nat).
Proof.
  unfold stream_update. cbv zeta.
  set (s0 := set_pt_enc s _).
  destruct (stream_remote_set_mux cfg s0) as [Hm [Hs Hc]].
  assert (Hpt : pt_enc (fst (stream_remote_set cfg s0)) = pt_enc s0).
  { unfold stream_remote_set. cbv zeta.
    destruct (cfg_rtcp_mux cfg && rattr_rtcp_mux (sdp s0)); reflexivity. }
  destruct (has_media e).
  - destruct (stream_remote_set cfg s0) as [s1 evs] eqn:E.
    cbn [fst snd] in *.
    assert (Hgoal :
      rtcp_mux s1
      = rtcp_mux s || (cfg_rtcp_mux cfg && (true && rattr_rtcp_mux (sdp s)))
      /\ sdp s1 = sdp s
      /\ pt_enc s1 = match rformat e with Some fmt => pt fmt | None => -1 end
      /\ count_mux_log evs
         = (if negb (rtcp_mux s) && rtcp_mux s1 then 1%nat else 0%nat)).
    { repeat split; [exact Hm | exact Hs | exact Hpt | exact Hc]. }
    destruct (menc_mediah e) as [err|]; cbn [fst snd]; [|exact Hgoal].
    destruct Hgoal as [G1 [G2 [G3 G4]]]. repeat split; try assumption.
    rewrite count_mux_log_app, G4.
    destruct (err =? 0); unfold count_mux_log; simpl; lia.
  - rewrite Bool.andb_false_r, Bool.orb_false_r.
    destruct (menc_mediah e) as [err|]; cbn [fst snd].
    + repeat split.
      * rewrite Bool.andb_negb_l. destruct (err =? 0); reflexivity.
    + repeat split. rewrite Bool.andb_negb_l. reflexivity.
Qed.

(** X11: once RTP/RTCP multiplexing is on, no later remote description
    turns it off.  After any series of updates it is on exactly when it
    was on before or the configuration allows it and some update with a
    media line offered it; and the "multiplexing enabled" line is printed
    once when it comes on, never again. *)
Theorem rtcp_mux_is_sticky :
  forall (cfg : config_avt) (steps : list (sdp_media * update_env))
         (s : stream),
    rtcp_mux (fst (update_run cfg steps s))
    = rtcp_mux s
      || (cfg_rtcp_mux cfg
          && existsb (fun st => has_media (snd st)
                                && rattr_rtcp_mux (fst st)) steps)
    /\ count_mux_log (snd (update_run cfg steps s))
       = (if negb (rtcp_mux s) && rtcp_mux (fst (update_run cfg steps s))
          then 1%nat else 0%nat).
Proof.
  intros cfg steps. induction steps as [|[m e] rest IH]; intros s.
  - cbn [update_run fst snd existsb].
    rewrite Bool.andb_false_r, Bool.orb_false_r, Bool.andb_negb_l.
    split; reflexivity.
  - cbn [update_run].
    destruct (stream_update_mux cfg e (set_sdp s m)) as [Hm [_ [_ Hc]]].
    destruct (stream_update cfg e (set_sdp s m)) as [s1 evs1].
    destruct (IH s1) as [IHm IHc].
    destruct (update_run cfg rest s1) as [s2 evs2].
    cbn [fst snd rtcp_mux set_sdp sdp existsb] in *.
    rewrite count_mux_log_app, Hc, IHc, IHm, Hm.
    destruct (rtcp_mux s), (cfg_rtcp_mux cfg), (has_media e),
      (rattr_rtcp_mux m),
      (existsb (fun st => has_media (snd st) && rattr_rtcp_mux (fst st))
               rest); split; reflexivity.
Qed.

(** X12: on a stream that can send, with payload types below 256 (what
    fits the [uint8_t] that [rtp_send] takes), the payload type
    [stream_send] falls back on when called with a negative one is the
    encoder's if [stream_update_encoder] gave a non-negative one after the
    last update, else that of the first remote format seen by the last
    [stream_update]; with neither, nothing is transmitted. *)
Theorem update_selects_payload_type :
  forall (cfg : config_avt) (ue : update_env) (e : env) (s : stream)
         (p : Z) (marker : bool) (pt ts : Z) (mb : mbuf),
    can_send s ->
    pt < 0 ->
    p < 256 ->
    (forall fmt, rformat ue = Some fmt -> Sdp.pt fmt < 256) ->
    snd (stream_send e
           (Some (stream_update_encoder (fst (stream_update cfg ue s)) p))
           marker pt ts mb)
    = (let sel := if 0 <=? p then p
                  else match rformat ue with
                       | Some fmt => Sdp.pt fmt
                       | None => -1
                       end in
       if 0 <=? sel
       then [ev_rtp_send marker sel ts (mbuf_get_left (Some mb))]
       else []).
Proof.
  intros cfg ue e s p marker pt ts mb Hc Hpt _ _.
  destruct (stream_update_mux cfg ue s) as [_ [Hsdp [Henc _]]].
  set (s1 := fst (stream_update cfg ue s)) in *.
  assert (Hc2 : can_send (stream_update_encoder s1 p)).
  { unfold can_send, stream_update_encoder in *.
    destruct (0 <=? p); cbn [sdp set_pt_enc]; rewrite Hsdp; exact Hc. }
  destruct (stream_send_open e _ marker pt ts mb Hc2)
    as [s' [_ [_ [_ [_ [_ Htr]]]]]].
  rewrite Htr. apply Z.ltb_lt in Hpt. rewrite Hpt. cbv zeta.
  unfold stream_update_encoder.
  destruct (0 <=? p) eqn:Ep; cbn [pt_enc set_pt_enc].
  - rewrite Ep. reflexivity.
  - rewrite Henc. reflexivity.
Qed.

Lemma update_selects_payload_type_witness :
  snd (stream_send sample_env
         (Some (stream_update_encoder
                  (fst (stream_update (sample_cfg true 0 0)
                          (sample_update_env (Some (fmt_of_pt 8)))
                          sample_stream)) (-1)))
         false (-1) 160 sample_mbuf)
  = [ev_rtp_send false 8 160 (mbuf_get_left (Some sample_mbuf))].
Proof.
  apply (update_selects_payload_type (sample_cfg true 0 0)
           (sample_update_env (Some (fmt_of_pt 8))) sample_env
           sample_stream (-1) false (-1) 160 sample_mbuf).
  - split; reflexivity.
  - lia.
  - lia.
  - intros fmt H. injection H as <-. simpl. lia.
Defined.

(** X13: [stream_reset] flushes the jitter buffer first and replaces the
    keepalive: whatever activity the old one had recorded is forgotten.
    The new one exists exactly when a method is configured, the media
    line has a remote format and both allocations succeed; it then has no
    activity flag and time stamp 0, and its timer is armed for 20 ms. *)
Theorem reset_restarts_keepalive :
  forall (ke : keepalive_env) (s : stream),
    hd_error (snd (stream_reset ke s)) = Some ev_jbuf_flush
    /\ (forall rk,
         rtpkeep (fst (stream_reset ke s)) = Some rk <->
         (ua_rtpkeep ke = Some (Rtpkeep.method rk)
          /\ has_rformat ke = true /\ mem_ok ke = true /\ dup_ok ke = true
          /\ Rtpkeep.ts rk = 0 /\ Rtpkeep.flag rk = false))
    /\ (In (ev_tmr_start tmr_rtpkeep 20) (snd (stream_reset ke s)) <->
        rtpkeep (fst (stream_reset ke s)) <> None)
    /\ pseq (fst (stream_reset ke s)) = pseq s
    /\ ssrc_rx (fst (stream_reset ke s)) = ssrc_rx s
    /\ jbuf_started (fst (stream_reset ke s)) = jbuf_started s.
Proof.
  intros ke s. unfold stream_reset, stream_start_keepalive. cbv zeta.
  destruct (ua_rtpkeep ke) as [meth|] eqn:Em.
  - destruct (has_rformat ke) eqn:Ef.
    + unfold Rtpkeep.rtpkeep_alloc.
      rewrite Z.eqb_refl. cbn [negb orb].
      destruct (mem_ok ke) eqn:Emem; cbn [negb].
      * destruct (dup_ok ke) eqn:Edup; cbn [negb fst snd app Z.eqb].
        -- split; [reflexivity|]. split.
           ++ intros rk. cbn [rtpkeep set_rtpkeep]. split.
              ** intros H. inversion H. subst rk.
                 cbn. repeat split.
              ** intros [H1 [_ [_ [_ [H2 H3]]]]]. destruct rk as [m t f].
                 cbn in *. inversion H1. subst. reflexivity.
           ++ split; [|repeat split].
              cbn [rtpkeep set_rtpkeep]. split; [discriminate|].
              intros _. right. left. reflexivity.
        -- split; [reflexivity|]. split.
           ++ intros rk. cbn [rtpkeep set_rtpkeep]. split;
                [discriminate | intros [_ [_ [_ [H _]]]]; discriminate].
           ++ split; [|repeat split].
              cbn [rtpkeep set_rtpkeep]. split; [|congruence].
              unfold ENOMEM. cbn. intros [H|[H|H]];
                [discriminate | discriminate | contradiction].
      * cbn [fst snd app]. split; [reflexivity|]. split.
        -- intros rk. cbn [rtpkeep set_rtpkeep]. split;
             [discriminate | intros [_ [_ [H _]]]; discriminate].
        -- split; [|repeat split].
           cbn [rtpkeep set_rtpkeep]. split; [|congruence].
           unfold ENOMEM. cbn. intros [H|[H|H]];
             [discriminate | discriminate | contradiction].
    + cbn [fst snd]. split; [reflexivity|]. split.
      * intros rk. cbn [rtpkeep set_rtpkeep]. split;
          [discriminate | intros [_ [H _]]; discriminate].
      * split; [|repeat split].
        cbn [rtpkeep set_rtpkeep]. split; [|congruence].
        cbn. intros [H|H]; [discriminate | contradiction].
  - cbn [fst snd]. split; [reflexivity|]. split.
    + intros rk. cbn [rtpkeep set_rtpkeep]. split;
        [discriminate | intros [H _]; discriminate].
    + split; [|repeat split].
      cbn [rtpkeep set_rtpkeep]. split; [|congruence].
      cbn. intros [H|H]; [discriminate | contradiction].
Qed.

End StreamMore.

(** ** Keepalive (rtpkeep.c) *)

Section KeepaliveMore.
Import Re Sdp Rtpkeep.

Lemma find_unused_pt_from_spec (m : sdp_media) (n : nat) :
  forall p,
    0 <= p - Z.of_nat n + 1 ->
    (find_unused_pt_from m n p = -1
     /\ forall q, p - Z.of_nat n < q <= p -> pt_in_use m q)
    \/ (p - Z.of_nat n < find_unused_pt_from m n p <= p
        /\ ~ pt_in_use m (find_unused_pt_from m n p)
        /\ forall q, find_unused_pt_from m n p < q <= p -> pt_in_use m q).
Proof.
  induction n as [|n IH]; intros p Hp.
  - left. split; [reflexivity|]. intros q Hq. simpl in Hq. lia.
  - cbn [find_unused_pt_from].
    destruct (sdp_media_format m false p) as [f|] eqn:E.
    + assert (Huse : pt_in_use m p).
      { unfold sdp_media_format in E. apply find_some in E.
        destruct E as [Hin Hpt].
        destruct (Z.leb_spec 0 p); [|lia].
        exists f. split; [exact Hin | apply Z.eqb_eq; exact Hpt]. }
      assert (Hstep : forall q r, r < q <= p ->
                (forall q', r < q' <= p - 1 -> pt_in_use m q') ->
                pt_in_use m q).
      { intros q r Hq Hall. destruct (Z.eq_dec q p) as [->|Hne];
          [exact Huse | apply Hall; lia]. }
      destruct (IH (p - 1) ltac:(lia)) as [[Hr Hall]|[Hr [Hfree Hall]]].
      * left. split; [exact Hr|]. intros q Hq.
        apply (Hstep q (p - 1 - Z.of_nat n)); [lia | exact Hall].
      * right. split; [lia|]. split; [exact Hfree|]. intros q Hq.
        apply (Hstep q (find_unused_pt_from m n (p - 1))); [lia | exact Hall].
    + right. split; [lia|]. split; [|intros q Hq; lia].
      intros [f [Hin Hpt]]. unfold sdp_media_format in E.
      apply (find_none _ _ E) in Hin.
      destruct (Z.leb_spec 0 p); [|lia].
      rewrite Hpt, Z.eqb_refl in Hin. discriminate.
Qed.

Lemma find_unused_pt_free (K : core_h) (m : sdp_media) :
  0 <= PT_DYN_MIN K ->
  find_unused_pt K m <> -1 ->
  ~ pt_in_use m (find_unused_pt K m).
Proof.
  intros Hmin Hfound. unfold find_unused_pt in *.
  set (n := Z.to_nat (PT_DYN_MAX K - PT_DYN_MIN K + 1)) in *.
  destruct (Z.le_gt_cases (PT_DYN_MIN K) (PT_DYN_MAX K)) as [Hle|Hgt].
  - assert (Hn : Z.of_nat n = PT_DYN_MAX K - PT_DYN_MIN K + 1)
      by (unfold n; lia).
    destruct (find_unused_pt_from_spec m n (PT_DYN_MAX K) ltac:(lia))
      as [[Hr _]|[_ [Hfree _]]]; [contradiction | exact Hfree].
  - exfalso. apply Hfound. replace n with O by (unfold n; lia).
    reflexivity.
Qed.

(** X14: the payload type a "dyna" keepalive uses is the highest dynamic
    payload type that no negotiated remote format has: it lies in
    [PT_DYN_MIN, PT_DYN_MAX], is in use by no remote format, and every
    higher dynamic type is in use; and -1 is returned only when the whole
    dynamic range is in use. *)
Theorem keepalive_pt_is_highest_free :
  forall (K : core_h) (m : sdp_media),
    0 <= PT_DYN_MIN K ->
    (find_unused_pt K m = -1
     /\ forall q, PT_DYN_MIN K <= q <= PT_DYN_MAX K -> pt_in_use m q)
    \/ (PT_DYN_MIN K <= find_unused_pt K m <= PT_DYN_MAX K
        /\ ~ pt_in_use m (find_unused_pt K m)
        /\ forall q, find_unused_pt K m < q <= PT_DYN_MAX K ->
                     pt_in_use m q).
Proof.
  intros K m Hmin. unfold find_unused_pt.
  set (n := Z.to_nat (PT_DYN_MAX K - PT_DYN_MIN K + 1)).
  destruct (Z.le_gt_cases (PT_DYN_MIN K) (PT_DYN_MAX K)) as [Hle|Hgt].
  - assert (Hn : Z.of_nat n = PT_DYN_MAX K - PT_DYN_MIN K + 1)
      by (unfold n; lia).
    destruct (find_unused_pt_from_spec m n (PT_DYN_MAX K) ltac:(lia))
      as [[Hr Hall]|[Hr [Hfree Hall]]].
    + left. split; [exact Hr|]. intros q Hq. apply Hall. lia.
    + right. split; [lia|]. split; [exact Hfree | exact Hall].
  - left. replace n with O by (unfold n; lia).
    split; [reflexivity|]. intros q Hq. lia.
Qed.


Lemma keepalive_pt_is_highest_free_witness :
  find_unused_pt core_h_std sample_sdp_dyna = 125
  /\ ~ pt_in_use sample_sdp_dyna 125.
Proof.
  destruct (keepalive_pt_is_highest_free core_h_std sample_sdp_dyna)
    as [[H _]|[_ [H _]]].
  - simpl. lia.
  - vm_compute in H. discriminate H.
  - split; [reflexivity | exact H].
Defined.

Lemma lower_str_casecmp (a b : string) :
  lower a = lower b -> str_casecmp a b = 0.
Proof.
  revert b. induction a as [|c a IH]; intros [|d b]; simpl;
    try reflexivity; try discriminate.
  intros H. inversion H as [[Hc Hr]].
  rewrite Hc, Ascii.eqb_refl. apply IH. exact Hr.
Qed.

Lemma casecmp_same_lower (a a' name : string) :
  lower a = lower a' ->
  (str_casecmp a name =? 0) = (str_casecmp a' name =? 0).
Proof.
  intros H.
  destruct (Z.eqb_spec (str_casecmp a name) 0) as [E|E];
    destruct (Z.eqb_spec (str_casecmp a' name) 0) as [E'|E'];
    try reflexivity; exfalso.
  - apply E'. apply lower_str_casecmp. rewrite <- H.
    apply str_casecmp_lower. exact E.
  - apply E. apply lower_str_casecmp. rewrite H.
    apply str_casecmp_lower. exact E'.
Qed.

(** X15: the keepalive method is matched without regard to ASCII case: two
    keepalives whose method strings differ only in case (and that carry
    the same time stamp) do the same at every expiry. *)
Theorem keepalive_method_ignores_case :
  forall (K : core_h) (e : env) (m : sdp_media) (rk rk' : rtpkeep),
    lower (method rk) = lower (method rk') ->
    ts rk = ts rk' ->
    flag rk = flag rk' ->
    send_keepalive K e m rk = send_keepalive K e m rk'
    /\ snd (timeout K e m rk) = snd (timeout K e m rk')
    /\ flag (fst (timeout K e m rk)) = flag (fst (timeout K e m rk')).
Proof.
  intros K e m rk rk' Hm Hts Hf.
  assert (Hs : send_keepalive K e m rk = send_keepalive K e m rk').
  { unfold send_keepalive.
    rewrite (casecmp_same_lower _ _ "zero" Hm),
            (casecmp_same_lower _ _ "stun" Hm),
            (casecmp_same_lower _ _ "dyna" Hm),
            (casecmp_same_lower _ _ "rtcp" Hm), Hts.
    reflexivity. }
  split; [exact Hs|].
  unfold timeout. cbv zeta. rewrite Hs.
  destruct (flag rk') eqn:E; rewrite Hf; [split; reflexivity|].
  destruct (send_keepalive K e m rk') as [err evs].
  cbn [fst snd]. split; [reflexivity | congruence].
Qed.

Lemma keepalive_method_ignores_case_witness :
  send_keepalive core_h_std (keepalive_env true) sample_sdp_dyna
                 (keepalive_of "STUN")
  = send_keepalive core_h_std (keepalive_env true) sample_sdp_dyna
                   (keepalive_of "stun").
Proof.
  apply (keepalive_method_ignores_case core_h_std (keepalive_env true)
           sample_sdp_dyna (keepalive_of "STUN") (keepalive_of "stun"));
    reflexivity.
Defined.

Lemma refreshed_method (l : list Z) :
  forall rk, method (fold_left refresh1 l rk) = method rk.
Proof.
  induction l as [|t l IH]; intros rk; [reflexivity|].
  simpl. rewrite IH. reflexivity.
Qed.

Lemma send_keepalive_packets_by_method (K : core_h) (e : env)
      (m : sdp_media) (rk rk' : rtpkeep) :
  method rk = method rk' ->
  packets_sent (snd (send_keepalive K e m rk))
  = packets_sent (snd (send_keepalive K e m rk')).
Proof.
  intros H. unfold send_keepalive. rewrite H.
  repeat match goal with
         | |- context [if ?c then _ else _] => destruct c
         end; reflexivity.
Qed.

Lemma period_packets (K : core_h) (e : env) (m : sdp_media)
      (r : list Z) (rk : rtpkeep) :
  flag rk = false ->
  flag (fst (period K e m r rk)) = false
  /\ method (fst (period K e m r rk)) = method rk
  /\ packets_sent (snd (period K e m r rk))
     = (if is_idle r
        then packets_sent (snd (send_keepalive K e m rk)) else 0%nat).
Proof.
  intros Hf. unfold period, timeout. cbv zeta.
  destruct r as [|t r].
  - cbn [fold_left is_idle]. rewrite Hf.
    destruct (send_keepalive K e m rk) as [err evs]. cbn [fst snd].
    repeat split; [exact Hf|].
    change (ev_tmr_start tmr_rtpkeep (Tr_UDP * 1000)
            :: evs ++ (if err =? 0 then []
                       else [ev_debug_warning "keepalive" err]))
      with ([ev_tmr_start tmr_rtpkeep (Tr_UDP * 1000)]
            ++ evs ++ (if err =? 0 then []
                       else [ev_debug_warning "keepalive" err])).
    rewrite !packets_sent_app.
    destruct (err =? 0); unfold packets_sent; simpl; lia.
  - rewrite (refreshed_period_flag (t :: r) rk) by discriminate.
    cbn [fst snd method flag is_idle].
    rewrite refreshed_method. repeat split.
Qed.

(** X16: over any number of consecutive periods, starting with the flag
    clear, the packets handed to the socket are one keepalive's worth for
    every period without a refresh and nothing else.  So "stun" sends
    exactly one indication per idle period, and a method that is none of
    "zero", "stun", "dyna" (among them "rtcp" and any unknown string)
    never sends anything. *)
Theorem keepalive_run_packets :
  forall (K : core_h) (e : env) (m : sdp_media) (periods : list (list Z))
         (rk : rtpkeep),
    flag rk = false ->
    packets_sent (snd (keepalive_run K e m periods rk))
    = (idle_periods periods
       * packets_sent (snd (send_keepalive K e m rk)))%nat
    /\ (str_casecmp (method rk) "stun" = 0 ->
        packets_sent (snd (keepalive_run K e m periods rk))
        = idle_periods periods)
    /\ (str_casecmp (method rk) "zero" <> 0 ->
        str_casecmp (method rk) "stun" <> 0 ->
        str_casecmp (method rk) "dyna" <> 0 ->
        packets_sent (snd (keepalive_run K e m periods rk)) = 0%nat).
Proof.
  intros K e m periods rk Hf.
  assert (Hrun : forall ps rk0,
             flag rk0 = false -> method rk0 = method rk ->
             packets_sent (snd (keepalive_run K e m ps rk0))
             = (idle_periods ps
                * packets_sent (snd (send_keepalive K e m rk)))%nat).
  { induction ps as [|r ps IH]; intros rk0 Hf0 Hm0; [reflexivity|].
    cbn [keepalive_run].
    destruct (period_packets K e m r rk0 Hf0) as [Hf1 [Hm1 Hp1]].
    destruct (period K e m r rk0) as [rk1 evs1]. cbn [fst snd] in *.
    specialize (IH rk1 Hf1 (eq_trans Hm1 Hm0)).
    destruct (keepalive_run K e m ps rk1) as [rk2 evs2]. cbn [fst snd] in *.
    rewrite packets_sent_app, Hp1, IH.
    rewrite (send_keepalive_packets_by_method K e m rk0 rk Hm0).
    unfold idle_periods. cbn [filter].
    destruct (is_idle r); cbn [List.length]; lia. }
  split; [apply Hrun; [exact Hf | reflexivity]|]. split.
  - intros Hs. rewrite (Hrun periods rk Hf eq_refl).
    unfold send_keepalive. rewrite Hs.
    destruct (str_casecmp (method rk) "zero" =? 0) eqn:Ez.
    + exfalso. apply Z.eqb_eq in Ez.
      apply str_casecmp_lower in Ez. apply str_casecmp_lower in Hs.
      rewrite Ez in Hs. vm_compute in Hs. discriminate Hs.
    + cbn [Z.eqb snd]. unfold packets_sent. simpl. lia.
  - intros Hz Hs Hd. rewrite (Hrun periods rk Hf eq_refl).
    unfold send_keepalive.
    apply Z.eqb_neq in Hz, Hs, Hd. rewrite Hz, Hs, Hd.
    destruct (str_casecmp (method rk) "rtcp" =? 0);
      [destruct (config_avt_rtcp_mux e && rattr_rtcp_mux m)|];
      unfold packets_sent; simpl; lia.
Qed.

Lemma keepalive_run_packets_witness :
  packets_sent
    (snd (keepalive_run core_h_std (keepalive_env true) sample_sdp_dyna
            [[]; [160; 320]; []; []; [480]] (keepalive_of "stun")))
  = 3%nat.
Proof.
  destruct (keepalive_run_packets core_h_std (keepalive_env true)
              sample_sdp_dyna [[]; [160; 320]; []; []; [480]]
              (keepalive_of "stun")) as [_ [H _]].
  - reflexivity.
  - apply H. reflexivity.
Defined.

(** X17: a stream with a "dyna" keepalive that has just passed a packet
    with time stamp [ts] to [stream_send] stays quiet at the next expiry;
    at the one after, with no media in between, the buffer allocated and a
    dynamic payload type free, it sends one RTP packet without marker and
    without payload, carrying that same time stamp and a payload type that
    no negotiated remote format uses. *)
Theorem dyna_keepalive_repeats_timestamp :
  forall (K : core_h) (ke : env) (e : Stream.env) (s : Stream.stream)
         (rk : rtpkeep) (marker : bool) (pt ts : Z) (mb : mbuf),
    can_send s ->
    Stream.rtpkeep s = Some rk ->
    str_casecmp (method rk) "dyna" = 0 ->
    mbuf_alloc_ok ke = true ->
    0 <= PT_DYN_MIN K ->
    find_unused_pt K (Stream.sdp s) <> -1 ->
    exists s' rk',
      fst (fst (Stream.stream_send e (Some s) marker pt ts mb)) = Some s'
      /\ Stream.rtpkeep s' = Some rk'
      /\ packets_sent (snd (timeout K ke (Stream.sdp s') rk')) = 0%nat
      /\ filter is_packet
           (snd (timeout K ke (Stream.sdp s')
                         (fst (timeout K ke (Stream.sdp s') rk'))))
         = [ev_rtp_send false (find_unused_pt K (Stream.sdp s)) ts 0]
      /\ ~ pt_in_use (Stream.sdp s) (find_unused_pt K (Stream.sdp s)).
Proof.
  intros K ke e s rk marker pt ts mb Hc Hrk Hd Hok Hmin Hfree.
  destruct (stream_send_open e s marker pt ts mb Hc)
    as [s' [Hs' [Hsdp [_ [_ [Hk _]]]]]].
  rewrite Hrk in Hk. cbn [rtpkeep_refresh] in Hk.
  exists s'. eexists. split; [exact Hs'|]. split; [exact Hk|].
  rewrite Hsdp. unfold timeout. cbv zeta. cbn [flag fst snd method].
  split; [reflexivity|]. split.
  - unfold send_keepalive. cbn [method Rtpkeep.ts].
    destruct (Z.eqb_spec (str_casecmp (method rk) "zero") 0) as [Ez|_].
    { exfalso. apply str_casecmp_lower in Ez.
      apply str_casecmp_lower in Hd.
      rewrite Ez in Hd. vm_compute in Hd. discriminate Hd. }
    destruct (Z.eqb_spec (str_casecmp (method rk) "stun") 0) as [Ez|_].
    { exfalso. apply str_casecmp_lower in Ez.
      apply str_casecmp_lower in Hd.
      rewrite Ez in Hd. vm_compute in Hd. discriminate Hd. }
    rewrite Hd, Hok. cbn [Z.eqb negb].
    destruct (Z.eqb_spec (find_unused_pt K (Stream.sdp s)) (-1)) as [E|_];
      [contradiction|].
    cbn [fst snd]. destruct (rtp_send_err ke =? 0); reflexivity.
  - apply find_unused_pt_free; assumption.
Qed.

Lemma dyna_keepalive_repeats_timestamp_witness :
  exists s' rk',
    fst (fst (Stream.stream_send sample_env (Some sample_stream_dyna)
                                 true 8 48000 sample_mbuf)) = Some s'
    /\ Stream.rtpkeep s' = Some rk'
    /\ filter is_packet
         (snd (timeout core_h_std (keepalive_env true) (Stream.sdp s')
                 (fst (timeout core_h_std (keepalive_env true)
                               (Stream.sdp s') rk'))))
       = [ev_rtp_send false 125 48000 0].
Proof.
  destruct (dyna_keepalive_repeats_timestamp core_h_std (keepalive_env true)
              sample_env sample_stream_dyna (keepalive_of "Dyna")
              true 8 48000 sample_mbuf)
    as [s' [rk' [H1 [H2 [_ [H3 _]]]]]].
  - split; reflexivity.
  - reflexivity.
  - reflexivity.
  - reflexivity.
  - simpl. lia.
  - vm_compute. discriminate.
  - exists s', rk'. split; [exact H1|]. split; [exact H2 | exact H3].
Defined.

End KeepaliveMore.

(** ** The audio pipeline (audio.c) *)

Section AudioMore.
Import Re Sdp Audio AudioCtl.

Lemma count_dech_app (l1 l2 : list event) :
  count_dech (l1 ++ l2) = (count_dech l1 + count_dech l2)%nat.
Proof. unfold count_dech. rewrite filter_app, length_app. reflexivity. Qed.

Lemma decode_all_count (e : env) (st : aucodec_st) (n : nat) :
  forall mb,
    (1 <= count_dech (snd (decode_all e st n mb)) <= n + 1)%nat.
Proof.
  induction n as [|n IH]; intros mb; cbn [decode_all].
  - destruct (dech e st mb) as [err mb']. unfold count_dech. simpl. lia.
  - destruct (dech e st mb) as [err mb'].
    destruct (negb (mbuf_get_left mb' =? 0) && (err =? 0)).
    + specialize (IH mb').
      destruct (decode_all e st n mb') as [err' evs]. cbn [snd] in *.
      unfold count_dech in *. cbn [filter is_dech List.length]. lia.
    + unfold count_dech. simpl. lia.
Qed.

(** X18: one call of [audio_stream_decode] runs the decoder at least once
    and at most 65 times when a decoder is set, whatever the decoder
    leaves in the packet; without a decoder it does nothing and reports
    success. *)
Theorem decoder_calls_bounded :
  forall (e : env) (a : audio) (mb : option mbuf),
    (dec a = None -> audio_stream_decode e a mb = (a, 0, []))
    /\ (dec a <> None ->
        (1 <= count_dech (snd (audio_stream_decode e a mb)) <= 65)%nat).
Proof.
  intros e a mb. unfold audio_stream_decode. split.
  - intros H. rewrite H. reflexivity.
  - intros H. destruct (dec a) as [st|]; [|contradiction].
    pose proof (decode_all_count e st 64 mb) as Hc.
    destruct (decode_all e st 64 mb) as [err evs]. cbn [snd] in Hc.
    destruct (negb (err =? 0)).
    + cbn [snd]. rewrite count_dech_app.
      change (count_dech [ev_debug_warning "codec_decode" err]) with 0%nat.
      lia.
    + destruct (fc a); destruct (aubuf_rx a); cbn [snd];
        rewrite ?count_dech_app;
        change (count_dech [ev_aufilt_chain_decode]) with 0%nat;
        change (count_dech [ev_aubuf_write]) with 0%nat; lia.
Qed.

Lemma decoder_calls_bounded_witness :
  (1 <= count_dech
          (snd (audio_stream_decode (sample_audio_env 160) sample_audio_rx
                                    (Some sample_mbuf))) <= 65)%nat.
Proof.
  apply (decoder_calls_bounded (sample_audio_env 160) sample_audio_rx
           (Some sample_mbuf)).
  discriminate.
Defined.

(** X19: a packet with a new payload type whose decoder cannot be
    allocated is dropped, and so is the decoder that was working: the
    pipeline is left without decoder but with the new payload type as the
    expected one, so every later packet of that type is dropped silently,
    with no new attempt to allocate. *)
Theorem failed_decoder_switch_sticks :
  forall (K : core_h) (e : env) (a : audio) (hdr : rtp_header) (b : mbuf)
         (lc : sdp_format) (c : aucodec),
    hdr_pt hdr <> pt_tel_rx a ->
    PT_CN K <> hdr_pt hdr ->
    hdr_pt hdr <> pt_rx a ->
    sdp_media_lformat (Stream.sdp (strm a)) (hdr_pt hdr) = Some lc ->
    data lc = Some c ->
    aucodec_cmp (Some c) (aucodec_get (enc a)) = false ->
    alloch_err e <> 0 ->
    quiet (snd (stream_recv_handler K e hdr (Some b) a)) = true
    /\ dec (fst (stream_recv_handler K e hdr (Some b) a)) = None
    /\ pt_rx (fst (stream_recv_handler K e hdr (Some b) a))
       = wrap8 (hdr_pt hdr)
    /\ forall (e2 : env) (hdr2 : rtp_header) (b2 : mbuf),
         hdr_pt hdr2 = wrap8 (hdr_pt hdr) ->
         hdr_pt hdr2 <> pt_tel_rx a ->
         PT_CN K <> hdr_pt hdr2 ->
         stream_recv_handler K e2 hdr2 (Some b2)
           (fst (stream_recv_handler K e hdr (Some b) a))
         = (fst (stream_recv_handler K e hdr (Some b) a), []).
Proof.
  intros K e a hdr b lc c Htel Hcn Hpt Hlc Hdata Hcmp Herr.
  assert (Hlcpt : pt lc = hdr_pt hdr).
  { unfold sdp_media_lformat in Hlc. apply find_some in Hlc.
    destruct Hlc as [_ H]. apply Z.eqb_eq. exact H. }
  assert (Hrun : stream_recv_handler K e hdr (Some b) a
                 = (set_dec (set_pt_rx a (wrap8 (hdr_pt hdr))) None,
                    [ev_re_printf "Audio decoder changed payload";
                     ev_re_printf "Set audio decoder"; ev_alloch c;
                     ev_debug_warning "alloc decoder" (alloch_err e)])).
  { unfold stream_recv_handler.
    apply Z.eqb_neq in Htel, Hcn, Hpt, Herr. rewrite Htel, Hcn, Hpt.
    cbn [negb]. unfold pt_handler. rewrite Hlc.
    unfold audio_decoder_set. rewrite Hdata. cbv zeta.
    cbn [enc set_dec set_pt_rx]. rewrite Hcmp, Herr. cbn [negb].
    rewrite Hlcpt, Herr. reflexivity. }
  rewrite Hrun. cbn [fst snd]. split; [reflexivity|].
  split; [reflexivity|]. split; [reflexivity|].
  intros e2 hdr2 b2 H2 Htel2 Hcn2.
  unfold stream_recv_handler. cbn [pt_tel_rx pt_rx set_dec set_pt_rx].
  apply Z.eqb_neq in Htel2, Hcn2. rewrite Htel2, Hcn2, H2, Z.eqb_refl.
  cbn [negb]. unfold audio_stream_decode. cbn [dec set_dec]. reflexivity.
Qed.

Lemma failed_decoder_switch_sticks_witness :
  dec (fst (stream_recv_handler core_h_std
              {| strm_env := sample_env;
                 config := config (sample_audio_env 160);
                 mbuf_alloc_ok := true; aubuf_get_err := 0;
                 aufilt_chain_encode := fun b => b;
                 ench_err := 0; ench_len := 160;
                 dech := fun _ _ => (0, None);
                 aufilt_chain_decode_err := 0; aubuf_write_err := 0;
                 telev_recv := None; telev_code2digit := fun c => c;
                 alloch_err := ENOMEM; alloch_id := 1;
                 alloch_ptime := fun t => t;
                 aufilt_list_isempty := true; aufilt_chain_alloc_err := 0;
                 auplay_find := true; ausrc_find := true;
                 aubuf_alloc_rx_err := 0; aubuf_alloc_tx_err := 0;
                 auplay_alloc_err := 0; ausrc_alloc_err := 0;
                 pthread_create_err := 0 |}
              (sample_hdr_pt 8) (Some sample_mbuf) sample_audio_rx)) = None.
Proof.
  refine (proj1 (proj2 (failed_decoder_switch_sticks core_h_std _
                          sample_audio_rx (sample_hdr_pt 8) sample_mbuf
                          {| pt := 8; data := Some pcma; params := "" |}
                          pcma _ _ _ _ _ _ _)));
    try reflexivity; try (simpl; discriminate);
    try (vm_compute; discriminate).
Defined.

Lemma stream_send_gated_quiet (e : Stream.env) (s : Stream.stream)
      (m : bool) (p t : Z) (mb : mbuf) :
  ~ can_send s ->
  Stream.stream_send e (Some s) m p t mb = (Some s, 0, []).
Proof.
  intros H. unfold Stream.stream_send.
  destruct (sa_isset_all (sdp_media_raddr (Stream.sdp s))) eqn:Ea;
    [|reflexivity].
  destruct (Z.eqb_spec (sdp_media_dir (Stream.sdp s))
                       (sdp_dir_val SDP_SENDRECV)) as [Ed|Ed];
    [|reflexivity].
  exfalso. apply H. split; assumption.
Qed.

(** X20: the marker is spent by the first encode attempt, sent or not.  If
    the encoder fails on the first frame, or the first frame is encoded
    while the stream cannot send (no remote address yet, or a direction
    other than sendrecv), that cycle puts nothing on the wire and clears
    the marker, so no packet of the stream ever carries it. *)
Theorem marker_lost_without_first_packet :
  forall (K : core_h) (e : env) (a : audio) (ops : list tx_op),
    enc a <> None ->
    mbuf_alloc_ok e = true ->
    aubuf_get_err e = 0 ->
    ench_err e <> 0 \/ ~ can_send (strm a) ->
    packets_sent (snd (poll_aubuf_tx K e a)) = 0%nat
    /\ marker (fst (poll_aubuf_tx K e a)) = false
    /\ (ench_err e <> 0 -> ts_tx (fst (poll_aubuf_tx K e a)) = ts_tx a)
    /\ Forall (fun m => m = false)
              (sent_markers (snd (tx_run K ops (fst (poll_aubuf_tx K e a))))).
Proof.
  intros K e a ops Henc Hmb Hget Hwhy.
  assert (Hm : marker (fst (poll_aubuf_tx K e a)) = false)
    by (apply poll_aubuf_tx_clears_marker; assumption).
  assert (Hrun :
    packets_sent (snd (poll_aubuf_tx K e a)) = 0%nat
    /\ (ench_err e <> 0 -> ts_tx (fst (poll_aubuf_tx K e a)) = ts_tx a)).
  { unfold poll_aubuf_tx. rewrite Hmb, Hget. cbn [negb Z.eqb]. cbv zeta.
    unfold process_audio_encode.
    destruct (enc a) as [st|] eqn:Eenc; [|contradiction].
    destruct (fc a); unfold encode_rtp_send; rewrite Eenc; cbv zeta;
      (destruct (Z.eqb_spec (ench_err e) 0) as [E0|E0]; cbn [negb];
       [ destruct Hwhy as [Hwhy|Hwhy]; [contradiction|];
         match goal with
         | |- context [if negb (mbuf_get_left ?b =? 0) then _ else _] =>
             destruct (negb (mbuf_get_left b =? 0))
         end;
         [ unfold stream_send_in; cbn [strm set_mb_rtp];
           rewrite (stream_send_gated_quiet _ _ _ _ _ _ Hwhy);
           cbn [negb Z.eqb fst snd app]
         | cbn [fst snd app] ];
         (split; [reflexivity | intros H; contradiction])
       | cbn [fst snd app ts_tx set_marker set_mb_rtp];
         split; [reflexivity | reflexivity] ]). }
  destruct Hrun as [Hp Hts].
  split; [exact Hp|]. split; [exact Hm|]. split; [exact Hts|].
  apply tx_run_marker_clear. exact Hm.
Qed.

Lemma marker_lost_without_first_packet_witness :
  Forall (fun m => m = false)
         (sent_markers
            (snd (tx_run core_h_std
                    [op_poll (sample_audio_env 160);
                     op_poll (sample_audio_env 160)]
                    (fst (poll_aubuf_tx core_h_std (sample_audio_env 160)
                            (set_strm sample_audio_started
                                      sample_stream_unset)))))).
Proof.
  refine (proj2 (proj2 (proj2
            (marker_lost_without_first_packet core_h_std
               (sample_audio_env 160)
               (set_strm sample_audio_started sample_stream_unset)
               [op_poll (sample_audio_env 160);
                op_poll (sample_audio_env 160)] _ _ _ _)))).
  - vm_compute. discriminate.
  - reflexivity.
  - reflexivity.
  - right. intros [H _]. vm_compute in H. discriminate H.
Defined.

Lemma aucodec_cmp_fields (c c' : aucodec) :
  aucodec_cmp (Some c) (Some c') = true ->
  ac_name c = ac_name c' /\ ac_srate c = ac_srate c' /\ ac_ch c = ac_ch c'.
Proof.
  unfold aucodec_cmp. intros H.
  apply Bool.andb_true_iff in H. destruct H as [H Hch].
  apply Bool.andb_true_iff in H. destruct H as [Hn Hs].
  apply String.eqb_eq in Hn. apply Z.eqb_eq in Hs, Hch. tauto.
Qed.

Lemma audio_encoder_set_fresh (e : env) (a : audio) (c : aucodec)
      (p : Z) (params : string) :
  enc a = None ->
  snd (fst (audio_encoder_set e a (Some c) p params)) = 0 ->
  exists st,
    enc (fst (fst (audio_encoder_set e a (Some c) p params))) = Some st
    /\ get_srate (Some (st_ac st)) = get_srate (Some c)
    /\ ac_ch (st_ac st) = ac_ch c
    /\ is_g722 (fst (fst (audio_encoder_set e a (Some c) p params)))
       = (str_casecmp (ac_name c) "G722" =? 0)
    /\ ausrc (fst (fst (audio_encoder_set e a (Some c) p params))) = ausrc a
    /\ fc (fst (fst (audio_encoder_set e a (Some c) p params))) = fc a
    /\ ts_tx (fst (fst (audio_encoder_set e a (Some c) p params)))
       = ts_tx a.
Proof.
  intros Henc. unfold audio_encoder_set. rewrite Henc.
  cbn [aucodec_get]. cbv zeta. cbn [dec set_enc set_pt_tx set_is_g722].
  destruct (aucodec_cmp (Some c) (aucodec_get (dec a))) eqn:Ecmp.
  - destruct (dec a) as [st|] eqn:Edec; [|discriminate Ecmp].
    cbn [aucodec_get] in Ecmp.
    destruct (aucodec_cmp_fields _ _ Ecmp) as [Hn [Hs Hc]].
    intros _. exists st. cbn [fst snd]. repeat split.
    + unfold get_srate. rewrite <- Hn, <- Hs. reflexivity.
    + symmetry. exact Hc.
  - destruct (Z.eqb_spec (alloch_err e) 0) as [E0|E0]; cbn [negb fst snd].
    + intros _. eexists. repeat split.
    + intros H. contradiction.
Qed.

Lemma start_player_tx_frame (e : env) (a : audio) (sr : Z) :
  enc (fst (fst (start_player e a sr))) = enc a
  /\ ausrc (fst (fst (start_player e a sr))) = ausrc a
  /\ ptime_tx (fst (fst (start_player e a sr))) = ptime_tx a
  /\ psize (fst (fst (start_player e a sr))) = psize a
  /\ is_g722 (fst (fst (start_player e a sr))) = is_g722 a
  /\ fc (fst (fst (start_player e a sr))) = fc a
  /\ ts_tx (fst (fst (start_player e a sr))) = ts_tx a.
Proof.
  unfold start_player.
  destruct (dec a); case_ifs; repeat split.
Qed.

Lemma start_source_tx_frame (e : env) (a : audio) (sr : Z) :
  enc (fst (fst (start_source e a sr))) = enc a
  /\ ptime_tx (fst (fst (start_source e a sr))) = ptime_tx a
  /\ is_g722 (fst (fst (start_source e a sr))) = is_g722 a
  /\ fc (fst (fst (start_source e a sr))) = fc a
  /\ ts_tx (fst (fst (start_source e a sr))) = ts_tx a.
Proof.
  unfold start_source.
  destruct (enc a) eqn:E; [|repeat split; assumption].
  cbv zeta.
  repeat match goal with
         | |- context [if ?c then _ else _] => destruct c
         | |- context [match ?m with AUDIO_MODE_POLL => _ | _ => _ end] =>
             destruct m
         end; repeat split; assumption.
Qed.

Lemma audio_start_source (e : env) (a : audio) (st : aucodec_st) :
  enc a = Some st -> ausrc a = false ->
  aufilt_list_isempty e = true -> ausrc_find e = true ->
  psize (fst (fst (audio_start e a)))
  = wrapsz (2 * calc_nsamp (get_srate (Some (st_ac st)))
                           (ac_ch (st_ac st)) (ptime_tx a))
  /\ enc (fst (fst (audio_start e a))) = enc a
  /\ is_g722 (fst (fst (audio_start e a))) = is_g722 a
  /\ fc (fst (fst (audio_start e a))) = fc a
  /\ ts_tx (fst (fst (audio_start e a))) = ts_tx a.
Proof.
  intros Henc Hsrc Hempty Hfind. unfold audio_start.
  rewrite Hempty. cbn [negb]. rewrite Bool.andb_false_r.
  cbv zeta. cbn [Z.eqb negb].
  destruct (src_first (config e)).
  - pose proof (start_source_psize e a st Henc Hsrc Hfind) as Hps.
    destruct (start_source_tx_frame e a 0) as [H1 [H2 [H3 [H4 H5]]]].
    destruct (start_source e a 0) as [[a1 e1] evs1]. cbn [fst snd] in *.
    destruct (start_player_tx_frame e a1 0)
      as [G1 [G2 [G3 [G4 [G5 [G6 G7]]]]]].
    destruct (start_player e a1 0) as [[a2 e2] evs2]. cbn [fst snd] in *.
    repeat split; congruence.
  - destruct (start_player_tx_frame e a 0)
      as [G1 [G2 [G3 [G4 [G5 [G6 G7]]]]]].
    destruct (start_player e a 0) as [[a1 e1] evs1]. cbn [fst snd] in *.
    assert (Henc1 : enc a1 = Some st) by congruence.
    assert (Hsrc1 : ausrc a1 = false) by congruence.
    pose proof (start_source_psize e a1 st Henc1 Hsrc1 Hfind) as Hps.
    destruct (start_source_tx_frame e a1 0) as [H1 [H2 [H3 [H4 H5]]]].
    destruct (start_source e a1 0) as [[a2 e2] evs2]. cbn [fst snd] in *.
    repeat split; congruence.
Qed.

Lemma poll_aubuf_tx_step (K : core_h) (e : env) (a : audio) :
  enc a <> None -> fc a = false -> cycle_ok e ->
  ts_tx (fst (poll_aubuf_tx K e a))
  = wrap32 (ts_tx a
            + wrap16 (if is_g722 a then psize a / 4 else psize a / 2))
  /\ enc (fst (poll_aubuf_tx K e a)) = enc a
  /\ is_g722 (fst (poll_aubuf_tx K e a)) = is_g722 a
  /\ psize (fst (poll_aubuf_tx K e a)) = psize a
  /\ fc (fst (poll_aubuf_tx K e a)) = fc a.
Proof.
  intros Henc Hfc [Hmb [Hget [Hench Hsend]]].
  unfold poll_aubuf_tx. rewrite Hmb, Hget. cbn [negb Z.eqb]. cbv zeta.
  unfold process_audio_encode, mbuf_new. cbn [size pos end_].
  rewrite Hfc. cbn [end_].
  match goal with
  | |- context [encode_rtp_send K e a ?b ?m] =>
      pose proof (encode_rtp_send_ok K e a b m Henc Hench Hsend) as Hok;
      destruct (encode_rtp_send K e a b m) as [a' evs']
  end.
  cbn [fst snd app] in *. rewrite Hfc in Hok. exact Hok.
Qed.

Lemma polls_step_timestamp (K : core_h) (es : list env) :
  forall a,
    enc a <> None -> fc a = false ->
    0 <= ts_tx a < 2 ^ 32 ->
    Forall cycle_ok es ->
    ts_tx (fst (tx_run K (map op_poll es) a))
    = wrap32 (ts_tx a
              + wrap16 (if is_g722 a then psize a / 4 else psize a / 2)
                * Z.of_nat (List.length es)).
Proof.
  induction es as [|e es IH]; intros a Henc Hfc Hts0 Hall.
  - simpl. rewrite Z.mul_0_r, Z.add_0_r.
    unfold wrap32. symmetry. apply Z.mod_small. exact Hts0.
  - cbn [map tx_run tx_step].
    pose proof (poll_aubuf_tx_step K e a Henc Hfc (Forall_inv Hall))
      as (Hts & Henc1 & Hg1 & Hps1 & Hfc1).
    destruct (poll_aubuf_tx K e a) as [a1 evs1]. cbn [fst snd] in *.
    assert (IH1 := IH a1).
    destruct (tx_run K (map op_poll es) a1) as [a2 evs2]. cbn [fst snd] in *.
    rewrite IH1.
    + rewrite Hts, Hg1, Hps1. unfold wrap32.
      rewrite Zplus_mod_idemp_l. f_equal.
      rewrite length_cons, Nat2Z.inj_succ. lia.
    + congruence.
    + congruence.
    + rewrite Hts. unfold wrap32. apply Z.mod_pos_bound. lia.
    + exact (Forall_inv_tail Hall).
Qed.

Lemma calc_nsamp_range (srate ch ptime : Z) :
  0 <= calc_nsamp srate ch ptime < 2 ^ 32.
Proof.
  unfold calc_nsamp, wrap32.
  set (x := ((srate mod 2 ^ 32 * wrap8 ch) mod 2 ^ 32 * wrap16 ptime)
            mod 2 ^ 32).
  assert (Hx : 0 <= x < 2 ^ 32) by (apply Z.mod_pos_bound; lia).
  split.
  - apply Z.div_pos; lia.
  - apply Z.div_lt_upper_bound; lia.
Qed.

(** X21: once an encoder is set on a fresh pipeline and the source is
    started (no filters), the packet size is two bytes per sample of one
    packet time at the codec's sampling rate, and every successful cycle
    moves the RTP time stamp on by the samples of one packet; for G.722,
    which samples at 16 kHz, by half of them. *)
Theorem timestamp_step_after_start :
  forall (K : core_h) (e e2 : env) (a : audio) (c : aucodec) (p : Z)
         (params : string) (es : list env),
    enc a = None -> ausrc a = false -> fc a = false ->
    0 <= ts_tx a < 2 ^ 32 ->
    snd (fst (audio_encoder_set e a (Some c) p params)) = 0 ->
    aufilt_list_isempty e2 = true -> ausrc_find e2 = true ->
    Forall cycle_ok es ->
    psize (fst (fst (audio_start e2
                       (fst (fst (audio_encoder_set e a (Some c) p
                                                    params))))))
    = 2 * calc_nsamp (get_srate (Some c)) (ac_ch c)
                     (ptime_tx (fst (fst (audio_encoder_set e a (Some c) p
                                                            params))))
    /\ ts_tx (fst (tx_run K (map op_poll es)
                     (fst (fst (audio_start e2
                                  (fst (fst (audio_encoder_set
                                               e a (Some c) p params))))))))
       = wrap32
           (ts_tx a
            + wrap16
                (if str_casecmp (ac_name c) "G722" =? 0
                 then calc_nsamp (get_srate (Some c)) (ac_ch c)
                        (ptime_tx (fst (fst (audio_encoder_set
                                               e a (Some c) p params)))) / 2
                 else calc_nsamp (get_srate (Some c)) (ac_ch c)
                        (ptime_tx (fst (fst (audio_encoder_set
                                               e a (Some c) p params)))))
              * Z.of_nat (List.length es)).
Proof.
  intros K e e2 a c p params es Henc Hsrc Hfc Hts Herr Hempty Hfind Hall.
  destruct (audio_encoder_set_fresh e a c p params Henc Herr)
    as [st [Henc1 [Hsr [Hch [Hg [Hsrc1 [Hfc1 Hts1]]]]]]].
  set (a1 := fst (fst (audio_encoder_set e a (Some c) p params))) in *.
  destruct (audio_start_source e2 a1 st Henc1 (eq_trans Hsrc1 Hsrc)
                               Hempty Hfind)
    as [Hps [Henc2 [Hg2 [Hfc2 Hts2]]]].
  set (a2 := fst (fst (audio_start e2 a1))) in *.
  rewrite Hsr, Hch in Hps.
  set (N := calc_nsamp (get_srate (Some c)) (ac_ch c) (ptime_tx a1)) in *.
  assert (HN : 0 <= N < 2 ^ 32) by apply calc_nsamp_range.
  assert (Hps2 : psize a2 = 2 * N).
  { rewrite Hps. unfold wrapsz. apply Z.mod_small. lia. }
  split; [exact Hps2|].
  rewrite (polls_step_timestamp K es a2).
  - rewrite Hts2, Hts1, Hg2, Hg, Hps2.
    replace (2 * N / 2) with N
      by (symmetry; rewrite Z.mul_comm; apply Z.div_mul; lia).
    replace (2 * N / 4) with (N / 2).
    + reflexivity.
    + change 4 with (2 * 2). rewrite <- Z.div_div by lia.
      rewrite (Z.mul_comm 2 N), Z.div_mul by lia. reflexivity.
  - rewrite Henc2, Henc1. discriminate.
  - rewrite Hfc2, Hfc1. exact Hfc.
  - rewrite Hts2, Hts1. exact Hts.
  - exact Hall.
Qed.

Lemma timestamp_step_after_start_witness :
  ts_tx (fst (tx_run core_h_std
                (map op_poll (repeat (sample_audio_env 160) 50))
                (fst (fst (audio_start (sample_audio_env 160)
                             (fst (fst (audio_encoder_set
                                          (sample_audio_env 160)
                                          sample_audio (Some g722) 9
                                          ""))))))))
  = 160 + 160 * 50.
Proof.
  refine (eq_trans
            (proj2 (timestamp_step_after_start core_h_std
                      (sample_audio_env 160) (sample_audio_env 160)
                      sample_audio g722 9 ""
                      (repeat (sample_audio_env 160) 50)
                      _ _ _ _ _ _ _ _)) _).
  - reflexivity.
  - reflexivity.
  - reflexivity.
  - simpl. lia.
  - reflexivity.
  - reflexivity.
  - reflexivity.
  - apply Forall_forall. intros x Hx. apply repeat_spec in Hx. subst x.
    repeat split.
  - vm_compute. reflexivity.
Defined.

Lemma wrap_s32_small (x : Z) : - 2 ^ 31 <= x < 2 ^ 31 -> wrap_s32 x = x.
Proof. intros H. unfold wrap_s32. rewrite Z.mod_small; lia. Qed.

Lemma sum_Z_cons (x : Z) (l : list Z) : sum_Z (x :: l) = x + sum_Z l.
Proof. reflexivity. Qed.

Lemma sum_abs_bound (l : list Z) :
  Forall int16 l ->
  0 <= sum_Z (map Z.abs l) <= 2 ^ 15 * Z.of_nat (List.length l)
  /\ (if full_scale_negative l
      then sum_Z (map Z.abs l) = 2 ^ 15 * Z.of_nat (List.length l)
      else sum_Z (map Z.abs l) < 2 ^ 15 * Z.of_nat (List.length l)).
Proof.
  induction 1 as [|x l Hx Hl IH].
  - simpl. split; [lia | reflexivity].
  - destruct IH as [IH1 IH2].
    cbn [map full_scale_negative forallb].
    fold (full_scale_negative l).
    rewrite sum_Z_cons, length_cons, Nat2Z.inj_succ. unfold int16 in Hx.
    split; [lia|].
    destruct (Z.eqb_spec x (- 2 ^ 15)) as [E|E]; cbn [andb].
    + destruct (full_scale_negative l); subst x; lia.
    + lia.
Qed.

Lemma sum_abs_exact (l : list Z) :
  forall v,
    Forall int16 l ->
    0 <= v -> v + 2 ^ 15 * Z.of_nat (List.length l) < 2 ^ 31 ->
    sum_abs v l = v + sum_Z (map Z.abs l).
Proof.
  induction l as [|x l IH]; intros v Hl Hv Hb.
  - simpl. lia.
  - cbn [sum_abs map]. rewrite sum_Z_cons.
    pose proof (Forall_inv Hl) as Hx. unfold int16 in Hx.
    rewrite length_cons, Nat2Z.inj_succ in Hb.
    rewrite wrap_s32_small by lia.
    rewrite IH; [lia | exact (Forall_inv_tail Hl) | lia | lia].
Qed.

Lemma calc_avg_s16_value (l : list Z) :
  Forall int16 l ->
  0 < Z.of_nat (List.length l) < 65536 ->
  calc_avg_s16 (Some l)
  = (if full_scale_negative l then - 2 ^ 15 else mean_abs l)
  /\ (full_scale_negative l = false -> 0 <= mean_abs l < 2 ^ 15)
  /\ (full_scale_negative l = true -> mean_abs l = 2 ^ 15).
Proof.
  intros Hl Hn. unfold calc_avg_s16, mean_abs.
  destruct (Z.eqb_spec (Z.of_nat (List.length l)) 0) as [E|_]; [lia|].
  destruct (sum_abs_bound l Hl) as [Hs Hfull].
  rewrite (sum_abs_exact l 0 Hl) by lia.
  rewrite Z.add_0_l. unfold wrapsz. rewrite Z.mod_small by lia.
  set (S := sum_Z (map Z.abs l)) in *.
  set (n := Z.of_nat (List.length l)) in *.
  assert (Hnpos : 0 < n) by (unfold n; lia).
  destruct (full_scale_negative l).
  - assert (Hq : S / n = 2 ^ 15)
      by (rewrite Hfull; apply Z.div_mul; lia).
    rewrite Hq. split; [reflexivity|]. split; [discriminate | reflexivity].
  - assert (Hq : 0 <= S / n < 2 ^ 15).
    { split; [apply Z.div_pos; lia|].
      apply Z.div_lt_upper_bound; lia. }
    split; [|split; [intros _; exact Hq | discriminate]].
    unfold wrap_s16. rewrite Z.mod_small; lia.
Qed.

(** X22: for up to 65535 samples the level [calc_avg_s16] returns is the
    mean magnitude of the samples, between 0 and 32767, with one
    exception: when every sample is -32768 the mean, 32768, does not fit
    the [int16_t] result and comes out as -32768. *)
Theorem calc_avg_s16_mean :
  forall (l : list Z),
    Forall int16 l ->
    0 < Z.of_nat (List.length l) < 65536 ->
    calc_avg_s16 (Some l)
    = (if full_scale_negative l then - 2 ^ 15 else mean_abs l)
    /\ (full_scale_negative l = false -> 0 <= calc_avg_s16 (Some l) < 2 ^ 15).
Proof.
  intros l Hl Hn.
  destruct (calc_avg_s16_value l Hl Hn) as [Hv [Hr _]].
  split; [exact Hv|]. intros Hf. rewrite Hv, Hf. apply Hr. exact Hf.
Qed.

Lemma calc_avg_s16_mean_witness :
  calc_avg_s16 (Some [1000; -3000; 2000; -32768]) = 9692.
Proof.
  refine (eq_trans (proj1 (calc_avg_s16_mean [1000; -3000; 2000; -32768]
                             _ _)) _).
  - repeat constructor; unfold int16; lia.
  - simpl. lia.
  - reflexivity.
Defined.

(** X23: the bar [audio_print_vu] draws for the level of a block of up to
    65535 samples has one [=] per 1024 of mean magnitude, at most 15;
    this also holds for the block of all -32768, whose negative level is
    read as a huge unsigned number and gives the full bar. *)
Theorem vu_bar_of_samples :
  forall (l : list Z),
    Forall int16 l ->
    0 < Z.of_nat (List.length l) < 65536 ->
    vu_bar_len (calc_avg_s16 (Some l)) = Z.min (mean_abs l / 1024) 15.
Proof.
  intros l Hl Hn.
  destruct (calc_avg_s16_value l Hl Hn) as [Hv [Hr Hfull]].
  rewrite Hv. destruct (full_scale_negative l).
  - rewrite (Hfull eq_refl). reflexivity.
  - specialize (Hr eq_refl). unfold vu_bar_len, wrapsz.
    rewrite (Z.mod_small (mean_abs l)) by lia.
    rewrite Z.mod_small by lia.
    change 0x8000 with (2 * 16 * 1024).
    rewrite Z.div_mul_cancel_l by lia. reflexivity.
Qed.

Lemma vu_bar_of_samples_witness :
  vu_bar_len (calc_avg_s16 (Some [1000; -3000; 2000; -32768])) = 9.
Proof.
  refine (eq_trans (vu_bar_of_samples [1000; -3000; 2000; -32768] _ _) _).
  - repeat constructor; unfold int16; lia.
  - simpl. lia.
  - reflexivity.
Defined.

Lemma aufilt_setup_tx_frame (e : env) (a : audio) :
  psize (fst (fst (fst (fst (aufilt_setup e a))))) = psize a
  /\ ausrc (fst (fst (fst (fst (aufilt_setup e a))))) = ausrc a
  /\ enc (fst (fst (fst (fst (aufilt_setup e a))))) = enc a
  /\ ptime_tx (fst (fst (fst (fst (aufilt_setup e a))))) = ptime_tx a.
Proof.
  unfold aufilt_setup. cbv zeta. cbn [fst snd].
  destruct (aufilt_chain_alloc_err e =? 0); repeat split.
Qed.

Lemma start_source_running (e : env) (a : audio) (sr : Z) :
  ausrc a = true -> start_source e a sr = (a, 0, []).
Proof.
  intros H. unfold start_source. rewrite H. cbn [negb andb].
  destruct (enc a); reflexivity.
Qed.

Lemma audio_start_running (e : env) (a : audio) :
  ausrc a = true -> psize (fst (fst (audio_start e a))) = psize a.
Proof.
  intros Hsrc. unfold audio_start. cbv zeta.
  assert (Hsetup :
    psize (fst (fst (fst (fst
             (if negb (fc a) && negb (aufilt_list_isempty e)
              then aufilt_setup e a else (a, 0, 0, 0, []))))))
    = psize a
    /\ ausrc (fst (fst (fst (fst
                (if negb (fc a) && negb (aufilt_list_isempty e)
                 then aufilt_setup e a else (a, 0, 0, 0, []))))))
       = true).
  { destruct (negb (fc a) && negb (aufilt_list_isempty e)).
    - destruct (aufilt_setup_tx_frame e a) as [H1 [H2 _]].
      split; congruence.
    - split; [reflexivity | exact Hsrc]. }
  destruct (if negb (fc a) && negb (aufilt_list_isempty e)
            then aufilt_setup e a else (a, 0, 0, 0, []))
    as [[[[a0 err] sre] srd] evs0].
  cbn [fst snd] in Hsetup. destruct Hsetup as [Hp0 Hs0].
  destruct (negb (err =? 0)); [exact Hp0|].
  destruct (src_first (config e)).
  - rewrite (start_source_running e a0 sre Hs0).
    destruct (start_player_tx_frame e a0 srd) as [_ [_ [_ [G _]]]].
    destruct (start_player e a0 srd) as [[a2 e2] evs2]. cbn [fst snd] in *.
    congruence.
  - destruct (start_player_tx_frame e a0 srd) as [_ [G1 [_ [G _]]]].
    destruct (start_player e a0 srd) as [[a1 e1] evs1]. cbn [fst snd] in *.
    rewrite (start_source_running e a1 sre) by congruence.
    cbn [fst]. congruence.
Qed.

(** X24: a packet time changed by [audio_ptime_tx_set] does not reach the
    packet size while the source runs: the size stays what it was, also
    across [audio_start].  Only stopping and starting again recomputes it
    from the new packet time. *)
Theorem ptime_change_needs_restart :
  forall (e : env) (a : audio) (st : aucodec_st) (p : Z),
    enc a = Some st ->
    ausrc a = true ->
    ptime_tx (audio_ptime_tx_set a p) = p
    /\ psize (audio_ptime_tx_set a p) = psize a
    /\ psize (fst (fst (audio_start e (audio_ptime_tx_set a p)))) = psize a
    /\ (aufilt_list_isempty e = true -> ausrc_find e = true ->
        psize (fst (fst (audio_start e
                           (fst (audio_stop (audio_ptime_tx_set a p))))))
        = wrapsz (2 * calc_nsamp (get_srate (Some (st_ac st)))
                                 (ac_ch (st_ac st)) p)).
Proof.
  intros e a st p Henc Hsrc.
  assert (Hset : ptime_tx (audio_ptime_tx_set a p) = p
                 /\ psize (audio_ptime_tx_set a p) = psize a
                 /\ enc (audio_ptime_tx_set a p) = enc a
                 /\ ausrc (audio_ptime_tx_set a p) = ausrc a).
  { unfold audio_ptime_tx_set.
    destruct (Z.eqb_spec p (ptime_tx a)) as [E|E]; cbn [negb];
      repeat split; symmetry; exact E. }
  destruct Hset as [Hp [Hps [He Hs]]].
  split; [exact Hp|]. split; [exact Hps|]. split.
  - rewrite audio_start_running; [exact Hps | congruence].
  - intros Hempty Hfind.
    set (a1 := audio_ptime_tx_set a p) in *.
    assert (Hstop : enc (fst (audio_stop a1)) = enc a1
                    /\ ausrc (fst (audio_stop a1)) = false
                    /\ ptime_tx (fst (audio_stop a1)) = ptime_tx a1).
    { unfold audio_stop. destruct (mode a1); [| destruct (run_tx a1)
                                               | destruct (run_tx a1) |];
        repeat split. }
    destruct Hstop as [He2 [Hs2 Hp2]].
    destruct (audio_start_source e (fst (audio_stop a1)) st
                (eq_trans He2 (eq_trans He Henc)) Hs2 Hempty Hfind)
      as [H _].
    rewrite H, Hp2, Hp. reflexivity.
Qed.

Lemma ptime_change_needs_restart_witness :
  psize (fst (fst (audio_start (sample_audio_env 160)
                     (audio_ptime_tx_set sample_audio_started 40)))) = 320
  /\ psize (fst (fst (audio_start (sample_audio_env 160)
                        (fst (audio_stop
                                (audio_ptime_tx_set sample_audio_started
                                                    40)))))) = 640.
Proof.
  destruct (ptime_change_needs_restart (sample_audio_env 160)
              sample_audio_started {| st_ac := pcmu; st_id := 1 |} 40)
    as [_ [_ [H1 H2]]].
  - reflexivity.
  - reflexivity.
  - split; [exact H1 | apply H2; reflexivity].
Defined.

Lemma stream_send_in_tel (e : env) (a : audio) (m : bool) (p t : Z)
      (mb : mbuf) :
  Stream.sdp (strm (fst (fst (stream_send_in e a m p t mb))))
  = Stream.sdp (strm a)
  /\ ts_tel (fst (fst (stream_send_in e a m p t mb))) = ts_tel a
  /\ pt_tel_tx (fst (fst (stream_send_in e a m p t mb))) = pt_tel_tx a
  /\ ts_tx (fst (fst (stream_send_in e a m p t mb))) = ts_tx a
  /\ marker (fst (fst (stream_send_in e a m p t mb))) = marker a
  /\ enc (fst (fst (stream_send_in e a m p t mb))) = enc a.
Proof.
  unfold stream_send_in, Stream.stream_send.
  case_ifs; cbn [fst snd strm set_strm]; repeat split.
Qed.

Lemma encode_rtp_send_tel (K : core_h) (e : env) (a : audio) (mb : mbuf)
      (nsamp : Z) :
  Stream.sdp (strm (fst (encode_rtp_send K e a mb nsamp)))
  = Stream.sdp (strm a)
  /\ ts_tel (fst (encode_rtp_send K e a mb nsamp)) = ts_tel a
  /\ pt_tel_tx (fst (encode_rtp_send K e a mb nsamp)) = pt_tel_tx a.
Proof.
  unfold encode_rtp_send.
  destruct (enc a); [|repeat split]. cbv zeta.
  destruct (negb (ench_err e =? 0)); [repeat split|].
  match goal with
  | |- context [if negb (mbuf_get_left ?b =? 0) then _ else _] =>
      destruct (negb (mbuf_get_left b =? 0))
  end; [|repeat split].
  match goal with
  | |- context [stream_send_in e ?x ?m ?p ?t ?b] =>
      destruct (stream_send_in_tel e x m p t b) as [H1 [H2 [H3 _]]];
      destruct (stream_send_in e x m p t b) as [[a' err] evs]
  end.
  cbn [fst snd] in *.
  destruct (negb (err =? 0)); cbn [fst]; repeat split; assumption.
Qed.

Lemma poll_aubuf_tx_tel (K : core_h) (e : env) (a : audio) :
  Stream.sdp (strm (fst (poll_aubuf_tx K e a))) = Stream.sdp (strm a)
  /\ ts_tel (fst (poll_aubuf_tx K e a)) = ts_tel a
  /\ pt_tel_tx (fst (poll_aubuf_tx K e a)) = pt_tel_tx a.
Proof.
  unfold poll_aubuf_tx.
  destruct (negb (mbuf_alloc_ok e)); [repeat split|]. cbv zeta.
  destruct (aubuf_get_err e =? 0); [|repeat split].
  unfold process_audio_encode.
  destruct (fc a);
    match goal with
    | |- context [encode_rtp_send K e a ?b ?n] =>
        pose proof (encode_rtp_send_tel K e a b n) as H;
        destruct (encode_rtp_send K e a b n) as [a' evs']
    end; exact H.
Qed.

Lemma polls_tel (K : core_h) (es : list env) :
  forall a,
    Stream.sdp (strm (fst (tx_run K (map op_poll es) a)))
    = Stream.sdp (strm a)
    /\ ts_tel (fst (tx_run K (map op_poll es) a)) = ts_tel a
    /\ pt_tel_tx (fst (tx_run K (map op_poll es) a)) = pt_tel_tx a.
Proof.
  induction es as [|e es IH]; intros a; [repeat split|].
  cbn [map tx_run tx_step].
  pose proof (poll_aubuf_tx_tel K e a) as [H1 [H2 H3]].
  destruct (poll_aubuf_tx K e a) as [a1 evs1]. cbn [fst snd] in *.
  destruct (IH a1) as [G1 [G2 G3]].
  destruct (tx_run K (map op_poll es) a1) as [a2 evs2]. cbn [fst snd] in *.
  repeat split; congruence.
Qed.

Lemma check_telev_sends (K : core_h) (e : env) (t : telev_poll_res)
      (a : audio) :
  poll_err t = 0 ->
  can_send (strm a) ->
  0 <= pt_tel_tx a ->
  filter is_packet (snd (check_telev K e t a))
  = [ev_rtp_send (poll_marker t) (pt_tel_tx a)
                 (if poll_marker t then ts_tx a else ts_tel a)
                 (Z.max 0 (poll_len t))]
  /\ ts_tel (fst (check_telev K e t a))
     = (if poll_marker t then ts_tx a else ts_tel a)
  /\ Stream.sdp (strm (fst (check_telev K e t a))) = Stream.sdp (strm a)
  /\ pt_tel_tx (fst (check_telev K e t a)) = pt_tel_tx a
  /\ ts_tx (fst (check_telev K e t a)) = ts_tx a
  /\ marker (fst (check_telev K e t a)) = marker a
  /\ enc (fst (check_telev K e t a)) = enc a.
Proof.
  intros Herr [Ha Hd] Hpt. unfold check_telev. cbv zeta.
  rewrite Herr. cbn [negb Z.eqb].
  unfold stream_send_in, Stream.stream_send.
  assert (Hlen : forall sz,
             mbuf_get_left (Some {| size := sz; pos := STREAM_PRESZ K;
                                    end_ := STREAM_PRESZ K + poll_len t |})
             = Z.max 0 (poll_len t)).
  { intros sz. unfold mbuf_get_left. cbn [pos end_].
    destruct (Z.ltb_spec (STREAM_PRESZ K) (STREAM_PRESZ K + poll_len t));
      lia. }
  destruct (poll_marker t);
    cbn [strm set_ts_tel set_mb_rtp mb_rtp pt_tel_tx ts_tel size end_];
    rewrite Ha, Hd, Z.eqb_refl; cbn [negb]; cbv zeta;
    apply Z.ltb_ge in Hpt; rewrite Hpt;
    apply Z.ltb_ge in Hpt; apply Z.leb_le in Hpt; rewrite Hpt;
    rewrite Hlen;
    destruct (Stream.rtp_send_err (strm_env e) =? 0);
    cbn [fst snd app filter is_packet]; repeat split.
Qed.

(** X25: a telephone-event packet that starts an event (marker set) takes
    the audio time stamp of that moment; the packets that continue the
    event carry that same time stamp, however far the audio time stamp
    has moved on in between.  Sending events changes neither the audio
    time stamp nor the audio marker. *)
Theorem telev_timestamp_latched :
  forall (K : core_h) (e1 e3 : env) (es : list env)
         (t1 t2 : telev_poll_res) (a : audio),
    poll_err t1 = 0 -> poll_marker t1 = true ->
    poll_err t2 = 0 -> poll_marker t2 = false ->
    can_send (strm a) ->
    0 <= pt_tel_tx a ->
    filter is_packet (snd (check_telev K e1 t1 a))
    = [ev_rtp_send true (pt_tel_tx a) (ts_tx a) (Z.max 0 (poll_len t1))]
    /\ filter is_packet
         (snd (check_telev K e3 t2
                 (fst (tx_run K (map op_poll es)
                              (fst (check_telev K e1 t1 a))))))
       = [ev_rtp_send false (pt_tel_tx a) (ts_tx a) (Z.max 0 (poll_len t2))]
    /\ ts_tx (fst (check_telev K e1 t1 a)) = ts_tx a
    /\ marker (fst (check_telev K e1 t1 a)) = marker a.
Proof.
  intros K e1 e3 es t1 t2 a He1 Hm1 He2 Hm2 Hc Hpt.
  destruct (check_telev_sends K e1 t1 a He1 Hc Hpt)
    as [Hp1 [Htel1 [Hsdp1 [Hpt1 [Hts1 [Hmk1 _]]]]]].
  rewrite Hm1 in Hp1, Htel1.
  split; [exact Hp1|].
  set (a1 := fst (check_telev K e1 t1 a)) in *.
  destruct (polls_tel K es a1) as [Hsdp2 [Htel2 Hpt2]].
  set (a2 := fst (tx_run K (map op_poll es) a1)) in *.
  assert (Hc2 : can_send (strm a2)).
  { unfold can_send in *. rewrite Hsdp2, Hsdp1. exact Hc. }
  assert (Hpt3 : 0 <= pt_tel_tx a2) by (rewrite Hpt2, Hpt1; exact Hpt).
  destruct (check_telev_sends K e3 t2 a2 He2 Hc2 Hpt3) as [Hp2 _].
  rewrite Hm2 in Hp2. rewrite Hp2, Hpt2, Hpt1, Htel2, Htel1.
  split; [reflexivity|]. split; [exact Hts1 | exact Hmk1].
Qed.

Lemma telev_timestamp_latched_witness :
  filter is_packet
    (snd (check_telev core_h_std (sample_audio_env 160) (sample_telev false)
            (fst (tx_run core_h_std
                    (map op_poll (repeat (sample_audio_env 160) 3))
                    (fst (check_telev core_h_std (sample_audio_env 160)
                            (sample_telev true)
                            (set_ts_tx sample_audio_rx 4000)))))))
  = [ev_rtp_send false 101 4000 4].
Proof.
  refine (proj1 (proj2 (telev_timestamp_latched core_h_std
                          (sample_audio_env 160) (sample_audio_env 160)
                          (repeat (sample_audio_env 160) 3)
                          (sample_telev true) (sample_telev false)
                          (set_ts_tx sample_audio_rx 4000)
                          _ _ _ _ _ _))).
  - reflexivity.
  - reflexivity.
  - reflexivity.
  - reflexivity.
  - split; reflexivity.
  - simpl. lia.
Defined.

(** X26: outside poll mode, and whenever there is no transmit buffer or
    the write to it fails, the capture callback never runs the encoder and
    leaves the audio time stamp and marker alone; telephone events are
    still polled and sent from it, in every mode. *)
Theorem capture_callback_encodes_only_in_poll_mode :
  forall (K : core_h) (e : env) (t : telev_poll_res) (w : Z) (a : audio),
    mode a <> AUDIO_MODE_POLL \/ aubuf_tx a = false \/ w <> 0 ->
    fst (ausrc_read_handler K e t w a) = fst (check_telev K e t a)
    /\ filter is_ench (snd (ausrc_read_handler K e t w a)) = []
    /\ filter is_packet (snd (ausrc_read_handler K e t w a))
       = filter is_packet (snd (check_telev K e t a))
    /\ (poll_err t <> 0 ->
        packets_sent (snd (ausrc_read_handler K e t w a)) = 0%nat)
    /\ ts_tx (fst (ausrc_read_handler K e t w a)) = ts_tx a
    /\ marker (fst (ausrc_read_handler K e t w a)) = marker a.
Proof.
  intros K e t w a Hwhy.
  assert (Htel : filter is_ench (snd (check_telev K e t a)) = []
                 /\ (poll_err t <> 0 ->
                     filter is_packet (snd (check_telev K e t a)) = [])
                 /\ ts_tx (fst (check_telev K e t a)) = ts_tx a
                 /\ marker (fst (check_telev K e t a)) = marker a).
  { unfold check_telev. cbv zeta.
    destruct (Z.eqb_spec (poll_err t) 0) as [E|E]; cbn [negb].
    - match goal with
      | |- context [stream_send_in e ?x ?m ?p ?ts ?b] =>
          destruct (stream_send_in_frame e x m p ts b)
            as [s' [err [evs [Hs [Hevs _]]]]];
          destruct (stream_send_in_tel e x m p ts b)
            as [_ [_ [_ [Hts [Hmk _]]]]];
          rewrite Hs in *
      end.
      cbn [fst snd] in *.
      split; [|split; [intros H; contradiction|]].
      + rewrite filter_app.
        destruct Hevs as [-> | ->]; destruct (err =? 0); reflexivity.
      + split.
        * rewrite Hts. destruct (poll_marker t); reflexivity.
        * rewrite Hmk. destruct (poll_marker t); reflexivity.
    - cbn [fst snd]. repeat split. }
  destruct Htel as [Hq [Hnone [Hts Hmk]]].
  assert (Hrun : exists pre,
             ausrc_read_handler K e t w a
             = (fst (check_telev K e t a), pre ++ snd (check_telev K e t a))
             /\ (pre = [] \/ pre = [ev_aubuf_write])).
  { unfold ausrc_read_handler.
    destruct (aubuf_tx a) eqn:Eb.
    - destruct (Z.eqb_spec w 0) as [Ew|Ew]; cbn [negb].
      + destruct (mode a) eqn:Em;
          [ destruct Hwhy as [H|[H|H]];
            [ contradiction | discriminate | contradiction ]
          | | | ];
          destruct (check_telev K e t a) as [a' evs'];
          exists [ev_aubuf_write]; (split; [reflexivity | right; reflexivity]).
      + destruct (check_telev K e t a) as [a' evs'].
        exists [ev_aubuf_write]. split; [reflexivity | right; reflexivity].
    - destruct (check_telev K e t a) as [a' evs'].
      exists []. split; [reflexivity | left; reflexivity]. }
  destruct Hrun as [pre [Hrun Hpre]]. rewrite Hrun. cbn [fst snd].
  assert (Hpq : filter is_ench pre = [] /\ filter is_packet pre = [])
    by (destruct Hpre as [-> | ->]; split; reflexivity).
  destruct Hpq as [Hp1 Hp2].
  split; [reflexivity|]. split.
  - rewrite filter_app, Hp1, Hq. reflexivity.
  - split; [rewrite filter_app, Hp2; reflexivity|]. split.
    + intros H. unfold packets_sent.
      rewrite filter_app, Hp2, (Hnone H). reflexivity.
    + split; assumption.
Qed.

Lemma capture_callback_encodes_only_in_poll_mode_witness :
  filter is_ench
    (snd (ausrc_read_handler core_h_std (sample_audio_env 160)
            (sample_telev true) 5 sample_audio_started)) = [].
Proof.
  refine (proj1 (proj2 (capture_callback_encodes_only_in_poll_mode
                          core_h_std (sample_audio_env 160)
                          (sample_telev true) 5 sample_audio_started _))).
  right. right. lia.
Defined.

Lemma digit_run_app (d : Z -> Z) (l1 l2 : list (Z * Z)) :
  forall cur,
    digit_run d (l1 ++ l2) cur
    = (fst (digit_run d l2 (fst (digit_run d l1 cur))),
       snd (digit_run d l1 cur)
       ++ snd (digit_run d l2 (fst (digit_run d l1 cur)))).
Proof.
  induction l1 as [|[key err] l1 IH]; intros cur.
  - cbn [app digit_run fst snd]. destruct (digit_run d l2 cur); reflexivity.
  - cbn [app digit_run].
    destruct (audio_send_digit d err cur key) as [[cur1 r] evs1].
    rewrite IH.
    destruct (digit_run d l1 cur1) as [cur2 evs2]. cbn [fst snd].
    rewrite app_assoc. reflexivity.
Qed.

(** X27: keys pressed and released in turn, starting with no key down,
    make the DTMF encoder start and then end each key's event, in order,
    whatever [telev_send] answers, and leave no key down; a release when
    no key is down sends nothing. *)
Theorem dtmf_press_release_pairs :
  forall (digit2code : Z -> Z) (keys : list (Z * Z * Z)),
    Forall (fun k => 0 < fst (fst k)) keys ->
    digit_run digit2code (flat_map press_release keys) 0
    = (0, flat_map (fun k => [telev_send (digit2code (fst (fst k))) false;
                              telev_send (digit2code (fst (fst k))) true])
                   keys)
    /\ forall err, audio_send_digit digit2code err 0 0 = (0, 0, []).
Proof.
  intros d keys Hall. split; [|reflexivity].
  induction Hall as [|[[k e1] e2] keys Hk Hall IH]; [reflexivity|].
  cbn [flat_map press_release fst snd] in *.
  assert (Hpair : digit_run d [(k, e1); (0, e2)] 0
                  = (0, [telev_send (d k) false; telev_send (d k) true])).
  { cbn [digit_run]. unfold audio_send_digit.
    rewrite (proj2 (Z.ltb_lt 0 k) Hk). change (0 <? 0) with false.
    cbv iota. rewrite (proj2 (Z.eqb_neq k 0)) by lia. reflexivity. }
  rewrite digit_run_app.
  change (press_release (k, e1, e2)) with [(k, e1); (0, e2)].
  rewrite Hpair. cbn [fst snd]. rewrite IH. reflexivity.
Qed.

Lemma dtmf_press_release_pairs_witness :
  digit_run (fun k => k - 48)
            (flat_map press_release [(49, 0, 0); (50, 5, 0)]) 0
  = (0, [telev_send 1 false; telev_send 1 true;
         telev_send 2 false; telev_send 2 true]).
Proof.
  refine (proj1 (dtmf_press_release_pairs (fun k => k - 48)
                   [(49, 0, 0); (50, 5, 0)] _)).
  repeat constructor; simpl; lia.
Defined.

End AudioMore.
